(** * json_decoding: a logical-decoding output plugin that prints changes as JSON

    A shallow embedding of [json_decoding.c] and the properties of its
    callbacks.  Buffers ([StringInfo]) are strings that the functions extend
    and return; [ereport(ERROR, ...)], a failed [Assert] and a read through a
    NULL pointer end a callback and are the [Err] results of the [result]
    type.  What the plugin takes from the PostgreSQL server (the boolean
    parser, identifier quoting, catalog lookups, the timestamp printer, the
    [Assert] and [SQL_STR_DOUBLE] macros) is the [Host] record, over which
    every theorem is stated.  The calls of the server are taken to return;
    the row encoder and the change callback are also given with the calls of
    the row encoder that can raise ([tuple_to_json_field_checked],
    [pg_decode_change_checked]). *)

From Stdlib Require Import String Ascii List Bool Arith NArith ZArith Lia.
From Stdlib Require Import Decimal DecimalFacts DecimalN DecimalString.
Import ListNotations.

Local Open Scope string_scope.

(** ** C string literals *)

Definition dquote : ascii := ascii_of_nat 34.

Definition backslash : ascii := ascii_of_nat 92.

(** The literals of the source are full of double quotes.  They are written
    here with an apostrophe in the place of each double quote, and [cstr]
    puts the double quotes back: [cstr "{ 'a': "] is the C literal
    [{ \"a\": ]. *)
Fixpoint cstr (s : string) : string :=
  match s with
  | EmptyString => EmptyString
  | String c r => String (if Ascii.eqb c "'" then dquote else c) (cstr r)
  end.

(** ** Results of a callback *)

Inductive sqlerrcode : Type :=
| ERRCODE_INVALID_PARAMETER_VALUE.

Inductive failure : Type :=
| ereport_ERROR (code : sqlerrcode) (errmsg : string)
| FailedAssertion
| NullPointerRead.

Inductive result (A : Type) : Type :=
| Ok (a : A)
| Err (f : failure).

Arguments Ok {A} a.
Arguments Err {A} f.

Definition bind {A B : Type} (r : result A) (k : A -> result B) : result B :=
  match r with
  | Ok a => k a
  | Err f => Err f
  end.

Notation "x <- r ;; k" := (bind r (fun x => k))
  (at level 61, r at next level, right associativity).

(** ** The server's types, as far as the plugin reads them *)

Definition Oid := N.
Definition TransactionId := N.
Definition TimestampTz := Z.
Definition RepOriginId := N.

Definition InvalidOid : Oid := 0%N.
Definition InvalidRepOriginId : RepOriginId := 0%N.

(** Type identifiers of [catalog/pg_type.h]. *)
Definition BOOLOID : Oid := 16%N.
Definition INT8OID : Oid := 20%N.
Definition INT2OID : Oid := 21%N.
Definition INT4OID : Oid := 23%N.
Definition TEXTOID : Oid := 25%N.
Definition OIDOID : Oid := 26%N.
Definition FLOAT4OID : Oid := 700%N.
Definition FLOAT8OID : Oid := 701%N.
Definition TIMESTAMPOID : Oid := 1114%N.
Definition BITOID : Oid := 1560%N.
Definition VARBITOID : Oid := 1562%N.
Definition NUMERICOID : Oid := 1700%N.

(** An option of the startup message: [arg] is [None] for a NULL pointer. *)
Record DefElem : Type := mkDefElem {
  defname : string;
  arg : option string
}.

Record Form_pg_attribute : Type := mkAttr {
  attname : string;
  atttypid : Oid;
  attnum : Z;
  attisdropped : bool
}.

(** A tuple descriptor is the array of its attributes; [natts] is its length. *)
Definition TupleDesc := list Form_pg_attribute.

(** A datum of a tuple, with what the plugin asks of it: whether it is an
    external on-disk (toasted) varlena, and the text its type's output
    function prints for it. *)
Record Datum : Type := mkDatum {
  varatt_external_ondisk : bool;
  datum_text : string
}.

(** A heap tuple: one entry per attribute, [None] for NULL. *)
Definition HeapTuple := list (option Datum).

Record Relation : Type := mkRelation {
  rd_id : Oid;
  relname : string;
  relrewrite : Oid;
  rd_att : TupleDesc
}.

Inductive ReorderBufferChangeType : Type :=
| REORDER_BUFFER_CHANGE_INSERT
| REORDER_BUFFER_CHANGE_UPDATE
| REORDER_BUFFER_CHANGE_DELETE
| REORDER_BUFFER_CHANGE_MESSAGE
| REORDER_BUFFER_CHANGE_INTERNAL_SNAPSHOT
| REORDER_BUFFER_CHANGE_INTERNAL_COMMAND_ID
| REORDER_BUFFER_CHANGE_INTERNAL_TUPLECID
| REORDER_BUFFER_CHANGE_INTERNAL_SPEC_INSERT
| REORDER_BUFFER_CHANGE_INTERNAL_SPEC_CONFIRM
| REORDER_BUFFER_CHANGE_TRUNCATE.

Record ReorderBufferChange : Type := mkChange {
  action : ReorderBufferChangeType;
  oldtuple : option HeapTuple;
  newtuple : option HeapTuple
}.

Record ReorderBufferTXN : Type := mkTXN {
  txn_xid : TransactionId;
  txn_commit_time : TimestampTz
}.

Inductive OutputPluginOutputType : Type :=
| OUTPUT_PLUGIN_BINARY_OUTPUT
| OUTPUT_PLUGIN_TEXTUAL_OUTPUT.

Record OutputPluginOptions : Type := mkOpt {
  output_type : OutputPluginOutputType;
  receive_rewrites : bool
}.

(** ** The plugin's private data (the memory context is not modelled) *)

Record JsonDecodingData : Type := mkData {
  include_xids : bool;
  include_timestamp : bool;
  skip_empty_xacts : bool;
  xact_wrote_changes : bool;
  only_local : bool;
  include_messages : bool;
  include_toast_datum : bool;
  xid : TransactionId;
  commit_time : TimestampTz
}.

(** The decoding context: the private data, the output buffer [out], and the
    records that [OutputPluginWrite] has handed to the transport so far, the
    oldest first. *)
Record LogicalDecodingContext : Type := mkCtx {
  output_plugin_private : JsonDecodingData;
  out : string;
  written : list string
}.

(** ** What the server provides *)

Record Host : Type := mkHost {
  (** [parse_bool(value, &result)]: [None] when it returns false. *)
  parse_bool : string -> option bool;
  quote_identifier : string -> string;
  quote_qualified_identifier : string -> string -> string;
  get_rel_namespace : Oid -> Oid;
  get_namespace_name : Oid -> string;
  get_rel_name : Oid -> string;
  timestamptz_to_str : TimestampTz -> string;
  (** [getTypeOutputInfo(typid, &typoutput, &typisvarlena)], for a type the
      catalog knows. *)
  getTypeOutputInfo : Oid -> Oid * bool;
  (** The macro [SQL_STR_DOUBLE(ch, escape_backslash)] of [c.h]. *)
  SQL_STR_DOUBLE : ascii -> bool -> bool;
  (** Whether the server was built with [USE_ASSERT_CHECKING]. *)
  assert_checking : bool
}.

(** [Assert(condition)]: a trap in an assert-enabled build, nothing otherwise. *)
Definition Assert (h : Host) (condition : bool) : result unit :=
  if assert_checking h && negb condition then Err FailedAssertion else Ok tt.

(** [strVal(v)] reads the string of the node [v] points to. *)
Definition strVal (v : option string) : result string :=
  match v with
  | Some s => Ok s
  | None => Err NullPointerRead
  end.

Definition VARATT_IS_EXTERNAL_ONDISK (d : Datum) : bool :=
  varatt_external_ondisk d.

Definition PG_DETOAST_DATUM (d : Datum) : Datum :=
  mkDatum false (datum_text d).

Definition OidOutputFunctionCall (typoutput : Oid) (d : Datum) : string :=
  datum_text d.

(** [heap_getattr(tuple, attnum, tupdesc, &isnull)]: the datum, or [None]
    when [isnull] is set; an attribute the tuple does not store is NULL. *)
Definition heap_getattr (tuple : HeapTuple) (attnum : nat) : option Datum :=
  match nth_error tuple (attnum - 1) with
  | Some d => d
  | None => None
  end.

(** [printf]'s [%u]. *)
Definition print_u (n : N) : string :=
  NilZero.string_of_uint (N.to_uint n).

(** The transport: [OutputPluginPrepareWrite] starts a record in an empty
    buffer and [OutputPluginWrite] sends the buffer. *)
Definition OutputPluginPrepareWrite (ctx : LogicalDecodingContext)
  : LogicalDecodingContext :=
  mkCtx (output_plugin_private ctx) EmptyString (written ctx).

Definition OutputPluginWrite (ctx : LogicalDecodingContext)
  : LogicalDecodingContext :=
  mkCtx (output_plugin_private ctx) (out ctx) (written ctx ++ [out ctx]).

Definition set_private (ctx : LogicalDecodingContext) (d : JsonDecodingData)
  : LogicalDecodingContext :=
  mkCtx d (out ctx) (written ctx).

Definition appendStringInfoString (ctx : LogicalDecodingContext) (s : string)
  : LogicalDecodingContext :=
  mkCtx (output_plugin_private ctx) (out ctx ++ s) (written ctx).

(** ** Startup: the options *)

Definition hasParameter (elem : DefElem) (param : string) : bool :=
  String.eqb (defname elem) param.

Definition arg_not_NULL (elem : DefElem) : bool :=
  match arg elem with
  | Some _ => true
  | None => false
  end.

Definition reportErrorInvalidParam {A : Type} (elem : DefElem) : result A :=
  v <- strVal (arg elem) ;;
  Err (ereport_ERROR ERRCODE_INVALID_PARAMETER_VALUE
         (cstr "could not parse value '" ++ v
            ++ cstr "' for parameter '" ++ defname elem ++ cstr "'")).

Definition reportUnknownParam {A : Type} (elem : DefElem) : result A :=
  Err (ereport_ERROR ERRCODE_INVALID_PARAMETER_VALUE
         (cstr "option '" ++ defname elem ++ cstr "' = '"
            ++ match arg elem with Some v => v | None => "(null)" end
            ++ cstr "' is unknown")).

Definition set_include_xids (d : JsonDecodingData) (b : bool) :=
  mkData b (include_timestamp d) (skip_empty_xacts d) (xact_wrote_changes d)
         (only_local d) (include_messages d) (include_toast_datum d)
         (xid d) (commit_time d).

Definition set_include_timestamp (d : JsonDecodingData) (b : bool) :=
  mkData (include_xids d) b (skip_empty_xacts d) (xact_wrote_changes d)
         (only_local d) (include_messages d) (include_toast_datum d)
         (xid d) (commit_time d).

Definition set_skip_empty_xacts (d : JsonDecodingData) (b : bool) :=
  mkData (include_xids d) (include_timestamp d) b (xact_wrote_changes d)
         (only_local d) (include_messages d) (include_toast_datum d)
         (xid d) (commit_time d).

Definition set_xact_wrote_changes (d : JsonDecodingData) (b : bool) :=
  mkData (include_xids d) (include_timestamp d) (skip_empty_xacts d) b
         (only_local d) (include_messages d) (include_toast_datum d)
         (xid d) (commit_time d).

Definition set_only_local (d : JsonDecodingData) (b : bool) :=
  mkData (include_xids d) (include_timestamp d) (skip_empty_xacts d)
         (xact_wrote_changes d) b (include_messages d) (include_toast_datum d)
         (xid d) (commit_time d).

Definition set_include_toast_datum (d : JsonDecodingData) (b : bool) :=
  mkData (include_xids d) (include_timestamp d) (skip_empty_xacts d)
         (xact_wrote_changes d) (only_local d) (include_messages d) b
         (xid d) (commit_time d).

Definition set_xid (d : JsonDecodingData) (x : TransactionId) :=
  mkData (include_xids d) (include_timestamp d) (skip_empty_xacts d)
         (xact_wrote_changes d) (only_local d) (include_messages d)
         (include_toast_datum d) x (commit_time d).

Definition set_commit_time (d : JsonDecodingData) (t : TimestampTz) :=
  mkData (include_xids d) (include_timestamp d) (skip_empty_xacts d)
         (xact_wrote_changes d) (only_local d) (include_messages d)
         (include_toast_datum d) (xid d) t.

Definition set_receive_rewrites (o : OutputPluginOptions) (b : bool) :=
  mkOpt (output_type o) b.

(** What startup builds: the private data and the plugin's options. *)
Definition Startup : Type := (JsonDecodingData * OutputPluginOptions)%type.

(** [has_parser_error = !parse_bool(strVal(elem->arg), &field)] followed by
    the test of [has_parser_error] that ends the loop body: the field is
    stored, or [reportErrorInvalidParam] raises. *)
Definition parse_bool_into (h : Host) (elem : DefElem)
    (store : bool -> Startup) : result Startup :=
  v <- strVal (arg elem) ;;
  match parse_bool h v with
  | Some b => Ok (store b)
  | None => reportErrorInvalidParam elem
  end.

(** The body of the [foreach] of [pg_decode_startup].  Its opening
    assertion, that [elem->arg] is NULL or a string node, holds of every
    [DefElem] here. *)
Definition startup_option (h : Host) (st : Startup) (elem : DefElem)
  : result Startup :=
  let (data, opt) := st in
  if hasParameter elem "include-xids" && arg_not_NULL elem then
    parse_bool_into h elem (fun b => (set_include_xids data b, opt))
  else if hasParameter elem "include-timestamp" && arg_not_NULL elem then
    parse_bool_into h elem (fun b => (set_include_timestamp data b, opt))
  else if hasParameter elem "skip-empty-xacts" && arg_not_NULL elem then
    parse_bool_into h elem (fun b => (set_skip_empty_xacts data b, opt))
  else if hasParameter elem "only-local" then
    if arg_not_NULL elem then
      Ok (set_only_local data true, opt)
    else
      parse_bool_into h elem (fun b => (set_only_local data b, opt))
  else if hasParameter elem "include-rewrites" && arg_not_NULL elem then
    parse_bool_into h elem (fun b => (data, set_receive_rewrites opt b))
  else if hasParameter elem "include-toast-datum" && arg_not_NULL elem then
    parse_bool_into h elem (fun b => (set_include_toast_datum data b, opt))
  else
    reportUnknownParam elem.

Fixpoint startup_options (h : Host) (st : Startup) (options : list DefElem)
  : result Startup :=
  match options with
  | [] => Ok st
  | elem :: rest =>
      st' <- startup_option h st elem ;;
      startup_options h st' rest
  end.

(** [palloc0] and the defaults that [pg_decode_startup] stores. *)
Definition startup_defaults : Startup :=
  (mkData true true true false false false true 0%N 0%Z,
   mkOpt OUTPUT_PLUGIN_TEXTUAL_OUTPUT false).

Definition pg_decode_startup (h : Host) (output_plugin_options : list DefElem)
  : result Startup :=
  startup_options h startup_defaults output_plugin_options.

(** ** Transaction callbacks *)

Definition pg_output_begin (data : JsonDecodingData) (txn : ReorderBufferTXN)
    (last_write : bool) : JsonDecodingData :=
  let data := if include_xids data then set_xid data (txn_xid txn) else data in
  if include_timestamp data then set_commit_time data (txn_commit_time txn)
  else data.

Definition pg_decode_begin (ctx : LogicalDecodingContext)
    (txn : ReorderBufferTXN) : LogicalDecodingContext :=
  let data := set_xact_wrote_changes (output_plugin_private ctx) false in
  if skip_empty_xacts data then set_private ctx data
  else set_private ctx (pg_output_begin data txn true).

Definition pg_decode_commit (ctx : LogicalDecodingContext)
    (txn : ReorderBufferTXN) (commit_lsn : N) : LogicalDecodingContext :=
  ctx.

(** [MemoryContextDelete], the whole of the shutdown callback, has no
    counterpart here. *)
Definition pg_decode_shutdown (ctx : LogicalDecodingContext)
  : LogicalDecodingContext :=
  ctx.

Definition pg_decode_filter (ctx : LogicalDecodingContext)
    (origin_id : RepOriginId) : bool :=
  only_local (output_plugin_private ctx)
  && negb (N.eqb origin_id InvalidRepOriginId).

(** ** Literals and rows *)

Definition isSystemColumn (attr : Form_pg_attribute) : bool :=
  (attnum attr <? 0)%Z.

Definition isColumnDeleted (attr : Form_pg_attribute) : bool :=
  attisdropped attr.

Definition appendStringInfoChar (s : string) (ch : ascii) : string :=
  s ++ String ch EmptyString.

(** The [for] loop of the default case of [print_literal]. *)
Fixpoint print_literal_chars (h : Host) (s : string) (valptr : string)
  : string :=
  match valptr with
  | EmptyString => s
  | String ch rest =>
      let s := if SQL_STR_DOUBLE h ch false then appendStringInfoChar s ch
               else s in
      print_literal_chars h (appendStringInfoChar s ch) rest
  end.

Inductive literal_case : Type :=
| case_number
| case_bit
| case_bool
| case_default.

(** The [switch (typid)] of [print_literal]. *)
Definition literal_switch (typid : Oid) : literal_case :=
  if (N.eqb typid INT2OID || N.eqb typid INT4OID || N.eqb typid INT8OID
      || N.eqb typid OIDOID || N.eqb typid FLOAT4OID || N.eqb typid FLOAT8OID
      || N.eqb typid NUMERICOID)%bool then case_number
  else if (N.eqb typid BITOID || N.eqb typid VARBITOID)%bool then case_bit
  else if N.eqb typid BOOLOID then case_bool
  else case_default.

Definition print_literal (h : Host) (s : string) (typid : Oid)
    (outputstr : string) : string :=
  match literal_switch typid with
  | case_number => s ++ outputstr
  | case_bit => s ++ cstr "'" ++ outputstr ++ cstr "'"
  | case_bool =>
      if String.eqb outputstr "t" then s ++ "true" else s ++ "false"
  | case_default =>
      let s := appendStringInfoChar s dquote in
      let s := print_literal_chars h s outputstr in
      appendStringInfoChar s dquote
  end.

(** One turn of the loop of [tuple_to_json_fields], for attribute [natt];
    [None] is [continue]. *)
Definition tuple_to_json_field (h : Host) (s : string)
    (attr : Form_pg_attribute) (natt : nat) (tuple : HeapTuple)
    (skip_nulls include_toast_datum : bool) : option string :=
  if isColumnDeleted attr || isSystemColumn attr then None
  else
    let typid := atttypid attr in
    let origval := heap_getattr tuple (natt + 1) in
    let isnull := match origval with Some _ => false | None => true end in
    if isnull && skip_nulls then None
    else
      let s := if (0 <? natt)%nat then appendStringInfoChar s "," else s in
      let s := s ++ cstr " '" in
      let s := s ++ quote_identifier h (attname attr) in
      let s := s ++ cstr "'" in
      let (typoutput, typisvarlena) := getTypeOutputInfo h typid in
      let s := appendStringInfoChar s ":" in
      let s := appendStringInfoChar s " " in
      Some
        match origval with
        | None => s ++ "null"
        | Some origval =>
            if typisvarlena && VARATT_IS_EXTERNAL_ONDISK origval
               && negb include_toast_datum
            then s ++ "unchanged-toast-datum"
            else if negb typisvarlena
            then print_literal h s typid
                   (OidOutputFunctionCall typoutput origval)
            else
              let val := PG_DETOAST_DATUM origval in
              print_literal h s typid (OidOutputFunctionCall typoutput val)
        end.

(** The loop, from attribute [natt] on; [attrs] are the attributes
    [natt], [natt + 1], ... of the descriptor. *)
Fixpoint tuple_to_json_fields_from (h : Host) (s : string)
    (attrs : list Form_pg_attribute) (natt : nat) (tuple : HeapTuple)
    (skip_nulls include_toast_datum : bool) : string :=
  match attrs with
  | [] => s
  | attr :: rest =>
      let s :=
        match tuple_to_json_field h s attr natt tuple skip_nulls
                include_toast_datum with
        | Some s' => s'
        | None => s
        end in
      tuple_to_json_fields_from h s rest (S natt) tuple skip_nulls
        include_toast_datum
  end.

Definition tuple_to_json_fields (h : Host) (s : string) (tupdesc : TupleDesc)
    (tuple : HeapTuple) (skip_nulls include_toast_datum : bool) : string :=
  tuple_to_json_fields_from h s tupdesc 0 tuple skip_nulls include_toast_datum.

(** ** The change callback *)

(** The [switch (change->action)] of [pg_decode_change], on the buffer. *)
Definition change_switch (h : Host) (s : string) (data : JsonDecodingData)
    (tupdesc : TupleDesc) (change : ReorderBufferChange) : result string :=
  match action change with
  | REORDER_BUFFER_CHANGE_INSERT =>
      let s := s ++ cstr "'INSERT', " in
      Ok match newtuple change with
         | Some tuple =>
             tuple_to_json_fields h s tupdesc tuple false
               (include_toast_datum data)
         | None => s
         end
  | REORDER_BUFFER_CHANGE_UPDATE =>
      let s := s ++ cstr "'UPDATE', " in
      let s :=
        match oldtuple change with
        | Some tuple =>
            let s := s ++ cstr " 'old_primary_key': { " in
            let s := tuple_to_json_fields h s tupdesc tuple true
                       (include_toast_datum data) in
            s ++ " }, "
        | None => s
        end in
      Ok match newtuple change with
         | Some tuple =>
             tuple_to_json_fields h s tupdesc tuple false
               (include_toast_datum data)
         | None => s
         end
  | REORDER_BUFFER_CHANGE_DELETE =>
      let s := s ++ cstr "'DELETE', " in
      Ok match oldtuple change with
         | Some tuple =>
             tuple_to_json_fields h s tupdesc tuple true
               (include_toast_datum data)
         | None => s
         end
  | _ =>
      _ <- Assert h false ;;
      Ok s
  end.

(** The text [pg_decode_change] builds between [OutputPluginPrepareWrite]
    and [OutputPluginWrite]. *)
Definition change_text (h : Host) (data : JsonDecodingData)
    (txn : ReorderBufferTXN) (relation : Relation)
    (change : ReorderBufferChange) : result string :=
  let s := cstr "{ 'pg_change_table': '" in
  let s := s ++ quote_qualified_identifier h
                  (get_namespace_name h (get_rel_namespace h (rd_id relation)))
                  (if negb (N.eqb (relrewrite relation) InvalidOid)
                   then get_rel_name h (relrewrite relation)
                   else relname relation) in
  let s := s ++ cstr "', " in
  let s := if include_timestamp data
           then s ++ cstr "'pg_change_tnx_time': '"
                  ++ timestamptz_to_str h (txn_commit_time txn) ++ cstr "', "
           else s in
  let s := if include_xids data
           then s ++ cstr "'pg_change_tnx_id': "
                  ++ print_u (txn_xid txn) ++ ", "
           else s in
  let s := s ++ cstr " 'pg_change_type': " in
  s <- change_switch h s data (rd_att relation) change ;;
  Ok (s ++ " }").

Definition pg_decode_change (h : Host) (ctx : LogicalDecodingContext)
    (txn : ReorderBufferTXN) (relation : Relation)
    (change : ReorderBufferChange) : result LogicalDecodingContext :=
  let data := output_plugin_private ctx in
  let data := if skip_empty_xacts data && negb (xact_wrote_changes data)
              then pg_output_begin data txn false else data in
  let data := set_xact_wrote_changes data true in
  let ctx := set_private ctx data in
  let ctx := OutputPluginPrepareWrite ctx in
  s <- change_text h data txn relation change ;;
  let ctx := appendStringInfoString ctx s in
  Ok (OutputPluginWrite ctx).

(** ** The row encoder and the change callback with the server's errors

    Three calls of the row encoder can raise an error in the server: the
    type lookup [getTypeOutputInfo], the fetch of a toasted value
    [PG_DETOAST_DATUM], and the type's output function
    [OidOutputFunctionCall].  The definitions above take them to return.
    The ones below follow the same code with each of these calls either
    returning or raising, as [faults] says, so that they show which calls
    the code makes. *)

Inductive server_call : Type :=
| call_getTypeOutputInfo (typid : Oid)
| call_PG_DETOAST_DATUM (d : Datum)
| call_OidOutputFunctionCall (typoutput : Oid) (d : Datum).

Inductive raised : Type :=
| by_plugin (f : failure)
| by_server (call : server_call).

Inductive checked (A : Type) : Type :=
| Returned (a : A)
| Raised (e : raised).

Arguments Returned {A} a.
Arguments Raised {A} e.

Definition and_then {A B : Type} (c : checked A) (k : A -> checked B)
  : checked B :=
  match c with
  | Returned a => k a
  | Raised e => Raised e
  end.

Notation "x <~ c ;; k" := (and_then c (fun x => k))
  (at level 61, c at next level, right associativity).

(** The calls of the server that raise. *)
Definition Faults : Type := server_call -> bool.

(** A call of the server: it raises, or returns its value. *)
Definition calling {A : Type} (faults : Faults) (call : server_call)
    (value : A) : checked A :=
  if faults call then Raised (by_server call) else Returned value.

(** One turn of the loop of [tuple_to_json_fields], call by call. *)
Definition tuple_to_json_field_checked (h : Host) (faults : Faults)
    (s : string) (attr : Form_pg_attribute) (natt : nat) (tuple : HeapTuple)
    (skip_nulls include_toast_datum : bool) : checked (option string) :=
  if isColumnDeleted attr || isSystemColumn attr then Returned None
  else
    let typid := atttypid attr in
    let origval := heap_getattr tuple (natt + 1) in
    let isnull := match origval with Some _ => false | None => true end in
    if isnull && skip_nulls then Returned None
    else
      let s := if (0 <? natt)%nat then appendStringInfoChar s "," else s in
      let s := s ++ cstr " '" in
      let s := s ++ quote_identifier h (attname attr) in
      let s := s ++ cstr "'" in
      info <~ calling faults (call_getTypeOutputInfo typid)
                (getTypeOutputInfo h typid) ;;
      let (typoutput, typisvarlena) := info in
      let s := appendStringInfoChar s ":" in
      let s := appendStringInfoChar s " " in
      match origval with
      | None => Returned (Some (s ++ "null"))
      | Some origval =>
          if typisvarlena && VARATT_IS_EXTERNAL_ONDISK origval
             && negb include_toast_datum
          then Returned (Some (s ++ "unchanged-toast-datum"))
          else if negb typisvarlena
          then
            outputstr <~ calling faults
                           (call_OidOutputFunctionCall typoutput origval)
                           (OidOutputFunctionCall typoutput origval) ;;
            Returned (Some (print_literal h s typid outputstr))
          else
            val <~ calling faults (call_PG_DETOAST_DATUM origval)
                     (PG_DETOAST_DATUM origval) ;;
            outputstr <~ calling faults
                           (call_OidOutputFunctionCall typoutput val)
                           (OidOutputFunctionCall typoutput val) ;;
            Returned (Some (print_literal h s typid outputstr))
      end.

Fixpoint tuple_to_json_fields_from_checked (h : Host) (faults : Faults)
    (s : string) (attrs : list Form_pg_attribute) (natt : nat)
    (tuple : HeapTuple) (skip_nulls include_toast_datum : bool)
  : checked string :=
  match attrs with
  | [] => Returned s
  | attr :: rest =>
      turn <~ tuple_to_json_field_checked h faults s attr natt tuple
                skip_nulls include_toast_datum ;;
      let s := match turn with Some s' => s' | None => s end in
      tuple_to_json_fields_from_checked h faults s rest (S natt) tuple
        skip_nulls include_toast_datum
  end.

Definition tuple_to_json_fields_checked (h : Host) (faults : Faults)
    (s : string) (tupdesc : TupleDesc) (tuple : HeapTuple)
    (skip_nulls include_toast_datum : bool) : checked string :=
  tuple_to_json_fields_from_checked h faults s tupdesc 0 tuple skip_nulls
    include_toast_datum.

(** [Assert], among the calls that can raise. *)
Definition Assert_checked (h : Host) (condition : bool) : checked unit :=
  match Assert h condition with
  | Ok u => Returned u
  | Err f => Raised (by_plugin f)
  end.

Definition change_switch_checked (h : Host) (faults : Faults) (s : string)
    (data : JsonDecodingData) (tupdesc : TupleDesc)
    (change : ReorderBufferChange) : checked string :=
  match action change with
  | REORDER_BUFFER_CHANGE_INSERT =>
      let s := s ++ cstr "'INSERT', " in
      match newtuple change with
      | Some tuple =>
          tuple_to_json_fields_checked h faults s tupdesc tuple false
            (include_toast_datum data)
      | None => Returned s
      end
  | REORDER_BUFFER_CHANGE_UPDATE =>
      let s := s ++ cstr "'UPDATE', " in
      s <~ match oldtuple change with
           | Some tuple =>
               let s := s ++ cstr " 'old_primary_key': { " in
               s <~ tuple_to_json_fields_checked h faults s tupdesc tuple true
                      (include_toast_datum data) ;;
               Returned (s ++ " }, ")
           | None => Returned s
           end ;;
      match newtuple change with
      | Some tuple =>
          tuple_to_json_fields_checked h faults s tupdesc tuple false
            (include_toast_datum data)
      | None => Returned s
      end
  | REORDER_BUFFER_CHANGE_DELETE =>
      let s := s ++ cstr "'DELETE', " in
      match oldtuple change with
      | Some tuple =>
          tuple_to_json_fields_checked h faults s tupdesc tuple true
            (include_toast_datum data)
      | None => Returned s
      end
  | _ =>
      _ <~ Assert_checked h false ;;
      Returned s
  end.

Definition change_text_checked (h : Host) (faults : Faults)
    (data : JsonDecodingData) (txn : ReorderBufferTXN) (relation : Relation)
    (change : ReorderBufferChange) : checked string :=
  let s := cstr "{ 'pg_change_table': '" in
  let s := s ++ quote_qualified_identifier h
                  (get_namespace_name h (get_rel_namespace h (rd_id relation)))
                  (if negb (N.eqb (relrewrite relation) InvalidOid)
                   then get_rel_name h (relrewrite relation)
                   else relname relation) in
  let s := s ++ cstr "', " in
  let s := if include_timestamp data
           then s ++ cstr "'pg_change_tnx_time': '"
                  ++ timestamptz_to_str h (txn_commit_time txn) ++ cstr "', "
           else s in
  let s := if include_xids data
           then s ++ cstr "'pg_change_tnx_id': "
                  ++ print_u (txn_xid txn) ++ ", "
           else s in
  let s := s ++ cstr " 'pg_change_type': " in
  s <~ change_switch_checked h faults s data (rd_att relation) change ;;
  Returned (s ++ " }").

Definition pg_decode_change_checked (h : Host) (faults : Faults)
    (ctx : LogicalDecodingContext) (txn : ReorderBufferTXN)
    (relation : Relation) (change : ReorderBufferChange)
  : checked LogicalDecodingContext :=
  let data := output_plugin_private ctx in
  let data := if skip_empty_xacts data && negb (xact_wrote_changes data)
              then pg_output_begin data txn false else data in
  let data := set_xact_wrote_changes data true in
  let ctx := set_private ctx data in
  let ctx := OutputPluginPrepareWrite ctx in
  s <~ change_text_checked h faults data txn relation change ;;
  let ctx := appendStringInfoString ctx s in
  Returned (OutputPluginWrite ctx).


(** ** A server to run the plugin against

    The server is not part of the repository.  The theorems below hold for
    every [Host]; the examples run the plugin against the following one. *)

Definition lower (c : ascii) : ascii :=
  let n := nat_of_ascii c in
  if (65 <=? n)%nat && (n <=? 90)%nat then ascii_of_nat (n + 32) else c.

Fixpoint lowercase (s : string) : string :=
  match s with
  | EmptyString => EmptyString
  | String c r => String (lower c) (lowercase r)
  end.

Definition nonempty_prefix (s word : string) : bool :=
  negb (String.eqb s EmptyString) && String.prefix s word.

(** Modelled from the spec: the host's boolean parser ([parse_bool] is the
    server's).  As in the server, letter case is ignored and a non-empty
    prefix of [true], [false], [yes] or [no] is accepted, as are [on], [of],
    [off], [1] and [0]. *)
Definition server_parse_bool (value : string) : option bool :=
  let v := lowercase value in
  if nonempty_prefix v "true" || nonempty_prefix v "yes"
     || String.eqb v "on" || String.eqb v "1" then Some true
  else if nonempty_prefix v "false" || nonempty_prefix v "no"
     || String.eqb v "of" || String.eqb v "off" || String.eqb v "0"
  then Some false
  else None.

Definition ident_start (c : ascii) : bool :=
  let n := nat_of_ascii c in
  ((97 <=? n)%nat && (n <=? 122)%nat) || Ascii.eqb c "_".

Definition ident_cont (c : ascii) : bool :=
  let n := nat_of_ascii c in
  ident_start c || ((48 <=? n)%nat && (n <=? 57)%nat).

Fixpoint all_chars (p : ascii -> bool) (s : string) : bool :=
  match s with
  | EmptyString => true
  | String c r => p c && all_chars p r
  end.

Fixpoint double_dquotes (s : string) : string :=
  match s with
  | EmptyString => EmptyString
  | String c r =>
      if Ascii.eqb c dquote then String c (String c (double_dquotes r))
      else String c (double_dquotes r)
  end.

(** Modelled from the spec: the host's identifier quoting (quote only if
    needed, escape embedded quotes).  The server's table of reserved key
    words is left out: no name is taken for a key word. *)
Definition server_quote_identifier (ident : string) : string :=
  match ident with
  | EmptyString => String dquote (String dquote EmptyString)
  | String c r =>
      if ident_start c && all_chars ident_cont r then ident
      else String dquote (double_dquotes ident ++ String dquote EmptyString)
  end.

Definition server_typisvarlena (typid : Oid) : bool :=
  N.eqb typid TEXTOID || N.eqb typid NUMERICOID || N.eqb typid BITOID
  || N.eqb typid VARBITOID.

(** A server whose catalog holds [public.test_table], that prints every
    commit time as the one of the plugin's documentation, and that is built
    with or without assertion checking. *)
Definition server (assertions : bool) : Host :=
  mkHost server_parse_bool
         server_quote_identifier
         (fun qualifier ident =>
            server_quote_identifier qualifier ++ "."
              ++ server_quote_identifier ident)
         (fun _ => 2200%N)
         (fun _ => "public")
         (fun _ => "test_table_rewritten")
         (fun _ => "2019-02-19 00:52:28.467626-05")
         (fun typid => (InvalidOid, server_typisvarlena typid))
         (fun ch escape_backslash =>
            Ascii.eqb ch "'" || (Ascii.eqb ch backslash && escape_backslash))
         assertions.

(** [test_table (id integer primary key, state boolean, date timestamp)]. *)
Definition test_table : Relation :=
  mkRelation 16385%N "test_table" InvalidOid
    [ mkAttr "id" INT4OID 1 false;
      mkAttr "state" BOOLOID 2 false;
      mkAttr "date" TIMESTAMPOID 3 false ].

Definition inline (text : string) : option Datum :=
  Some (mkDatum false text).

(** The row [(6, true, '2019-02-14 14:36:20.308138')]. *)
Definition row_6 : HeapTuple :=
  [ inline "6"; inline "t"; inline "2019-02-14 14:36:20.308138" ].

Definition txn_4542284 : ReorderBufferTXN :=
  mkTXN 4542284%N 603870748467626%Z.

(** The context right after a startup without options. *)
Definition fresh_ctx (st : Startup) : LogicalDecodingContext :=
  mkCtx (fst st) EmptyString [].

(** No call raises. *)
Definition no_fault : Faults := fun _ => false.

(** Fetching a toasted value and printing a value raise; the type lookup
    returns. *)
Definition values_unreadable : Faults :=
  fun call =>
    match call with
    | call_getTypeOutputInfo _ => false
    | call_PG_DETOAST_DATUM _ => true
    | call_OidOutputFunctionCall _ _ => true
    end.

(** [notes (id integer primary key, body text)]. *)
Definition notes_table : TupleDesc :=
  [ mkAttr "id" INT4OID 1 false; mkAttr "body" TEXTOID 2 false ].

(** [test_table] after its first column was dropped and [id] added again. *)
Definition altered_table : Relation :=
  mkRelation 16385%N "test_table" InvalidOid
    [ mkAttr "........pg.dropped.1........" InvalidOid 1 true;
      mkAttr "state" BOOLOID 2 false;
      mkAttr "id" INT4OID 3 false ].

Definition insert_row_6 : ReorderBufferChange :=
  mkChange REORDER_BUFFER_CHANGE_INSERT None (Some row_6).

Definition update_6_to_5 : ReorderBufferChange :=
  mkChange REORDER_BUFFER_CHANGE_UPDATE (Some [inline "6"; None; None])
    (Some [inline "5"; inline "t"; inline "2019-02-14 14:36:20.308138"]).

(** The record of the plugin's documentation for the insertion of [row_6],
    on one line and without white space. *)
Definition documented_insert : string :=
  cstr "{'pg_change_table':'public.test_table','pg_change_tnx_time':'2019-02-19 00:52:28.467626-05','pg_change_tnx_id':4542284,'pg_change_operation_type':'INSERT','id':6,'state':true,'date':'2019-02-14 14:36:20.308138'}".

(** ** JSON texts (RFC 8259)

    What the specification calls valid JSON: a recogniser of JSON texts that reads
    one character at a time, with the stack of the objects and arrays that
    are open, and a decoder of JSON string literals. *)

Module Json.

Inductive container : Type :=
| in_object
| in_array.

(** Where the recogniser is inside a number. *)
Inductive num_state : Type :=
| num_minus      (* after the sign: a digit must follow *)
| num_zero       (* after a leading 0 *)
| num_int        (* in the digits of the integer part *)
| num_point      (* after the point: a digit must follow *)
| num_frac       (* in the digits of the fraction *)
| num_e          (* after e or E: a sign or a digit must follow *)
| num_esign      (* after the sign of the exponent: a digit must follow *)
| num_exp.       (* in the digits of the exponent *)

Inductive state : Type :=
| st_value                    (* a value must start *)
| st_value_or_close           (* after [: a value or ] *)
| st_key_or_close             (* after {: a member name or } *)
| st_key                      (* after the comma of an object: a member name *)
| st_colon                    (* after a member name *)
| st_after                    (* after a value *)
| st_string (key : bool)      (* inside a string; [key]: a member name *)
| st_escape (key : bool)      (* after a backslash *)
| st_hex (key : bool) (n : nat)  (* [S n] hexadecimal digits to go *)
| st_literal (rest : string)  (* inside true, false or null *)
| st_number (n : num_state).

Definition config : Type := (state * list container)%type.

Definition is_ws (c : ascii) : bool :=
  Ascii.eqb c " " || Ascii.eqb c (ascii_of_nat 9)
  || Ascii.eqb c (ascii_of_nat 10) || Ascii.eqb c (ascii_of_nat 13).

Definition is_digit (c : ascii) : bool :=
  (48 <=? nat_of_ascii c)%nat && (nat_of_ascii c <=? 57)%nat.

Definition is_digit19 (c : ascii) : bool :=
  (49 <=? nat_of_ascii c)%nat && (nat_of_ascii c <=? 57)%nat.

Definition is_hex (c : ascii) : bool :=
  let n := nat_of_ascii c in
  is_digit c || ((65 <=? n)%nat && (n <=? 70)%nat)
  || ((97 <=? n)%nat && (n <=? 102)%nat).

(** A character that stands for itself inside a string. *)
Definition plain_char (c : ascii) : bool :=
  negb (Ascii.eqb c dquote) && negb (Ascii.eqb c backslash)
  && (32 <=? nat_of_ascii c)%nat.

Definition is_escape (c : ascii) : bool :=
  Ascii.eqb c dquote || Ascii.eqb c backslash || Ascii.eqb c "/"
  || Ascii.eqb c "b" || Ascii.eqb c "f" || Ascii.eqb c "n"
  || Ascii.eqb c "r" || Ascii.eqb c "t".

Definition num_start (c : ascii) : option num_state :=
  if Ascii.eqb c "-" then Some num_minus
  else if Ascii.eqb c "0" then Some num_zero
  else if is_digit19 c then Some num_int
  else None.

Definition is_e (c : ascii) : bool := Ascii.eqb c "e" || Ascii.eqb c "E".

Definition is_sign (c : ascii) : bool := Ascii.eqb c "+" || Ascii.eqb c "-".

Definition num_step (n : num_state) (c : ascii) : option num_state :=
  match n with
  | num_minus =>
      if Ascii.eqb c "0" then Some num_zero
      else if is_digit19 c then Some num_int else None
  | num_zero =>
      if Ascii.eqb c "." then Some num_point
      else if is_e c then Some num_e else None
  | num_int =>
      if is_digit c then Some num_int
      else if Ascii.eqb c "." then Some num_point
      else if is_e c then Some num_e else None
  | num_point => if is_digit c then Some num_frac else None
  | num_frac =>
      if is_digit c then Some num_frac
      else if is_e c then Some num_e else None
  | num_e =>
      if is_sign c then Some num_esign
      else if is_digit c then Some num_exp else None
  | num_esign => if is_digit c then Some num_exp else None
  | num_exp => if is_digit c then Some num_exp else None
  end.

(** The number may end here. *)
Definition num_final (n : num_state) : bool :=
  match n with
  | num_zero | num_int | num_frac | num_exp => true
  | _ => false
  end.

(** Opening an object or an array, at most [limit] deep. *)
Definition open (limit : nat) (c : container) (st : state)
    (stack : list container) : option config :=
  if (length stack <? limit)%nat then Some (st, c :: stack) else None.

Definition close (c : container) (stack : list container) : option config :=
  match c, stack with
  | in_object, in_object :: rest => Some (st_after, rest)
  | in_array, in_array :: rest => Some (st_after, rest)
  | _, _ => None
  end.

Definition start_value (limit : nat) (c : ascii) (stack : list container)
  : option config :=
  if Ascii.eqb c "{" then open limit in_object st_key_or_close stack
  else if Ascii.eqb c "[" then open limit in_array st_value_or_close stack
  else if Ascii.eqb c dquote then Some (st_string false, stack)
  else if Ascii.eqb c "t" then Some (st_literal "rue", stack)
  else if Ascii.eqb c "f" then Some (st_literal "alse", stack)
  else if Ascii.eqb c "n" then Some (st_literal "ull", stack)
  else match num_start c with
       | Some n => Some (st_number n, stack)
       | None => None
       end.

Definition after_value (c : ascii) (stack : list container) : option config :=
  if is_ws c then Some (st_after, stack)
  else if Ascii.eqb c "," then
    match stack with
    | in_object :: _ => Some (st_key, stack)
    | in_array :: _ => Some (st_value, stack)
    | [] => None
    end
  else if Ascii.eqb c "}" then close in_object stack
  else if Ascii.eqb c "]" then close in_array stack
  else None.

Definition step (limit : nat) (cfg : config) (c : ascii) : option config :=
  let (st, stack) := cfg in
  match st with
  | st_value =>
      if is_ws c then Some cfg else start_value limit c stack
  | st_value_or_close =>
      if is_ws c then Some cfg
      else if Ascii.eqb c "]" then close in_array stack
      else start_value limit c stack
  | st_key_or_close =>
      if is_ws c then Some cfg
      else if Ascii.eqb c "}" then close in_object stack
      else if Ascii.eqb c dquote then Some (st_string true, stack)
      else None
  | st_key =>
      if is_ws c then Some cfg
      else if Ascii.eqb c dquote then Some (st_string true, stack)
      else None
  | st_colon =>
      if is_ws c then Some cfg
      else if Ascii.eqb c ":" then Some (st_value, stack)
      else None
  | st_after => after_value c stack
  | st_string key =>
      if Ascii.eqb c dquote
      then Some (if key then st_colon else st_after, stack)
      else if Ascii.eqb c backslash then Some (st_escape key, stack)
      else if plain_char c then Some cfg
      else None
  | st_escape key =>
      if is_escape c then Some (st_string key, stack)
      else if Ascii.eqb c "u" then Some (st_hex key 3, stack)
      else None
  | st_hex key n =>
      if is_hex c then
        match n with
        | O => Some (st_string key, stack)
        | S n' => Some (st_hex key n', stack)
        end
      else None
  | st_literal rest =>
      match rest with
      | String c' rest' =>
          if Ascii.eqb c c' then
            match rest' with
            | EmptyString => Some (st_after, stack)
            | _ => Some (st_literal rest', stack)
            end
          else None
      | EmptyString => None
      end
  | st_number n =>
      match num_step n c with
      | Some n' => Some (st_number n', stack)
      | None => if num_final n then after_value c stack else None
      end
  end.

Fixpoint run (limit : nat) (cfg : option config) (s : string)
  : option config :=
  match s with
  | EmptyString => cfg
  | String c rest =>
      match cfg with
      | Some cfg => run limit (step limit cfg c) rest
      | None => None
      end
  end.

(** The text may end here: one value has been read and nothing is open. *)
Definition complete (cfg : option config) : bool :=
  match cfg with
  | Some (st_after, []) => true
  | Some (st_number n, []) => num_final n
  | _ => false
  end.

(** [s] is a JSON text in which objects and arrays are nested at most
    [limit] deep. *)
Definition text_within (limit : nat) (s : string) : bool :=
  complete (run limit (Some (st_value, [])) s).

(** [s] is a JSON text; nothing nests deeper than the text is long. *)
Definition text (s : string) : bool :=
  text_within (String.length s) s.

(** [s] is a JSON text that is an object from its first character on, with
    objects and arrays nested at most [limit] deep: 1 for an object of
    scalars, 2 when a member may be such an object. *)
Definition object_within (limit : nat) (s : string) : bool :=
  String.prefix "{" s && text_within limit s.

Definition object (s : string) : bool :=
  object_within (String.length s) s.

(** [s] is a JSON number. *)
Fixpoint num_run (n : option num_state) (s : string) : option num_state :=
  match s with
  | EmptyString => n
  | String c rest =>
      match n with
      | Some n => num_run (num_step n c) rest
      | None => None
      end
  end.

Definition number (s : string) : bool :=
  match s with
  | String c rest =>
      match num_run (num_start c) rest with
      | Some n => num_final n
      | None => false
      end
  | EmptyString => false
  end.

(** *** Decoding a string literal *)

Definition hex_value (c : ascii) : option N :=
  let n := N_of_ascii c in
  if is_digit c then Some (n - 48)%N
  else if (65 <=? n)%N && (n <=? 70)%N then Some (n - 55)%N
  else if (97 <=? n)%N && (n <=? 102)%N then Some (n - 87)%N
  else None.

Definition unescape (c : ascii) : option ascii :=
  if Ascii.eqb c dquote || Ascii.eqb c backslash || Ascii.eqb c "/"
  then Some c
  else if Ascii.eqb c "b" then Some (ascii_of_nat 8)
  else if Ascii.eqb c "f" then Some (ascii_of_nat 12)
  else if Ascii.eqb c "n" then Some (ascii_of_nat 10)
  else if Ascii.eqb c "r" then Some (ascii_of_nat 13)
  else if Ascii.eqb c "t" then Some (ascii_of_nat 9)
  else None.

(** The UTF-8 bytes of a code point. *)
Definition utf8 (cp : N) : string :=
  let byte n := ascii_of_N n in
  let cont n := byte (128 + n mod 64)%N in
  if (cp <? 128)%N then String (byte cp) EmptyString
  else if (cp <? 2048)%N then
    String (byte (192 + cp / 64)%N) (String (cont cp) EmptyString)
  else if (cp <? 65536)%N then
    String (byte (224 + cp / 4096)%N)
      (String (cont (cp / 64)%N) (String (cont cp) EmptyString))
  else
    String (byte (240 + cp / 262144)%N)
      (String (cont (cp / 4096)%N)
         (String (cont (cp / 64)%N) (String (cont cp) EmptyString))).

Definition high_surrogate (u : N) : bool :=
  (55296 <=? u)%N && (u <? 56320)%N.

Definition low_surrogate (u : N) : bool :=
  (56320 <=? u)%N && (u <? 57344)%N.

(** Where the decoder is inside the literal. *)
Inductive dec_state : Type :=
| dec_plain
| dec_escape
| dec_hex (n : nat) (acc : N) (high : option N)
| dec_low_backslash (high : N)
| dec_low_u (high : N).

Definition prepend (p : string) (o : option string) : option string :=
  match o with
  | Some s => Some (p ++ s)
  | None => None
  end.

(** The characters after the opening quote; the closing quote ends the
    text. *)
Fixpoint decode_from (st : dec_state) (s : string) : option string :=
  match s with
  | EmptyString => None
  | String c rest =>
      match st with
      | dec_plain =>
          if Ascii.eqb c dquote then
            match rest with
            | EmptyString => Some EmptyString
            | _ => None
            end
          else if Ascii.eqb c backslash then decode_from dec_escape rest
          else if plain_char c
          then prepend (String c EmptyString) (decode_from dec_plain rest)
          else None
      | dec_escape =>
          if Ascii.eqb c "u" then decode_from (dec_hex 3 0%N None) rest
          else
            match unescape c with
            | Some c' =>
                prepend (String c' EmptyString) (decode_from dec_plain rest)
            | None => None
            end
      | dec_hex n acc high =>
          match hex_value c with
          | None => None
          | Some v =>
              let u := (16 * acc + v)%N in
              match n with
              | S n' => decode_from (dec_hex n' u high) rest
              | O =>
                  match high with
                  | None =>
                      if high_surrogate u
                      then decode_from (dec_low_backslash u) rest
                      else if low_surrogate u then None
                      else prepend (utf8 u) (decode_from dec_plain rest)
                  | Some hi =>
                      if low_surrogate u
                      then prepend
                             (utf8 (65536 + (hi - 55296) * 1024 + (u - 56320))%N)
                             (decode_from dec_plain rest)
                      else None
                  end
              end
          end
      | dec_low_backslash hi =>
          if Ascii.eqb c backslash then decode_from (dec_low_u hi) rest
          else None
      | dec_low_u hi =>
          if Ascii.eqb c "u" then decode_from (dec_hex 3 0%N (Some hi)) rest
          else None
      end
  end.

(** The text that the JSON string literal [s] stands for; [None] when [s]
    is not a string literal. *)
Definition decode_string (s : string) : option string :=
  match s with
  | String c rest => if Ascii.eqb c dquote then decode_from dec_plain rest
                     else None
  | EmptyString => None
  end.

End Json.

(** * The vocabulary of the properties

    What follows describes the output rather than computing it the way the
    code does: which columns have a field, what a field and a record look
    like, when a record is a JSON object.  The theorems compare the
    callbacks above with these descriptions. *)

(** ** Rows, column by column *)

(** Whether the attribute at position [natt] is NULL in the tuple. *)
Definition att_isnull (tuple : HeapTuple) (natt : nat) : bool :=
  match heap_getattr tuple (natt + 1) with
  | Some _ => false
  | None => true
  end.

(** Whether the loop prints a field for the attribute: it is neither dropped
    nor a system column, and not a NULL that is skipped. *)
Definition emits (attr : Form_pg_attribute) (natt : nat) (tuple : HeapTuple)
    (skip_nulls : bool) : bool :=
  negb (isColumnDeleted attr || isSystemColumn attr)
  && negb (att_isnull tuple natt && skip_nulls).

(** The value of a field, as the loop prints it. *)
Definition value_text (h : Host) (typid : Oid) (origval : option Datum)
    (include_toast_datum : bool) : string :=
  match origval with
  | None => "null"
  | Some origval =>
      if snd (getTypeOutputInfo h typid) && VARATT_IS_EXTERNAL_ONDISK origval
         && negb include_toast_datum
      then "unchanged-toast-datum"
      else print_literal h EmptyString typid (datum_text origval)
  end.

(** The field of the attribute at position [natt]: a comma unless
    [natt] is 0, the quoted name, a colon, the value. *)
Definition field_text (h : Host) (attr : Form_pg_attribute) (natt : nat)
    (tuple : HeapTuple) (include_toast_datum : bool) : string :=
  (if (0 <? natt)%nat then "," else EmptyString)
    ++ cstr " '" ++ quote_identifier h (attname attr) ++ cstr "': "
    ++ value_text h (atttypid attr) (heap_getattr tuple (natt + 1))
         include_toast_datum.

(** The fields of the attributes [natt], [natt + 1], ... in this order. *)
Fixpoint fields_text (h : Host) (attrs : list Form_pg_attribute) (natt : nat)
    (tuple : HeapTuple) (skip_nulls include_toast_datum : bool) : string :=
  match attrs with
  | [] => EmptyString
  | attr :: rest =>
      (if emits attr natt tuple skip_nulls
       then field_text h attr natt tuple include_toast_datum
       else EmptyString)
        ++ fields_text h rest (S natt) tuple skip_nulls include_toast_datum
  end.

(** The tuple with another output text for the datum at position [natt]. *)
Fixpoint retext (tuple : HeapTuple) (natt : nat) (text : string) : HeapTuple :=
  match tuple with
  | [] => []
  | v :: rest =>
      match natt with
      | O =>
          match v with
          | Some d => Some (mkDatum (varatt_external_ondisk d) text)
          | None => None
          end :: rest
      | S n => v :: retext rest n text
      end
  end.

(** No character of [text] is one that [print_literal] doubles. *)
Definition none_doubled (h : Host) (text : string) : bool :=
  all_chars (fun ch => negb (SQL_STR_DOUBLE h ch false)) text.

(** The types that [print_literal] prints without quotes. *)
Definition numeric_types : list Oid :=
  [ INT2OID; INT4OID; INT8OID; OIDOID; FLOAT4OID; FLOAT8OID; NUMERICOID ].

(** ** The layout of a record *)

(** The table name that [pg_decode_change] prints. *)
Definition table_identity (h : Host) (relation : Relation) : string :=
  quote_qualified_identifier h
    (get_namespace_name h (get_rel_namespace h (rd_id relation)))
    (if negb (N.eqb (relrewrite relation) InvalidOid)
     then get_rel_name h (relrewrite relation)
     else relname relation).

(** The transaction's commit time and id, each if its option is set. *)
Definition metadata_text (h : Host) (data : JsonDecodingData)
    (txn : ReorderBufferTXN) : string :=
  (if include_timestamp data
   then cstr "'pg_change_tnx_time': '"
          ++ timestamptz_to_str h (txn_commit_time txn) ++ cstr "', "
   else EmptyString)
    ++ (if include_xids data
        then cstr "'pg_change_tnx_id': " ++ print_u (txn_xid txn) ++ ", "
        else EmptyString).

(** The fields of a row image, if the change carries it. *)
Definition image_text (h : Host) (tupdesc : TupleDesc)
    (tuple : option HeapTuple) (skip_nulls include_toast_datum : bool)
  : string :=
  match tuple with
  | Some tuple => fields_text h tupdesc 0 tuple skip_nulls include_toast_datum
  | None => EmptyString
  end.

(** The old-primary-key block of an update that carries an old image. *)
Definition old_primary_key_text (h : Host) (tupdesc : TupleDesc)
    (tuple : option HeapTuple) (include_toast_datum : bool) : string :=
  match tuple with
  | Some tuple =>
      cstr " 'old_primary_key': { "
        ++ fields_text h tupdesc 0 tuple true include_toast_datum ++ " }, "
  | None => EmptyString
  end.

(** The operation and what follows it: the new image with its NULLs for an
    insert; the old-primary-key block, then the new image with its NULLs,
    for an update; the old image without its NULLs for a delete. *)
Definition operation_text (h : Host) (data : JsonDecodingData)
    (tupdesc : TupleDesc) (change : ReorderBufferChange) : string :=
  match action change with
  | REORDER_BUFFER_CHANGE_INSERT =>
      cstr "'INSERT', "
        ++ image_text h tupdesc (newtuple change) false
             (include_toast_datum data)
  | REORDER_BUFFER_CHANGE_UPDATE =>
      cstr "'UPDATE', "
        ++ old_primary_key_text h tupdesc (oldtuple change)
             (include_toast_datum data)
        ++ image_text h tupdesc (newtuple change) false
             (include_toast_datum data)
  | REORDER_BUFFER_CHANGE_DELETE =>
      cstr "'DELETE', "
        ++ image_text h tupdesc (oldtuple change) true
             (include_toast_datum data)
  | _ => EmptyString
  end.

(** The record: table identity, transaction metadata, operation, images. *)
Definition record_layout (h : Host) (data : JsonDecodingData)
    (txn : ReorderBufferTXN) (relation : Relation)
    (change : ReorderBufferChange) : string :=
  cstr "{ 'pg_change_table': '" ++ table_identity h relation ++ cstr "', "
    ++ metadata_text h data txn
    ++ cstr " 'pg_change_type': "
    ++ operation_text h data (rd_att relation) change
    ++ " }".

(** The private data with which [pg_decode_change] builds the record. *)
Definition change_data (data : JsonDecodingData) (txn : ReorderBufferTXN)
  : JsonDecodingData :=
  set_xact_wrote_changes
    (if skip_empty_xacts data && negb (xact_wrote_changes data)
     then pg_output_begin data txn false else data)
    true.

Definition known_action (a : ReorderBufferChangeType) : bool :=
  match a with
  | REORDER_BUFFER_CHANGE_INSERT
  | REORDER_BUFFER_CHANGE_UPDATE
  | REORDER_BUFFER_CHANGE_DELETE => true
  | _ => false
  end.

(** The records the transport holds after a callback: a callback that fails
    did not reach [OutputPluginWrite]. *)
Definition records_after (ctx : LogicalDecodingContext)
    (r : result LogicalDecodingContext) : list string :=
  match r with
  | Ok ctx' => written ctx'
  | Err _ => written ctx
  end.

(** The record of an insertion of [row_6] as the plugin lays it out, for a
    table name, a commit time, a transaction id and the key of the
    operation. *)
Definition insert_layout (table time xid key : string) : string :=
  cstr "{ 'pg_change_table': '" ++ table
    ++ cstr "', 'pg_change_tnx_time': '" ++ time
    ++ cstr "', 'pg_change_tnx_id': " ++ xid
    ++ cstr ",  '" ++ key
    ++ cstr "': 'INSERT',  'id': 6, 'state': true, 'date': '2019-02-14 14:36:20.308138' }".

(** The two names the documentation gives to the key of the operation. *)
Definition operation_keys : list string :=
  [ "pg_change_type"; "pg_change_operation_type" ].

(** ** Startup options *)

(** The options that take a value; [only-local] is the sixth option. *)
Definition valued_options : list string :=
  [ "include-xids"; "include-timestamp"; "skip-empty-xacts";
    "include-rewrites"; "include-toast-datum" ].

(** The six option names of [pg_decode_startup]. *)
Definition recognized_options : list string :=
  (valued_options ++ ["only-local"])%list.

(** ** When a record is a JSON object *)

(** A text that needs no escaping inside a JSON string. *)
Definition json_plain (s : string) : bool := all_chars Json.plain_char s.

(** Where a member may start: after the opening brace or after a comma. *)
Definition member_start (st : Json.state) : Prop :=
  st = Json.st_key \/ st = Json.st_key_or_close.

(** A value has just been read, below [stack]. *)
Definition value_read (cfg : option Json.config)
    (stack : list Json.container) : Prop :=
  cfg = Some (Json.st_after, stack)
  \/ exists n, cfg = Some (Json.st_number n, stack) /\ Json.num_final n = true.

(** The value of a field is printed as a JSON value: no toast placeholder,
    a JSON number for the numeric types, and a text that needs no escaping
    for the types that are printed between quotes. *)
Definition value_ok (h : Host) (typid : Oid) (origval : option Datum)
    (include_toast_datum : bool) : bool :=
  match origval with
  | None => true
  | Some d =>
      negb (snd (getTypeOutputInfo h typid) && VARATT_IS_EXTERNAL_ONDISK d
            && negb include_toast_datum)
      && match literal_switch typid with
         | case_number => Json.number (datum_text d)
         | case_bool => true
         | case_bit | case_default => json_plain (datum_text d)
         end
  end.

Definition field_ok (h : Host) (attr : Form_pg_attribute) (natt : nat)
    (tuple : HeapTuple) (include_toast_datum : bool) : bool :=
  json_plain (quote_identifier h (attname attr))
  && value_ok h (atttypid attr) (heap_getattr tuple (natt + 1))
       include_toast_datum.

(** Every field that the loop prints is [field_ok]. *)
Fixpoint fields_ok (h : Host) (attrs : list Form_pg_attribute) (natt : nat)
    (tuple : HeapTuple) (skip_nulls include_toast_datum : bool) : bool :=
  match attrs with
  | [] => true
  | attr :: rest =>
      (if emits attr natt tuple skip_nulls
       then field_ok h attr natt tuple include_toast_datum else true)
      && fields_ok h rest (S natt) tuple skip_nulls include_toast_datum
  end.

(** The loop prints no field. *)
Fixpoint none_emitted (attrs : list Form_pg_attribute) (natt : nat)
    (tuple : HeapTuple) (skip_nulls : bool) : bool :=
  match attrs with
  | [] => true
  | attr :: rest =>
      negb (emits attr natt tuple skip_nulls)
      && none_emitted rest (S natt) tuple skip_nulls
  end.

(** The loop prints the first attribute of the descriptor. *)
Definition leads (tupdesc : TupleDesc) (tuple : HeapTuple)
    (skip_nulls : bool) : bool :=
  match tupdesc with
  | attr :: _ => emits attr 0 tuple skip_nulls
  | [] => false
  end.

(** A row image at the top of the record: it is there, its first column is
    printed and its fields are fine. *)
Definition image_ok (h : Host) (tupdesc : TupleDesc)
    (tuple : option HeapTuple) (skip_nulls include_toast_datum : bool)
  : bool :=
  match tuple with
  | Some tuple =>
      leads tupdesc tuple skip_nulls
      && fields_ok h tupdesc 0 tuple skip_nulls include_toast_datum
  | None => false
  end.

(** The old-primary-key block: its first column is printed, or none is. *)
Definition old_primary_key_ok (h : Host) (tupdesc : TupleDesc)
    (tuple : option HeapTuple) (include_toast_datum : bool) : bool :=
  match tuple with
  | Some tuple =>
      (leads tupdesc tuple true || none_emitted tupdesc 0 tuple true)
      && fields_ok h tupdesc 0 tuple true include_toast_datum
  | None => true
  end.

Definition record_ok (h : Host) (data : JsonDecodingData)
    (txn : ReorderBufferTXN) (relation : Relation)
    (change : ReorderBufferChange) : bool :=
  json_plain (table_identity h relation)
  && (negb (include_timestamp data)
      || json_plain (timestamptz_to_str h (txn_commit_time txn)))
  && match action change with
     | REORDER_BUFFER_CHANGE_INSERT =>
         image_ok h (rd_att relation) (newtuple change) false
           (include_toast_datum data)
     | REORDER_BUFFER_CHANGE_UPDATE =>
         old_primary_key_ok h (rd_att relation) (oldtuple change)
           (include_toast_datum data)
         && image_ok h (rd_att relation) (newtuple change) false
              (include_toast_datum data)
     | REORDER_BUFFER_CHANGE_DELETE =>
         image_ok h (rd_att relation) (oldtuple change) true
           (include_toast_datum data)
     | _ => false
     end.

(** How deep the objects of a record nest: the old-primary-key block of an
    update is an object inside the record. *)
Definition nesting (change : ReorderBufferChange) : nat :=
  match action change, oldtuple change with
  | REORDER_BUFFER_CHANGE_UPDATE, Some _ => 2
  | _, _ => 1
  end.

(** ** Startup, option by option *)

(** The flag [name] after one option: the value of the option if it has
    this name and its value parses, the flag as it was otherwise. *)
Definition setting1 (h : Host) (name : string) (elem : DefElem) (start : bool)
  : bool :=
  if hasParameter elem name then
    match arg elem with
    | Some v => match parse_bool h v with Some b => b | None => start end
    | None => start
    end
  else start.

(** The flag [name] after the options, from [start]: the last option of this
    name decides. *)
Fixpoint setting (h : Host) (name : string) (options : list DefElem)
    (start : bool) : bool :=
  match options with
  | [] => start
  | elem :: rest => setting h name rest (setting1 h name elem start)
  end.

(** An option that startup accepts: it has a value, and it is [only-local]
    or one of the five other options with a value that parses. *)
Definition acceptable (h : Host) (elem : DefElem) : bool :=
  match arg elem with
  | Some v =>
      hasParameter elem "only-local"
      || (existsb (hasParameter elem) valued_options
          && match parse_bool h v with Some _ => true | None => false end)
  | None => false
  end.

(** What startup fails with at an option that is not [acceptable]: the
    read through the NULL value of a bare [only-local]; the report of a
    value that does not parse, for one of the five other options with a
    value; the report of an unknown option otherwise. *)
Definition rejection (h : Host) (elem : DefElem) : failure :=
  match arg elem with
  | None =>
      if hasParameter elem "only-local" then NullPointerRead
      else ereport_ERROR ERRCODE_INVALID_PARAMETER_VALUE
             (cstr "option '" ++ defname elem
                ++ cstr "' = '(null)' is unknown")
  | Some v =>
      if existsb (hasParameter elem) valued_options
      then ereport_ERROR ERRCODE_INVALID_PARAMETER_VALUE
             (cstr "could not parse value '" ++ v
                ++ cstr "' for parameter '" ++ defname elem ++ cstr "'")
      else ereport_ERROR ERRCODE_INVALID_PARAMETER_VALUE
             (cstr "option '" ++ defname elem ++ cstr "' = '" ++ v
                ++ cstr "' is unknown")
  end.

Definition some_options : list DefElem :=
  [ mkDefElem "include-xids" (Some "off");
    mkDefElem "only-local" (Some "false");
    mkDefElem "include-rewrites" (Some "yes");
    mkDefElem "include-xids" (Some "ON") ].

(** ** Sessions *)

(** The configuration of a session: the flags that startup sets. *)
Definition configuration (data : JsonDecodingData)
  : bool * bool * bool * bool * bool * bool :=
  (include_xids data, include_timestamp data, skip_empty_xacts data,
   only_local data, include_messages data, include_toast_datum data).

(** Modelled from the spec: the replay engine hands the changes of a
    transaction to the change callback one after the other, in replay
    order, and stops at the first failure. *)
Fixpoint pg_decode_changes (h : Host) (ctx : LogicalDecodingContext)
    (txn : ReorderBufferTXN) (changes : list (Relation * ReorderBufferChange))
  : result LogicalDecodingContext :=
  match changes with
  | [] => Ok ctx
  | (relation, change) :: rest =>
      ctx' <- pg_decode_change h ctx txn relation change ;;
      pg_decode_changes h ctx' txn rest
  end.

(** Modelled from the spec: a transaction is replayed as begin, its changes,
    commit. *)
Definition replay_transaction (h : Host) (ctx : LogicalDecodingContext)
    (txn : ReorderBufferTXN) (changes : list (Relation * ReorderBufferChange))
    (commit_lsn : N) : result LogicalDecodingContext :=
  ctx' <- pg_decode_changes h (pg_decode_begin ctx txn) txn changes ;;
  Ok (pg_decode_commit ctx' txn commit_lsn).

(** Every change is an insert, an update or a delete. *)
Definition all_known (changes : list (Relation * ReorderBufferChange))
  : bool :=
  forallb (fun rc => known_action (action (snd rc))) changes.

(** The transaction of the documentation's examples: the insertion of
    [row_6], the update of its key, the deletion of the row. *)
Definition documented_changes : list (Relation * ReorderBufferChange) :=
  [ (test_table, insert_row_6);
    (test_table, update_6_to_5);
    (test_table,
     mkChange REORDER_BUFFER_CHANGE_DELETE (Some [inline "5"; None; None])
       None) ].

(** The context after begin and the insertion of [row_6], from a startup
    without options. *)
Definition running_ctx : LogicalDecodingContext :=
  mkCtx (mkData true true true true false false true 4542284%N
           603870748467626%Z)
    (record_layout (server false) (fst startup_defaults) txn_4542284
       test_table insert_row_6)
    [record_layout (server false) (fst startup_defaults) txn_4542284
       test_table insert_row_6].

(** ** Rows and literals, further *)

Definition is_null (v : option Datum) : bool :=
  match v with
  | Some _ => false
  | None => true
  end.

(** A text of the digits 0 and 1. *)
Definition bits (text : string) : bool :=
  all_chars (fun c => Ascii.eqb c "0" || Ascii.eqb c "1") text.

(** Reading back what the loop of [print_literal] wrote: a character that
    the loop doubles must come twice and stands for one. *)
Fixpoint undouble (h : Host) (s : string) : option string :=
  match s with
  | EmptyString => Some EmptyString
  | String c rest =>
      if SQL_STR_DOUBLE h c false then
        match rest with
        | String c' rest' =>
            if Ascii.eqb c c'
            then Json.prepend (String c EmptyString) (undouble h rest')
            else None
        | EmptyString => None
        end
      else Json.prepend (String c EmptyString) (undouble h rest)
  end.

(** [notes] with a NULL body. *)
Definition note_without_body : HeapTuple := [inline "7"; None].

(** ** Records, further *)

(** The image whose fields end the record: the old one for a delete, the
    new one otherwise; and whether its NULLs are skipped. *)
Definition closing_image (change : ReorderBufferChange) : option HeapTuple :=
  match action change with
  | REORDER_BUFFER_CHANGE_DELETE => oldtuple change
  | _ => newtuple change
  end.

Definition closing_skip_nulls (change : ReorderBufferChange) : bool :=
  match action change with
  | REORDER_BUFFER_CHANGE_DELETE => true
  | _ => false
  end.

(** The closing image is there and the loop prints its first column. *)
Definition first_column_printed (tupdesc : TupleDesc)
    (change : ReorderBufferChange) : bool :=
  match closing_image change with
  | Some tuple => leads tupdesc tuple (closing_skip_nulls change)
  | None => false
  end.

Definition newline : ascii := ascii_of_nat 10.

(** A text without a newline. *)
Definition one_line (s : string) : bool :=
  all_chars (fun c => negb (Ascii.eqb c newline)) s.

Definition tuple_one_line (tuple : option HeapTuple) : bool :=
  match tuple with
  | Some tuple =>
      forallb (fun v => match v with
                        | Some d => one_line (datum_text d)
                        | None => true
                        end) tuple
  | None => true
  end.

(** The texts that the server gives for a change have no newline: the
    table name, the commit time, the column names and the values. *)
Definition texts_one_line (h : Host) (txn : ReorderBufferTXN)
    (relation : Relation) (change : ReorderBufferChange) : bool :=
  one_line (table_identity h relation)
  && one_line (timestamptz_to_str h (txn_commit_time txn))
  && forallb (fun attr => one_line (quote_identifier h (attname attr)))
       (rd_att relation)
  && tuple_one_line (oldtuple change)
  && tuple_one_line (newtuple change).

(** * Properties *)

(** ** Buffers only grow *)

Lemma append_assoc (a b c : string) : (a ++ b) ++ c = a ++ (b ++ c).
Proof.
  induction a as [|x a IH]; simpl; [reflexivity | now rewrite IH].
Qed.

Lemma append_nil_r (a : string) : a ++ EmptyString = a.
Proof.
  induction a as [|x a IH]; simpl; [reflexivity | now rewrite IH].
Qed.

(** Appends nested to the right, with the literals spelled out. *)
Ltac flatten_appends :=
  repeat first [rewrite append_assoc | progress simpl].

Lemma append_inv_head (a b c : string) : a ++ b = a ++ c -> b = c.
Proof.
  induction a as [|x a IH]; simpl; intros H; [exact H|].
  injection H as H. now apply IH.
Qed.

Lemma print_literal_chars_grows (h : Host) (valptr s : string) :
  print_literal_chars h s valptr = s ++ print_literal_chars h EmptyString valptr.
Proof.
  revert s.
  induction valptr as [|ch rest IH]; intros s; simpl.
  - now rewrite append_nil_r.
  - rewrite IH. symmetry. rewrite IH. symmetry.
    unfold appendStringInfoChar.
    destruct (SQL_STR_DOUBLE h ch false); simpl;
      now rewrite !append_assoc.
Qed.

Lemma print_literal_grows (h : Host) (s : string) (typid : Oid)
    (text : string) :
  print_literal h s typid text = s ++ print_literal h EmptyString typid text.
Proof.
  unfold print_literal.
  destruct (literal_switch typid); simpl.
  - reflexivity.
  - reflexivity.
  - now destruct (String.eqb text "t").
  - unfold appendStringInfoChar.
    rewrite print_literal_chars_grows. symmetry.
    rewrite print_literal_chars_grows. simpl.
    now rewrite !append_assoc.
Qed.

(** ** The row encoder, column by column *)

Lemma tuple_to_json_field_eq (h : Host) (s : string)
    (attr : Form_pg_attribute) (natt : nat) (tuple : HeapTuple)
    (skip_nulls include_toast_datum : bool) :
  tuple_to_json_field h s attr natt tuple skip_nulls include_toast_datum
  = if emits attr natt tuple skip_nulls
    then Some (s ++ field_text h attr natt tuple include_toast_datum)
    else None.
Proof.
  unfold tuple_to_json_field, emits, field_text, value_text, att_isnull.
  destruct (isColumnDeleted attr || isSystemColumn attr); simpl;
    [reflexivity|].
  destruct (heap_getattr tuple (natt + 1)) as [d|]; simpl.
  - destruct (getTypeOutputInfo h (atttypid attr)) as [typoutput varlena].
    simpl. f_equal.
    unfold appendStringInfoChar, OidOutputFunctionCall, PG_DETOAST_DATUM.
    destruct varlena, (VARATT_IS_EXTERNAL_ONDISK d), include_toast_datum;
      simpl; try rewrite print_literal_grows;
      destruct (0 <? natt)%nat; simpl; now rewrite ?append_assoc.
  - destruct skip_nulls; simpl; [reflexivity|].
    destruct (getTypeOutputInfo h (atttypid attr)) as [typoutput varlena].
    f_equal. unfold appendStringInfoChar.
    destruct (0 <? natt)%nat; simpl; now rewrite ?append_assoc.
Qed.

Lemma tuple_to_json_fields_from_eq (h : Host)
    (attrs : list Form_pg_attribute) (tuple : HeapTuple)
    (skip_nulls include_toast_datum : bool) (natt : nat) (s : string) :
  tuple_to_json_fields_from h s attrs natt tuple skip_nulls include_toast_datum
  = s ++ fields_text h attrs natt tuple skip_nulls include_toast_datum.
Proof.
  revert natt s.
  induction attrs as [|attr rest IH]; intros natt s; simpl.
  - now rewrite append_nil_r.
  - rewrite tuple_to_json_field_eq, IH.
    destruct (emits attr natt tuple skip_nulls); simpl;
      now rewrite ?append_assoc.
Qed.

Lemma tuple_to_json_fields_eq (h : Host) (s : string) (tupdesc : TupleDesc)
    (tuple : HeapTuple) (skip_nulls include_toast_datum : bool) :
  tuple_to_json_fields h s tupdesc tuple skip_nulls include_toast_datum
  = s ++ fields_text h tupdesc 0 tuple skip_nulls include_toast_datum.
Proof.
  apply tuple_to_json_fields_from_eq.
Qed.

Lemma fields_text_app (h : Host) (before after : list Form_pg_attribute)
    (tuple : HeapTuple) (skip_nulls include_toast_datum : bool) (natt : nat) :
  fields_text h (before ++ after) natt tuple skip_nulls include_toast_datum
  = fields_text h before natt tuple skip_nulls include_toast_datum
    ++ fields_text h after (natt + length before) tuple skip_nulls
         include_toast_datum.
Proof.
  revert natt.
  induction before as [|attr rest IH]; intros natt; simpl.
  - now rewrite Nat.add_0_r.
  - rewrite IH, append_assoc.
    now replace (S natt + length rest) with (natt + S (length rest)) by lia.
Qed.

(** ** Startup options *)

Lemma startup_options_app (h : Host) (before after : list DefElem)
    (st : Startup) :
  startup_options h st (before ++ after)
  = st' <- startup_options h st before ;; startup_options h st' after.
Proof.
  revert st.
  induction before as [|elem rest IH]; intros st; simpl; [reflexivity|].
  destruct (startup_option h st elem) as [st'|f]; simpl; [apply IH|reflexivity].
Qed.

Lemma bare_option_unknown (h : Host) (st : Startup) (name : string) :
  In name valued_options ->
  startup_option h st (mkDefElem name None)
  = Err (ereport_ERROR ERRCODE_INVALID_PARAMETER_VALUE
           (cstr "option '" ++ name ++ cstr "' = '(null)' is unknown")).
Proof.
  intros Hin. destruct st as [data opt].
  simpl in Hin.
  repeat (destruct Hin as [<-|Hin]; [reflexivity|]).
  contradiction.
Qed.

(** C10: one of the five options that take a value, given without a value,
    ends startup with the unknown-option error (the one of
    [reportUnknownParam], with [(null)] for the value), whatever options
    were accepted before it and whatever options follow: it is neither
    accepted with its default nor reported as a value that does not parse. *)
Theorem bare_valued_option_rejected_as_unknown (h : Host)
    (before after : list DefElem) (st : Startup) (name : string) :
  In name valued_options ->
  startup_options h startup_defaults before = Ok st ->
  pg_decode_startup h (before ++ mkDefElem name None :: after)
  = Err (ereport_ERROR ERRCODE_INVALID_PARAMETER_VALUE
           (cstr "option '" ++ name ++ cstr "' = '(null)' is unknown")).
Proof.
  intros Hin Hbefore.
  unfold pg_decode_startup.
  rewrite startup_options_app, Hbefore. simpl.
  now rewrite bare_option_unknown.
Qed.

Lemma bare_valued_option_rejected_as_unknown_witness :
  In "skip-empty-xacts" valued_options
  /\ startup_options (server false) startup_defaults
       [mkDefElem "include-xids" (Some "off")]
     = Ok (set_include_xids (fst startup_defaults) false,
           snd startup_defaults)
  /\ pg_decode_startup (server false)
       ([mkDefElem "include-xids" (Some "off")]
          ++ mkDefElem "skip-empty-xacts" None
          :: [mkDefElem "only-local" (Some "1")])
     = Err (ereport_ERROR ERRCODE_INVALID_PARAMETER_VALUE
              (cstr "option '" ++ "skip-empty-xacts"
                 ++ cstr "' = '(null)' is unknown")).
Proof.
  split; [simpl; tauto|].
  split; [reflexivity|].
  apply (bare_valued_option_rejected_as_unknown (server false)
           [mkDefElem "include-xids" (Some "off")]
           [mkDefElem "only-local" (Some "1")]
           (set_include_xids (fst startup_defaults) false,
            snd startup_defaults)
           "skip-empty-xacts").
  - simpl; tauto.
  - reflexivity.
Defined.

(** C3: the test of [elem->arg] in the [only-local] branch is the wrong way
    round.  Without a value, startup reads the value through the NULL
    pointer; with a value, the value is not parsed and [only_local] is set,
    so that [false] too makes the filter suppress every change of a
    non-local origin. *)
Theorem only_local_test_inverted (h : Host) (value : string)
    (origin_id : RepOriginId) :
  pg_decode_startup h [mkDefElem "only-local" None] = Err NullPointerRead
  /\ pg_decode_startup h [mkDefElem "only-local" (Some value)]
     = Ok (set_only_local (fst startup_defaults) true, snd startup_defaults)
  /\ pg_decode_filter
       (fresh_ctx (set_only_local (fst startup_defaults) true,
                   snd startup_defaults)) origin_id
     = negb (N.eqb origin_id InvalidRepOriginId).
Proof.
  repeat split.
Qed.

(** C6: a value of [only-local] that does not parse as a boolean is
    accepted. *)
Theorem only_local_value_not_checked :
  server_parse_bool "banana" = None
  /\ pg_decode_startup (server false) [mkDefElem "only-local" (Some "banana")]
     = Ok (set_only_local (fst startup_defaults) true, snd startup_defaults).
Proof.
  split; reflexivity.
Qed.

(** ** Literals *)

(** C7: for a boolean column the formatter appends [true] or [false],
    unquoted, and nothing else: [true] for the text [t], [false] for the
    text [f] (and for every other text). *)
Theorem print_literal_boolean (h : Host) (s text : string) :
  (print_literal h s BOOLOID text = s ++ "true"
   \/ print_literal h s BOOLOID text = s ++ "false")
  /\ print_literal h s BOOLOID "t" = s ++ "true"
  /\ print_literal h s BOOLOID "f" = s ++ "false".
Proof.
  unfold print_literal. simpl.
  repeat split.
  destruct (String.eqb text "t"); [left|right]; reflexivity.
Qed.

(** ** Transactions *)

(** C5: a transaction that is begun and committed with no change in between
    hands no record to the transport.  With [skip_empty_xacts] set, begin
    only clears [xact_wrote_changes]; otherwise begin also runs
    [pg_output_begin] once, which notes the transaction's id and commit
    time in the private data (each if its option is set) and writes
    nothing. *)
Theorem empty_transaction (ctx : LogicalDecodingContext)
    (txn : ReorderBufferTXN) (commit_lsn : N) :
  let data := output_plugin_private ctx in
  let ctx' := pg_decode_commit (pg_decode_begin ctx txn) txn commit_lsn in
  let data' := output_plugin_private ctx' in
  written ctx' = written ctx
  /\ out ctx' = out ctx
  /\ xact_wrote_changes data' = false
  /\ xid data'
     = (if skip_empty_xacts data then xid data
        else if include_xids data then txn_xid txn else xid data)
  /\ commit_time data'
     = (if skip_empty_xacts data then commit_time data
        else if include_timestamp data then txn_commit_time txn
             else commit_time data)
  /\ data'
     = (if skip_empty_xacts data then set_xact_wrote_changes data false
        else pg_output_begin (set_xact_wrote_changes data false) txn true).
Proof.
  destruct ctx as [data o w]. destruct data. simpl.
  unfold pg_decode_commit, pg_decode_begin, pg_output_begin. simpl.
  destruct skip_empty_xacts0, include_xids0, include_timestamp0; simpl;
    repeat split.
Qed.

(** ** Changes *)

(** C9, as amended: in a server built with assertion checking, a change
    whose action is none of insert, update and delete fails the assertion of
    the change callback, and no record is written for it. *)
Theorem unknown_action_fails_assertion (h : Host)
    (ctx : LogicalDecodingContext) (txn : ReorderBufferTXN)
    (relation : Relation) (change : ReorderBufferChange) :
  assert_checking h = true ->
  known_action (action change) = false ->
  pg_decode_change h ctx txn relation change = Err FailedAssertion
  /\ records_after ctx (pg_decode_change h ctx txn relation change)
     = written ctx.
Proof.
  intros Hassert Haction.
  assert (H : pg_decode_change h ctx txn relation change
              = Err FailedAssertion).
  { unfold pg_decode_change, change_text, change_switch, Assert.
    rewrite Hassert.
    destruct (action change); try discriminate Haction; reflexivity. }
  rewrite H. split; reflexivity.
Qed.

Lemma unknown_action_fails_assertion_witness :
  assert_checking (server true) = true
  /\ known_action
       (action (mkChange REORDER_BUFFER_CHANGE_TRUNCATE None None)) = false
  /\ pg_decode_change (server true) (fresh_ctx startup_defaults) txn_4542284
       test_table (mkChange REORDER_BUFFER_CHANGE_TRUNCATE None None)
     = Err FailedAssertion
  /\ records_after (fresh_ctx startup_defaults)
       (pg_decode_change (server true) (fresh_ctx startup_defaults)
          txn_4542284 test_table
          (mkChange REORDER_BUFFER_CHANGE_TRUNCATE None None))
     = written (fresh_ctx startup_defaults).
Proof.
  split; [reflexivity|].
  split; [reflexivity|].
  apply (unknown_action_fails_assertion (server true)
           (fresh_ctx startup_defaults) txn_4542284 test_table
           (mkChange REORDER_BUFFER_CHANGE_TRUNCATE None None));
    reflexivity.
Defined.

(** C9, as stated, fails in a server built without assertion checking:
    there [Assert] does nothing, and the record of a change that is none of
    insert, update and delete is written, with no operation after the key. *)
Lemma unknown_action_record_without_assertions :
  records_after (fresh_ctx startup_defaults)
    (pg_decode_change (server false) (fresh_ctx startup_defaults) txn_4542284
       test_table (mkChange REORDER_BUFFER_CHANGE_TRUNCATE None None))
  = [ cstr "{ 'pg_change_table': 'public.test_table', 'pg_change_tnx_time': '2019-02-19 00:52:28.467626-05', 'pg_change_tnx_id': 4542284,  'pg_change_type':  }" ].
Proof.
  reflexivity.
Qed.

(** ** Toasted values *)

Lemma nth_error_retext_other (tuple : HeapTuple) (natt m : nat)
    (text : string) :
  m <> natt -> nth_error (retext tuple natt text) m = nth_error tuple m.
Proof.
  revert natt m.
  induction tuple as [|v rest IH]; intros natt m Hm; simpl.
  - now destruct natt.
  - destruct natt as [|n].
    + destruct m as [|m]; [contradiction|]. reflexivity.
    + destruct m as [|m]; simpl; [reflexivity|]. apply IH. lia.
Qed.

Lemma nth_error_retext_same (tuple : HeapTuple) (natt : nat)
    (text : string) (d : Datum) :
  nth_error tuple natt = Some (Some d) ->
  nth_error (retext tuple natt text) natt
  = Some (Some (mkDatum (varatt_external_ondisk d) text)).
Proof.
  revert natt.
  induction tuple as [|v rest IH]; intros natt H.
  - now destruct natt.
  - destruct natt as [|n]; simpl in *.
    + now injection H as ->.
    + now apply IH.
Qed.

Lemma heap_getattr_retext_other (tuple : HeapTuple) (natt m : nat)
    (text : string) :
  m <> natt ->
  heap_getattr (retext tuple natt text) (m + 1) = heap_getattr tuple (m + 1).
Proof.
  intros Hm. unfold heap_getattr.
  replace (m + 1 - 1) with m by lia.
  now rewrite nth_error_retext_other.
Qed.

Lemma fields_text_retext_other (h : Host) (attrs : list Form_pg_attribute)
    (tuple : HeapTuple) (skip_nulls include_toast_datum : bool)
    (natt m : nat) (text : string) :
  (m < natt \/ natt + length attrs <= m) ->
  fields_text h attrs natt (retext tuple m text) skip_nulls
    include_toast_datum
  = fields_text h attrs natt tuple skip_nulls include_toast_datum.
Proof.
  revert natt.
  induction attrs as [|attr rest IH]; intros natt Hm; simpl; [reflexivity|].
  simpl in Hm.
  rewrite IH by lia.
  unfold emits, field_text, att_isnull.
  now rewrite heap_getattr_retext_other by lia.
Qed.

(** C8: with [include_toast_datum] off, the field of a column that the loop
    prints and whose value is an external on-disk datum (of a varlena type)
    is the column's name followed by [unchanged-toast-datum].  What the
    row encoder gives is the buffer, the fields of the columns before it
    ([fields_text]), this field, and the fields of the columns after it.
    The value is not materialized: the text of
    the row is the same whatever text the datum would print as, and the
    turn of the loop returns the field even when fetching the value
    ([PG_DETOAST_DATUM]) and printing it ([OidOutputFunctionCall]) would
    raise; of the calls of the server that can raise, it makes the type
    lookup only. *)
Theorem toast_datum_placeholder (h : Host) (s : string)
    (before after : list Form_pg_attribute) (attr : Form_pg_attribute)
    (tuple : HeapTuple) (skip_nulls : bool) (d : Datum) (text : string) :
  isColumnDeleted attr = false ->
  isSystemColumn attr = false ->
  nth_error tuple (length before) = Some (Some d) ->
  VARATT_IS_EXTERNAL_ONDISK d = true ->
  snd (getTypeOutputInfo h (atttypid attr)) = true ->
  tuple_to_json_fields h s (before ++ attr :: after)%list tuple skip_nulls false
  = s ++ fields_text h before 0 tuple skip_nulls false
      ++ (if (0 <? length before)%nat then "," else EmptyString)
      ++ cstr " '" ++ quote_identifier h (attname attr)
      ++ cstr "': unchanged-toast-datum"
      ++ fields_text h after (S (length before)) tuple skip_nulls false
  /\ tuple_to_json_fields h s (before ++ attr :: after)%list
       (retext tuple (length before) text) skip_nulls false
     = tuple_to_json_fields h s (before ++ attr :: after)%list tuple skip_nulls
         false
  /\ forall (faults : Faults) (buffer : string),
       faults (call_getTypeOutputInfo (atttypid attr)) = false ->
       tuple_to_json_field_checked h faults buffer attr (length before) tuple
         skip_nulls false
       = Returned
           (Some
              (buffer
                 ++ (if (0 <? length before)%nat then "," else EmptyString)
                 ++ cstr " '" ++ quote_identifier h (attname attr)
                 ++ cstr "': unchanged-toast-datum")).
Proof.
  intros Hdropped Hsystem Hnth Hexternal Hvarlena.
  assert (Hget : heap_getattr tuple (length before + 1) = Some d).
  { unfold heap_getattr.
    replace (length before + 1 - 1) with (length before) by lia.
    now rewrite Hnth. }
  assert (Hemits : forall t, heap_getattr t (length before + 1) <> None ->
                             emits attr (length before) t skip_nulls = true).
  { intros t Ht. unfold emits, att_isnull.
    rewrite Hdropped, Hsystem.
    now destruct (heap_getattr t (length before + 1)). }
  split; [|split].
  - rewrite tuple_to_json_fields_eq, fields_text_app.
    cbn [fields_text Nat.add].
    rewrite Hemits by (now rewrite Hget).
    unfold field_text, value_text.
    rewrite Hget, Hvarlena, Hexternal.
    destruct (0 <? length before)%nat; flatten_appends; reflexivity.
  - rewrite !tuple_to_json_fields_eq. f_equal.
    rewrite !fields_text_app. simpl.
    rewrite fields_text_retext_other by lia.
    rewrite fields_text_retext_other by lia.
    f_equal. f_equal.
    assert (Hget' : heap_getattr (retext tuple (length before) text)
                      (length before + 1)
                    = Some (mkDatum (varatt_external_ondisk d) text)).
    { unfold heap_getattr.
      replace (length before + 1 - 1) with (length before) by lia.
      now rewrite (nth_error_retext_same _ _ _ d). }
    rewrite !Hemits by (rewrite ?Hget, ?Hget'; discriminate).
    unfold field_text, value_text.
    rewrite Hget, Hget', Hvarlena.
    unfold VARATT_IS_EXTERNAL_ONDISK in *. simpl.
    now rewrite Hexternal.
  - intros faults buffer Hlookup.
    unfold tuple_to_json_field_checked, calling.
    rewrite Hdropped, Hsystem, Hget, Hlookup.
    destruct (getTypeOutputInfo h (atttypid attr)) as [typoutput varlena].
    simpl in Hvarlena. subst varlena.
    rewrite Hexternal. simpl.
    unfold appendStringInfoChar.
    destruct (0 <? length before)%nat; flatten_appends; reflexivity.
Qed.

Lemma toast_datum_placeholder_witness :
  isColumnDeleted (mkAttr "body" TEXTOID 2 false) = false
  /\ isSystemColumn (mkAttr "body" TEXTOID 2 false) = false
  /\ nth_error [inline "7"; Some (mkDatum true "a long text")]
       (length [mkAttr "id" INT4OID 1 false])
     = Some (Some (mkDatum true "a long text"))
  /\ VARATT_IS_EXTERNAL_ONDISK (mkDatum true "a long text") = true
  /\ snd (getTypeOutputInfo (server false) TEXTOID) = true
  /\ tuple_to_json_fields (server false) EmptyString notes_table
       [inline "7"; Some (mkDatum true "a long text")] false false
     = cstr " 'id': 7, 'body': unchanged-toast-datum"
  /\ tuple_to_json_fields (server false) EmptyString notes_table
       (retext [inline "7"; Some (mkDatum true "a long text")] 1 "another")
       false false
     = tuple_to_json_fields (server false) EmptyString notes_table
         [inline "7"; Some (mkDatum true "a long text")] false false
  /\ tuple_to_json_field_checked (server false) values_unreadable
       (cstr " 'id': 7") (mkAttr "body" TEXTOID 2 false) 1
       [inline "7"; Some (mkDatum true "a long text")] false false
     = Returned (Some (cstr " 'id': 7, 'body': unchanged-toast-datum")).
Proof.
  do 5 (split; [reflexivity|]).
  destruct (toast_datum_placeholder (server false) EmptyString
              [mkAttr "id" INT4OID 1 false] []
              (mkAttr "body" TEXTOID 2 false)
              [inline "7"; Some (mkDatum true "a long text")] false
              (mkDatum true "a long text") "another"
              eq_refl eq_refl eq_refl eq_refl eq_refl)
    as (Hrow & Htext & Hturn).
  split; [exact Hrow|].
  split; [exact Htext|].
  exact (Hturn values_unreadable (cstr " 'id': 7") eq_refl).
Defined.

(** ** Text values *)

(** C4: a text value with a double quote in it is printed as something that
    is not a JSON string, whatever characters the server's
    [SQL_STR_DOUBLE] doubles: the field neither decodes to the text nor is
    it a JSON text at all.  With the macro of the server, which doubles the
    apostrophe, the double quote is copied as it is. *)
Theorem quoted_text_is_not_json (h : Host) :
  print_literal (server false) EmptyString TEXTOID (cstr "a'b")
  = cstr "'a'b'"
  /\ Json.decode_string (print_literal h EmptyString TEXTOID (cstr "a'b"))
     = None
  /\ Json.text (print_literal h EmptyString TEXTOID (cstr "a'b")) = false.
Proof.
  split; [reflexivity|].
  unfold print_literal, appendStringInfoChar. simpl.
  destruct (SQL_STR_DOUBLE h "a" false);
    destruct (SQL_STR_DOUBLE h dquote false);
    destruct (SQL_STR_DOUBLE h "b" false);
    split; reflexivity.
Qed.

(** ** The layout of a record *)

Lemma change_data_flags (data : JsonDecodingData) (txn : ReorderBufferTXN) :
  include_xids (change_data data txn) = include_xids data
  /\ include_timestamp (change_data data txn) = include_timestamp data
  /\ include_toast_datum (change_data data txn) = include_toast_datum data.
Proof.
  unfold change_data, pg_output_begin.
  destruct data as [x t s w l m d i c]. simpl.
  destruct s, w, x, t; simpl; repeat split.
Qed.

Lemma record_layout_flags (h : Host) (data data' : JsonDecodingData)
    (txn : ReorderBufferTXN) (relation : Relation)
    (change : ReorderBufferChange) :
  include_xids data' = include_xids data ->
  include_timestamp data' = include_timestamp data ->
  include_toast_datum data' = include_toast_datum data ->
  record_layout h data' txn relation change
  = record_layout h data txn relation change.
Proof.
  intros Hx Ht Hd.
  unfold record_layout, metadata_text, operation_text.
  now rewrite Hx, Ht, Hd.
Qed.

Lemma change_text_known (h : Host) (data : JsonDecodingData)
    (txn : ReorderBufferTXN) (relation : Relation)
    (change : ReorderBufferChange) :
  known_action (action change) = true ->
  change_text h data txn relation change
  = Ok (record_layout h data txn relation change).
Proof.
  intros Hknown.
  unfold change_text, change_switch, record_layout, metadata_text,
    operation_text, image_text, old_primary_key_text.
  fold (table_identity h relation).
  destruct (action change); try discriminate Hknown; simpl bind;
    f_equal;
    destruct (include_timestamp data), (include_xids data);
    destruct (newtuple change), (oldtuple change);
    rewrite ?tuple_to_json_fields_eq;
    flatten_appends; reflexivity.
Qed.

Lemma pg_decode_change_known (h : Host) (ctx : LogicalDecodingContext)
    (txn : ReorderBufferTXN) (relation : Relation)
    (change : ReorderBufferChange) :
  known_action (action change) = true ->
  pg_decode_change h ctx txn relation change
  = Ok (mkCtx (change_data (output_plugin_private ctx) txn)
          (record_layout h (output_plugin_private ctx) txn relation change)
          (written ctx
             ++ [record_layout h (output_plugin_private ctx) txn relation
                   change])).
Proof.
  intros Hknown.
  unfold pg_decode_change.
  fold (change_data (output_plugin_private ctx) txn).
  rewrite change_text_known by assumption.
  destruct (change_data_flags (output_plugin_private ctx) txn)
    as (Hx & Ht & Hd).
  rewrite (record_layout_flags h (output_plugin_private ctx)
             (change_data (output_plugin_private ctx) txn)) by assumption.
  reflexivity.
Qed.

(** ** The record of the documentation *)

(** C2, as stated, fails: the record differs from the documented one. *)
Lemma insert_record_differs_from_documentation :
  map (fun record => String.eqb record documented_insert)
    (records_after (fresh_ctx startup_defaults)
       (pg_decode_change (server false) (fresh_ctx startup_defaults)
          txn_4542284 test_table insert_row_6))
  = [false].
Proof.
  reflexivity.
Qed.

Lemma print_literal_chars_none_doubled (h : Host) (text s : string) :
  none_doubled h text = true ->
  print_literal_chars h s text = s ++ text.
Proof.
  revert s.
  induction text as [|ch rest IH]; intros s Hnone; simpl.
  - now rewrite append_nil_r.
  - unfold none_doubled in Hnone. simpl in Hnone.
    apply andb_prop in Hnone as [Hch Hrest].
    apply negb_true_iff in Hch. rewrite Hch.
    rewrite IH by exact Hrest.
    unfold appendStringInfoChar. now rewrite append_assoc.
Qed.

Lemma row_6_fields (h : Host) (include_toast_datum : bool) :
  none_doubled h "2019-02-14 14:36:20.308138" = true ->
  quote_identifier h "id" = "id" ->
  quote_identifier h "state" = "state" ->
  quote_identifier h "date" = "date" ->
  fields_text h (rd_att test_table) 0 row_6 false include_toast_datum
  = cstr " 'id': 6, 'state': true, 'date': '2019-02-14 14:36:20.308138'".
Proof.
  intros Hnone Hid Hstate Hdate.
  unfold test_table, row_6, inline. cbn [rd_att fields_text].
  unfold emits, field_text, value_text, att_isnull, heap_getattr.
  cbn [attname atttypid attnum attisdropped isSystemColumn isColumnDeleted
       nth_error Nat.add Nat.sub Z.ltb Z.compare orb andb negb Nat.ltb Nat.leb
       VARATT_IS_EXTERNAL_ONDISK varatt_external_ondisk datum_text].
  rewrite Hid, Hstate, Hdate.
  rewrite !andb_false_r.
  unfold print_literal.
  change (literal_switch INT4OID) with case_number.
  change (literal_switch BOOLOID) with case_bool.
  change (literal_switch TIMESTAMPOID) with case_default.
  cbv iota.
  rewrite print_literal_chars_none_doubled by assumption.
  reflexivity.
Qed.

Lemma insert_row_6_record (h : Host) (data : JsonDecodingData)
    (txn : ReorderBufferTXN) :
  include_xids data = true ->
  include_timestamp data = true ->
  table_identity h test_table = "public.test_table" ->
  quote_identifier h "id" = "id" ->
  quote_identifier h "state" = "state" ->
  quote_identifier h "date" = "date" ->
  none_doubled h "2019-02-14 14:36:20.308138" = true ->
  record_layout h data txn test_table insert_row_6
  = insert_layout "public.test_table"
      (timestamptz_to_str h (txn_commit_time txn))
      (print_u (txn_xid txn)) "pg_change_type".
Proof.
  intros Hxids Htime Htable Hid Hstate Hdate Hnone.
  unfold record_layout, metadata_text, operation_text, image_text,
    insert_row_6.
  cbn [action newtuple].
  rewrite Hxids, Htime, Htable, row_6_fields by assumption.
  unfold insert_layout.
  flatten_appends. reflexivity.
Qed.

(** C2, as amended: with transaction ids and commit times included (the
    defaults), the record of the insertion of [(6, true, '2019-02-14
    14:36:20.308138')] into [test_table] has the fields, the values and the
    order of the documented record, and the white space of [insert_layout]:
    one space after the opening brace, after every colon and comma and
    before the closing brace, and one more before the key of the operation
    and before the first column.  The key of the operation is one of the
    two names the documentation gives it ([operation_keys]); which of them
    is left open.  The server is one that prints the table as
    [public.test_table], quotes none of the three column names and doubles
    no character of the date. *)
Theorem insert_record_layout (h : Host) (ctx : LogicalDecodingContext)
    (txn : ReorderBufferTXN) :
  include_xids (output_plugin_private ctx) = true ->
  include_timestamp (output_plugin_private ctx) = true ->
  table_identity h test_table = "public.test_table" ->
  quote_identifier h "id" = "id" ->
  quote_identifier h "state" = "state" ->
  quote_identifier h "date" = "date" ->
  none_doubled h "2019-02-14 14:36:20.308138" = true ->
  exists key : string,
    In key operation_keys
    /\ records_after ctx (pg_decode_change h ctx txn test_table insert_row_6)
       = (written ctx
            ++ [ insert_layout "public.test_table"
                   (timestamptz_to_str h (txn_commit_time txn))
                   (print_u (txn_xid txn)) key ])%list.
Proof.
  intros Hxids Htime Htable Hid Hstate Hdate Hnone.
  exists "pg_change_type".
  split; [now left|].
  rewrite pg_decode_change_known by reflexivity.
  unfold records_after, written at 1. do 2 f_equal.
  now apply insert_row_6_record.
Qed.

Lemma insert_record_layout_witness :
  include_xids (output_plugin_private (fresh_ctx startup_defaults)) = true
  /\ include_timestamp (output_plugin_private (fresh_ctx startup_defaults))
     = true
  /\ table_identity (server false) test_table = "public.test_table"
  /\ quote_identifier (server false) "id" = "id"
  /\ quote_identifier (server false) "state" = "state"
  /\ quote_identifier (server false) "date" = "date"
  /\ none_doubled (server false) "2019-02-14 14:36:20.308138" = true
  /\ exists key : string,
       In key operation_keys
       /\ records_after (fresh_ctx startup_defaults)
            (pg_decode_change (server false) (fresh_ctx startup_defaults)
               txn_4542284 test_table insert_row_6)
          = (written (fresh_ctx startup_defaults)
               ++ [ insert_layout "public.test_table"
                      (timestamptz_to_str (server false)
                         (txn_commit_time txn_4542284))
                      (print_u (txn_xid txn_4542284)) key ])%list.
Proof.
  do 7 (split; [reflexivity|]).
  exact (insert_record_layout (server false) (fresh_ctx startup_defaults)
           txn_4542284 eq_refl eq_refl eq_refl eq_refl eq_refl eq_refl
           eq_refl).
Defined.

(** ** Reading JSON piece by piece *)

Section JsonRun.

Import Json.

Variable limit : nat.

Lemma run_None (s : string) : run limit None s = None.
Proof.
  now destruct s.
Qed.

Lemma run_app (cfg : option config) (a b : string) :
  run limit cfg (a ++ b) = run limit (run limit cfg a) b.
Proof.
  revert cfg.
  induction a as [|c a IH]; intros cfg; simpl; [reflexivity|].
  destruct cfg as [cfg|]; [apply IH | now rewrite run_None].
Qed.

Lemma step_plain_char (key : bool) (stack : list container) (c : ascii) :
  plain_char c = true ->
  step limit (st_string key, stack) c = Some (st_string key, stack).
Proof.
  intros Hc. simpl. rewrite Hc.
  unfold plain_char in Hc.
  apply andb_prop in Hc as [Hc _]. apply andb_prop in Hc as [Hq Hb].
  apply negb_true_iff in Hq, Hb. now rewrite Hq, Hb.
Qed.

Lemma run_plain (key : bool) (stack : list container) (s : string) :
  json_plain s = true ->
  run limit (Some (st_string key, stack)) s = Some (st_string key, stack).
Proof.
  induction s as [|c s IH]; intros Hs; [reflexivity|].
  unfold json_plain in Hs. simpl in Hs.
  apply andb_prop in Hs as [Hc Hs].
  cbn [run]. rewrite step_plain_char by exact Hc. now apply IH.
Qed.

(** A quoted text is a string value. *)
Lemma run_quoted (stack : list container) (text : string) :
  json_plain text = true ->
  run limit (Some (st_value, stack))
    (String dquote (text ++ String dquote EmptyString))
  = Some (st_after, stack).
Proof.
  intros Hplain.
  change (run limit (Some (st_value, stack))
            (String dquote (text ++ String dquote EmptyString)))
    with (run limit (Some (st_string false, stack))
            (text ++ String dquote EmptyString)).
  now rewrite run_app, run_plain.
Qed.

(** A space, a quoted name, a colon and a space lead to the member's
    value. *)
Lemma run_member_name (st : state) (stack : list container) (name : string) :
  member_start st ->
  json_plain name = true ->
  run limit (Some (st, stack)) (cstr " '" ++ name ++ cstr "': ")
  = Some (st_value, stack).
Proof.
  intros Hst Hplain.
  assert (Hopen : run limit (Some (st, stack)) (cstr " '")
                  = Some (st_string true, stack))
    by (destruct Hst as [-> | ->]; reflexivity).
  now rewrite run_app, Hopen, run_app, run_plain.
Qed.

Lemma value_read_comma (cfg : option config) (stack : list container) :
  value_read cfg (in_object :: stack) ->
  run limit cfg "," = Some (st_key, in_object :: stack).
Proof.
  intros [-> | (n & -> & Hn)]; [reflexivity|].
  destruct n; try discriminate Hn; reflexivity.
Qed.

Lemma value_read_space (cfg : option config) (stack : list container) :
  value_read cfg stack -> run limit cfg " " = Some (st_after, stack).
Proof.
  intros [-> | (n & -> & Hn)]; [reflexivity|].
  destruct n; try discriminate Hn; reflexivity.
Qed.

Lemma num_run_None (s : string) : num_run None s = None.
Proof.
  now destruct s.
Qed.

Lemma run_number_rest (stack : list container) (rest : string)
    (n n' : num_state) :
  num_run (Some n) rest = Some n' ->
  run limit (Some (st_number n, stack)) rest = Some (st_number n', stack).
Proof.
  revert n.
  induction rest as [|c rest IH]; intros n Hrun; simpl in *.
  - now injection Hrun as ->.
  - destruct (num_step n c) as [n1|]; [now apply IH|].
    now rewrite num_run_None in Hrun.
Qed.

(** A JSON number is a number value. *)
Lemma run_number (stack : list container) (text : string) :
  number text = true ->
  exists n, run limit (Some (st_value, stack)) text
            = Some (st_number n, stack)
            /\ num_final n = true.
Proof.
  destruct text as [|c rest]; [discriminate|].
  unfold number.
  destruct (num_start c) as [n0|] eqn:Hstart;
    [|now rewrite num_run_None].
  destruct (num_run (Some n0) rest) as [n|] eqn:Hrest; [|discriminate].
  intros Hfinal. exists n. split; [|exact Hfinal].
  cbn [run].
  assert (Hstep : step limit (st_value, stack) c = Some (st_number n0, stack)).
  { unfold num_start in Hstart. simpl. unfold start_value, num_start.
    destruct (Ascii.eqb c "-") eqn:Hminus.
    - apply Ascii.eqb_eq in Hminus. subst c.
      injection Hstart as <-. reflexivity.
    - destruct (Ascii.eqb c "0") eqn:Hzero.
      + apply Ascii.eqb_eq in Hzero. subst c.
        injection Hstart as <-. reflexivity.
      + destruct (is_digit19 c) eqn:Hdigit; [|discriminate].
        injection Hstart as <-.
        unfold is_digit19 in Hdigit.
        apply andb_prop in Hdigit as [Hlo Hhi].
        apply Nat.leb_le in Hlo, Hhi.
        assert (Hc : c = ascii_of_nat (nat_of_ascii c))
          by now rewrite ascii_nat_embedding.
        remember (nat_of_ascii c) as k eqn:Hk. clear Hk.
        do 49 (destruct k as [|k]; [lia|]).
        do 9 (destruct k as [|k]; [subst c; reflexivity|]).
        lia. }
  rewrite Hstep. now apply run_number_rest.
Qed.

End JsonRun.

(** ** When a record is a JSON object *)

Lemma digits_run (d : Decimal.uint) :
  Json.num_run (Some Json.num_int) (NilEmpty.string_of_uint d)
  = Some Json.num_int.
Proof.
  induction d; simpl; auto.
Qed.

(** What [%u] prints is a JSON number. *)
Lemma print_u_number (n : N) : Json.number (print_u n) = true.
Proof.
  unfold print_u.
  assert (Hnorm : unorm (N.to_uint n) = N.to_uint n).
  { rewrite <- (DecimalN.Unsigned.of_to n) at 2.
    now rewrite DecimalN.Unsigned.to_of. }
  remember (N.to_uint n) as d eqn:Hd. clear Hd n.
  destruct (uint_eq_dec (nzhead d) Nil) as [Hnil|Hnonnil].
  - apply unorm_0 in Hnil. rewrite Hnil in Hnorm. now subst d.
  - rewrite unorm_nzhead in Hnorm by exact Hnonnil.
    pose proof (nzhead_nonzero d) as Hzero.
    rewrite Hnorm in Hzero, Hnonnil.
    destruct d; try (now contradiction (Hzero d));
      try (now contradiction Hnonnil);
      unfold Json.number; simpl; now rewrite digits_run.
Qed.

Lemma json_plain_app (a b : string) :
  json_plain (a ++ b) = json_plain a && json_plain b.
Proof.
  unfold json_plain.
  induction a as [|c a IH]; simpl; [reflexivity|].
  now rewrite IH, andb_assoc.
Qed.

(** Doubling characters of a plain text leaves it plain. *)
Lemma json_plain_print_literal_chars (h : Host) (text : string) :
  json_plain text = true ->
  json_plain (print_literal_chars h EmptyString text) = true.
Proof.
  induction text as [|ch rest IH]; intros Hplain; [reflexivity|].
  unfold json_plain in Hplain. simpl in Hplain.
  apply andb_prop in Hplain as [Hch Hrest].
  simpl. rewrite print_literal_chars_grows, json_plain_app.
  rewrite IH by exact Hrest.
  unfold appendStringInfoChar, json_plain.
  destruct (SQL_STR_DOUBLE h ch false); simpl; now rewrite Hch.
Qed.

Lemma print_literal_default (h : Host) (typid : Oid) (text : string) :
  literal_switch typid = case_default ->
  print_literal h EmptyString typid text
  = String dquote
      (print_literal_chars h EmptyString text ++ String dquote EmptyString).
Proof.
  intros Hcase. unfold print_literal. rewrite Hcase.
  unfold appendStringInfoChar. simpl.
  now rewrite print_literal_chars_grows.
Qed.

Section RecordIsJson.

Import Json.

Variable limit : nat.
Variable h : Host.

Lemma run_value_text (typid : Oid) (origval : option Datum)
    (include_toast_datum : bool) (stack : list container) :
  value_ok h typid origval include_toast_datum = true ->
  value_read
    (run limit (Some (st_value, stack))
       (value_text h typid origval include_toast_datum))
    stack.
Proof.
  unfold value_ok, value_text.
  destruct origval as [d|]; [|intros _; now left].
  intros Hok. apply andb_prop in Hok as [Htoast Hlit].
  apply negb_true_iff in Htoast. rewrite Htoast.
  destruct (literal_switch typid) eqn:Hcase.
  - unfold print_literal. rewrite Hcase.
    destruct (run_number limit stack _ Hlit) as (n & Hrun & Hfinal).
    right. exists n. simpl. now rewrite Hrun.
  - unfold print_literal. rewrite Hcase.
    left. simpl. now apply run_quoted.
  - unfold print_literal. rewrite Hcase.
    left. simpl. now destruct (String.eqb (datum_text d) "t").
  - left. rewrite print_literal_default by exact Hcase.
    apply run_quoted. now apply json_plain_print_literal_chars.
Qed.

Lemma field_text_split (attr : Form_pg_attribute) (natt : nat)
    (tuple : HeapTuple) (include_toast_datum : bool) :
  field_text h attr natt tuple include_toast_datum
  = (if (0 <? natt)%nat then "," else EmptyString)
      ++ (cstr " '" ++ quote_identifier h (attname attr) ++ cstr "': ")
      ++ value_text h (atttypid attr) (heap_getattr tuple (natt + 1))
           include_toast_datum.
Proof.
  unfold field_text. now rewrite !append_assoc.
Qed.

(** The first attribute's field, where a member may start. *)
Lemma run_field_first (st : state) (stack : list container)
    (attr : Form_pg_attribute) (tuple : HeapTuple)
    (include_toast_datum : bool) :
  member_start st ->
  field_ok h attr 0 tuple include_toast_datum = true ->
  value_read
    (run limit (Some (st, stack))
       (field_text h attr 0 tuple include_toast_datum))
    stack.
Proof.
  intros Hst Hok. apply andb_prop in Hok as [Hname Hvalue].
  rewrite field_text_split.
  change ((if (0 <? 0)%nat then "," else EmptyString) ++ ?x) with x.
  rewrite run_app, (run_member_name limit st stack _ Hst Hname).
  now apply run_value_text.
Qed.

(** A later attribute's field, after a value. *)
Lemma run_field_next (cfg : option config) (stack : list container)
    (attr : Form_pg_attribute) (natt : nat) (tuple : HeapTuple)
    (include_toast_datum : bool) :
  1 <= natt ->
  value_read cfg (in_object :: stack) ->
  field_ok h attr natt tuple include_toast_datum = true ->
  value_read
    (run limit cfg (field_text h attr natt tuple include_toast_datum))
    (in_object :: stack).
Proof.
  intros Hnatt Hcfg Hok. apply andb_prop in Hok as [Hname Hvalue].
  rewrite field_text_split.
  destruct natt as [|natt]; [lia|].
  change (0 <? S natt)%nat with true. cbv iota.
  rewrite run_app, (value_read_comma limit cfg stack Hcfg).
  rewrite run_app, (run_member_name limit st_key _ _ (or_introl eq_refl) Hname).
  now apply run_value_text.
Qed.

Lemma run_fields_next (attrs : list Form_pg_attribute) (tuple : HeapTuple)
    (skip_nulls include_toast_datum : bool) (stack : list container)
    (natt : nat) (cfg : option config) :
  1 <= natt ->
  fields_ok h attrs natt tuple skip_nulls include_toast_datum = true ->
  value_read cfg (in_object :: stack) ->
  value_read
    (run limit cfg
       (fields_text h attrs natt tuple skip_nulls include_toast_datum))
    (in_object :: stack).
Proof.
  revert natt cfg.
  induction attrs as [|attr rest IH]; intros natt cfg Hnatt Hok Hcfg.
  - exact Hcfg.
  - simpl in Hok. apply andb_prop in Hok as [Hfield Hrest].
    simpl. rewrite run_app.
    apply IH; [lia | exact Hrest |].
    destruct (emits attr natt tuple skip_nulls).
    + now apply run_field_next.
    + exact Hcfg.
Qed.

Lemma none_emitted_text (attrs : list Form_pg_attribute) (tuple : HeapTuple)
    (skip_nulls include_toast_datum : bool) (natt : nat) :
  none_emitted attrs natt tuple skip_nulls = true ->
  fields_text h attrs natt tuple skip_nulls include_toast_datum = EmptyString.
Proof.
  revert natt.
  induction attrs as [|attr rest IH]; intros natt Hnone; [reflexivity|].
  simpl in Hnone. apply andb_prop in Hnone as [Hattr Hrest].
  apply negb_true_iff in Hattr.
  simpl. now rewrite Hattr, IH.
Qed.

(** The fields of an image whose first column is printed. *)
Lemma run_fields_leading (st : state) (stack : list container)
    (tupdesc : TupleDesc) (tuple : HeapTuple)
    (skip_nulls include_toast_datum : bool) :
  member_start st ->
  leads tupdesc tuple skip_nulls = true ->
  fields_ok h tupdesc 0 tuple skip_nulls include_toast_datum = true ->
  value_read
    (run limit (Some (st, in_object :: stack))
       (fields_text h tupdesc 0 tuple skip_nulls include_toast_datum))
    (in_object :: stack).
Proof.
  intros Hst Hleads Hok.
  destruct tupdesc as [|attr rest]; [discriminate|].
  simpl in Hleads, Hok. rewrite Hleads in Hok.
  apply andb_prop in Hok as [Hfield Hrest].
  simpl. rewrite Hleads, run_app.
  apply run_fields_next; [lia | exact Hrest |].
  now apply run_field_first.
Qed.

(** The commit time and the transaction id are members. *)
Lemma run_metadata (data : JsonDecodingData) (txn : ReorderBufferTXN)
    (stack : list container) :
  negb (include_timestamp data)
  || json_plain (timestamptz_to_str h (txn_commit_time txn)) = true ->
  run limit (Some (st_key, in_object :: stack)) (metadata_text h data txn)
  = Some (st_key, in_object :: stack).
Proof.
  intros Htime. unfold metadata_text. rewrite run_app.
  assert (Hfirst :
            run limit (Some (st_key, in_object :: stack))
              (if include_timestamp data
               then cstr "'pg_change_tnx_time': '"
                      ++ timestamptz_to_str h (txn_commit_time txn)
                      ++ cstr "', "
               else EmptyString)
            = Some (st_key, in_object :: stack)).
  { destruct (include_timestamp data); [|reflexivity].
    simpl in Htime.
    rewrite run_app.
    change (run limit (Some (st_key, in_object :: stack))
              (cstr "'pg_change_tnx_time': '"))
      with (Some (st_string false, in_object :: stack)).
    now rewrite run_app, run_plain. }
  rewrite Hfirst.
  destruct (include_xids data); [|reflexivity].
  rewrite run_app.
  change (run limit (Some (st_key, in_object :: stack))
            (cstr "'pg_change_tnx_id': "))
    with (Some (st_value, in_object :: stack)).
  rewrite run_app.
  destruct (run_number limit (in_object :: stack) _
              (print_u_number (txn_xid txn))) as (n & -> & Hfinal).
  destruct n; try discriminate Hfinal; reflexivity.
Qed.

(** A top-level image and the closing brace end the record. *)
Lemma run_image_close (tupdesc : TupleDesc) (tuple : option HeapTuple)
    (skip_nulls include_toast_datum : bool) :
  image_ok h tupdesc tuple skip_nulls include_toast_datum = true ->
  run limit (Some (st_key, [in_object]))
    (image_text h tupdesc tuple skip_nulls include_toast_datum ++ " }")
  = Some (st_after, []).
Proof.
  unfold image_ok, image_text.
  destruct tuple as [tuple|]; [|discriminate].
  intros Hok. apply andb_prop in Hok as [Hleads Hfields].
  rewrite run_app.
  pose proof (run_fields_leading st_key [] tupdesc tuple skip_nulls
                include_toast_datum (or_introl eq_refl) Hleads Hfields)
    as Hread.
  destruct Hread as [-> | (n & -> & Hfinal)]; [reflexivity|].
  destruct n; try discriminate Hfinal; reflexivity.
Qed.

(** The old-primary-key block is a member whose value is an object. *)
Lemma run_old_primary_key (tupdesc : TupleDesc) (tuple : option HeapTuple)
    (include_toast_datum : bool) :
  (match tuple with Some _ => 2 | None => 1 end) <= limit ->
  old_primary_key_ok h tupdesc tuple include_toast_datum = true ->
  run limit (Some (st_key, [in_object]))
    (old_primary_key_text h tupdesc tuple include_toast_datum)
  = Some (st_key, [in_object]).
Proof.
  unfold old_primary_key_ok, old_primary_key_text.
  destruct tuple as [tuple|]; [|reflexivity].
  intros Hlimit Hok. apply andb_prop in Hok as [Hfirst Hfields].
  rewrite run_app.
  assert (Hopen : run limit (Some (st_key, [in_object]))
                    (cstr " 'old_primary_key': { ")
                  = Some (st_key_or_close, [in_object; in_object])).
  { destruct limit as [|[|l]]; [lia | lia | reflexivity]. }
  rewrite Hopen, run_app.
  apply orb_prop in Hfirst as [Hleads | Hnone].
  - pose proof (run_fields_leading st_key_or_close [in_object] tupdesc tuple
                  true include_toast_datum (or_intror eq_refl) Hleads
                  Hfields) as Hread.
    destruct Hread as [-> | (n & -> & Hfinal)]; [reflexivity|].
    destruct n; try discriminate Hfinal; reflexivity.
  - now rewrite none_emitted_text.
Qed.

End RecordIsJson.

Lemma record_layout_length (h : Host) (data : JsonDecodingData)
    (txn : ReorderBufferTXN) (relation : Relation)
    (change : ReorderBufferChange) :
  2 <= String.length (record_layout h data txn relation change).
Proof.
  unfold record_layout.
  change (cstr "{ 'pg_change_table': '")
    with (String "{" (String " " (cstr "'pg_change_table': '"))).
  cbn [append String.length]. lia.
Qed.

Lemma record_layout_prefix (h : Host) (data : JsonDecodingData)
    (txn : ReorderBufferTXN) (relation : Relation)
    (change : ReorderBufferChange) :
  String.prefix "{" (record_layout h data txn relation change) = true.
Proof.
  unfold record_layout.
  change (cstr "{ 'pg_change_table': '")
    with (String "{" (cstr " 'pg_change_table': '")).
  cbn [append]. reflexivity.
Qed.

(** A record that is [record_ok] is a JSON object, nested no deeper than
    [limit] if [limit] is at least its [nesting]. *)
Lemma record_is_json (limit : nat) (h : Host) (data : JsonDecodingData)
    (txn : ReorderBufferTXN) (relation : Relation)
    (change : ReorderBufferChange) :
  nesting change <= limit ->
  record_ok h data txn relation change = true ->
  Json.object_within limit (record_layout h data txn relation change) = true.
Proof.
  intros Hlimit Hok.
  unfold Json.object_within. rewrite record_layout_prefix. simpl andb.
  unfold record_ok in Hok.
  apply andb_prop in Hok as [Hok Haction].
  apply andb_prop in Hok as [Htable Htime].
  assert (Hone : 1 <= limit).
  { unfold nesting in Hlimit.
    destruct (action change), (oldtuple change); lia. }
  unfold Json.text_within, record_layout.
  rewrite run_app.
  assert (Hopen : Json.run limit (Some (Json.st_value, []))
                    (cstr "{ 'pg_change_table': '")
                  = Some (Json.st_string false, [Json.in_object])).
  { destruct limit as [|l]; [lia | reflexivity]. }
  rewrite Hopen, run_app, run_plain by exact Htable.
  rewrite run_app.
  change (Json.run limit (Some (Json.st_string false, [Json.in_object]))
            (cstr "', "))
    with (Some (Json.st_key, [Json.in_object])).
  rewrite run_app, run_metadata by exact Htime.
  rewrite run_app.
  change (Json.run limit (Some (Json.st_key, [Json.in_object]))
            (cstr " 'pg_change_type': "))
    with (Some (Json.st_value, [Json.in_object])).
  unfold operation_text, nesting in *.
  destruct (action change); try discriminate Haction.
  - rewrite append_assoc, run_app.
    change (Json.run limit (Some (Json.st_value, [Json.in_object]))
              (cstr "'INSERT', "))
      with (Some (Json.st_key, [Json.in_object])).
    now rewrite run_image_close.
  - apply andb_prop in Haction as [Hold Hnew].
    rewrite !append_assoc, run_app.
    change (Json.run limit (Some (Json.st_value, [Json.in_object]))
              (cstr "'UPDATE', "))
      with (Some (Json.st_key, [Json.in_object])).
    rewrite run_app, run_old_primary_key by assumption.
    now rewrite run_image_close.
  - rewrite append_assoc, run_app.
    change (Json.run limit (Some (Json.st_value, [Json.in_object]))
              (cstr "'DELETE', "))
      with (Some (Json.st_key, [Json.in_object])).
    now rewrite run_image_close.
Qed.

(** ** Records *)

(** C1, as stated, fails.  The record of an insertion into a table whose
    first column was dropped has a comma right after the comma of the
    operation, and is no JSON text; and the NULLs of the old image of a
    delete (here of a table whose replica identity is its key) are left
    out, though the record has no old-primary-key block. *)
Lemma record_not_always_json :
  records_after (fresh_ctx startup_defaults)
    (pg_decode_change (server false) (fresh_ctx startup_defaults) txn_4542284
       altered_table
       (mkChange REORDER_BUFFER_CHANGE_INSERT None
          (Some [None; inline "t"; inline "6"])))
  = [ cstr "{ 'pg_change_table': 'public.test_table', 'pg_change_tnx_time': '2019-02-19 00:52:28.467626-05', 'pg_change_tnx_id': 4542284,  'pg_change_type': 'INSERT', , 'state': true, 'id': 6 }" ]
  /\ Json.text
       (cstr "{ 'pg_change_table': 'public.test_table', 'pg_change_tnx_time': '2019-02-19 00:52:28.467626-05', 'pg_change_tnx_id': 4542284,  'pg_change_type': 'INSERT', , 'state': true, 'id': 6 }")
     = false
  /\ records_after (fresh_ctx startup_defaults)
       (pg_decode_change (server false) (fresh_ctx startup_defaults)
          txn_4542284 test_table
          (mkChange REORDER_BUFFER_CHANGE_DELETE
             (Some [inline "6"; None; None]) None))
     = [ cstr "{ 'pg_change_table': 'public.test_table', 'pg_change_tnx_time': '2019-02-19 00:52:28.467626-05', 'pg_change_tnx_id': 4542284,  'pg_change_type': 'DELETE',  'id': 6 }" ].
Proof.
  repeat split.
Qed.

(** C1, as amended: the record of an insert, update or delete is
    [record_layout]: the table identity, the commit time and the
    transaction id (each if its option is set), the operation, for an update
    with an old image the old-primary-key block, then the fields of the
    image, and the closing brace.  The fields ([fields_text]) follow the
    column schema; a dropped or system column has none ([emits]); a NULL is
    printed as [null] in the new image of an insert or update and has no
    field in the old-primary-key block and in the old image of a delete.
    When the record is [record_ok] (the image is there and its first column
    is printed, as is the first column of the old-primary-key block unless
    the block is empty; names, table and time need no escaping; numeric
    texts are JSON numbers, quoted texts need no escaping, and no toast
    placeholder is printed) the record is a JSON object of scalars, with
    the old-primary-key block of an update as its only nested object. *)
Theorem record_of_change (h : Host) (ctx : LogicalDecodingContext)
    (txn : ReorderBufferTXN) (relation : Relation)
    (change : ReorderBufferChange) :
  known_action (action change) = true ->
  records_after ctx (pg_decode_change h ctx txn relation change)
  = (written ctx
       ++ [record_layout h (output_plugin_private ctx) txn relation change])%list
  /\ (record_ok h (output_plugin_private ctx) txn relation change = true ->
      Json.object_within (nesting change)
        (record_layout h (output_plugin_private ctx) txn relation change)
      = true
      /\ Json.object
           (record_layout h (output_plugin_private ctx) txn relation change)
         = true).
Proof.
  intros Hknown. split.
  - now rewrite pg_decode_change_known.
  - intros Hok. split.
    + now apply record_is_json.
    + apply record_is_json; [|exact Hok].
      pose proof (record_layout_length h (output_plugin_private ctx) txn
                    relation change).
      unfold nesting. destruct (action change), (oldtuple change); lia.
Qed.

Lemma record_of_change_witness :
  known_action (action update_6_to_5) = true
  /\ records_after (fresh_ctx startup_defaults)
       (pg_decode_change (server false) (fresh_ctx startup_defaults)
          txn_4542284 test_table update_6_to_5)
     = [ cstr "{ 'pg_change_table': 'public.test_table', 'pg_change_tnx_time': '2019-02-19 00:52:28.467626-05', 'pg_change_tnx_id': 4542284,  'pg_change_type': 'UPDATE',  'old_primary_key': {  'id': 6 },  'id': 5, 'state': true, 'date': '2019-02-14 14:36:20.308138' }" ]
  /\ record_ok (server false) (fst startup_defaults) txn_4542284 test_table
       update_6_to_5 = true
  /\ Json.object_within 2
       (record_layout (server false) (fst startup_defaults) txn_4542284
          test_table update_6_to_5) = true
  /\ Json.object
       (record_layout (server false) (fst startup_defaults) txn_4542284
          test_table update_6_to_5) = true.
Proof.
  split; [reflexivity|].
  destruct (record_of_change (server false) (fresh_ctx startup_defaults)
              txn_4542284 test_table update_6_to_5 eq_refl)
    as [Hrecord Hjson].
  split; [exact Hrecord|].
  split; [reflexivity|].
  exact (Hjson eq_refl).
Defined.

(** ** Further properties *)

(** The record of the documented insertion, byte for byte: the key of the
    operation is [pg_change_type]. *)
Theorem insert_record_bytes (h : Host) (ctx : LogicalDecodingContext)
    (txn : ReorderBufferTXN) :
  include_xids (output_plugin_private ctx) = true ->
  include_timestamp (output_plugin_private ctx) = true ->
  table_identity h test_table = "public.test_table" ->
  quote_identifier h "id" = "id" ->
  quote_identifier h "state" = "state" ->
  quote_identifier h "date" = "date" ->
  none_doubled h "2019-02-14 14:36:20.308138" = true ->
  records_after ctx (pg_decode_change h ctx txn test_table insert_row_6)
  = (written ctx
       ++ [ (cstr "{ 'pg_change_table': 'public.test_table', 'pg_change_tnx_time': '"
               ++ timestamptz_to_str h (txn_commit_time txn)
               ++ cstr "', 'pg_change_tnx_id': " ++ print_u (txn_xid txn)
               ++ cstr ",  'pg_change_type': 'INSERT',  'id': 6, 'state': true, 'date': '2019-02-14 14:36:20.308138' }")%string ])%list.
Proof.
  intros Hxids Htime Htable Hid Hstate Hdate Hnone.
  rewrite pg_decode_change_known by reflexivity.
  unfold records_after, written at 1. do 2 f_equal.
  rewrite insert_row_6_record by assumption.
  unfold insert_layout. flatten_appends. reflexivity.
Qed.

Lemma insert_record_bytes_witness :
  records_after (fresh_ctx startup_defaults)
    (pg_decode_change (server false) (fresh_ctx startup_defaults)
       txn_4542284 test_table insert_row_6)
  = [ cstr "{ 'pg_change_table': 'public.test_table', 'pg_change_tnx_time': '2019-02-19 00:52:28.467626-05', 'pg_change_tnx_id': 4542284,  'pg_change_type': 'INSERT',  'id': 6, 'state': true, 'date': '2019-02-14 14:36:20.308138' }" ].
Proof.
  exact (insert_record_bytes (server false) (fresh_ctx startup_defaults)
           txn_4542284 eq_refl eq_refl eq_refl eq_refl eq_refl eq_refl
           eq_refl).
Defined.

(** A value of a numeric type is printed as the text the server gives for
    it, unquoted and unchanged. *)
Theorem print_literal_numeric (h : Host) (s text : string) (typid : Oid) :
  In typid numeric_types ->
  print_literal h s typid text = s ++ text.
Proof.
  intros Hin. simpl in Hin.
  repeat (destruct Hin as [<-|Hin]; [reflexivity|]).
  contradiction.
Qed.

Lemma print_literal_numeric_witness :
  In NUMERICOID numeric_types
  /\ print_literal (server false) (cstr " 'price': ") NUMERICOID "12.50"
     = cstr " 'price': 12.50".
Proof.
  split; [simpl; tauto|].
  apply (print_literal_numeric (server false) (cstr " 'price': ") "12.50"
           NUMERICOID).
  simpl; tauto.
Defined.

Lemma decode_plain (text : string) :
  json_plain text = true ->
  Json.decode_from Json.dec_plain (text ++ String dquote EmptyString)
  = Some text.
Proof.
  induction text as [|c rest IH]; intros Hplain; [reflexivity|].
  unfold json_plain in Hplain. simpl in Hplain.
  apply andb_prop in Hplain as [Hc Hrest].
  simpl. rewrite Hc, (IH Hrest).
  unfold Json.plain_char in Hc.
  apply andb_prop in Hc as [Hc _]. apply andb_prop in Hc as [Hq Hb].
  apply negb_true_iff in Hq, Hb. now rewrite Hq, Hb.
Qed.

(** A text value without double quotes, backslashes and control characters,
    none of whose characters the server doubles, is printed as a JSON
    string that decodes to the text. *)
Theorem plain_text_round_trip (h : Host) (typid : Oid) (text : string) :
  literal_switch typid = case_default ->
  json_plain text = true ->
  none_doubled h text = true ->
  Json.decode_string (print_literal h EmptyString typid text) = Some text.
Proof.
  intros Hcase Hplain Hnone.
  rewrite print_literal_default by exact Hcase.
  rewrite print_literal_chars_none_doubled by exact Hnone.
  simpl. now apply decode_plain.
Qed.

Lemma plain_text_round_trip_witness :
  literal_switch TIMESTAMPOID = case_default
  /\ json_plain "2019-02-14 14:36:20.308138" = true
  /\ none_doubled (server false) "2019-02-14 14:36:20.308138" = true
  /\ Json.decode_string
       (print_literal (server false) EmptyString TIMESTAMPOID
          "2019-02-14 14:36:20.308138")
     = Some "2019-02-14 14:36:20.308138".
Proof.
  do 3 (split; [reflexivity|]).
  exact (plain_text_round_trip (server false) TIMESTAMPOID
           "2019-02-14 14:36:20.308138" eq_refl eq_refl eq_refl).
Defined.

(** An option whose name is none of the six ends startup with the
    unknown-option error, which gives the name and the value. *)
Theorem unknown_option_rejected (h : Host) (before after : list DefElem)
    (st : Startup) (elem : DefElem) :
  existsb (String.eqb (defname elem)) recognized_options = false ->
  startup_options h startup_defaults before = Ok st ->
  pg_decode_startup h (before ++ elem :: after)
  = Err (ereport_ERROR ERRCODE_INVALID_PARAMETER_VALUE
           (cstr "option '" ++ defname elem ++ cstr "' = '"
              ++ match arg elem with Some v => v | None => "(null)" end
              ++ cstr "' is unknown")).
Proof.
  intros Hname Hbefore.
  unfold pg_decode_startup.
  rewrite startup_options_app, Hbefore. simpl bind.
  simpl in Hname.
  repeat (apply orb_false_elim in Hname as [?H Hname]).
  destruct st as [data opt].
  unfold startup_option, hasParameter.
  repeat match goal with
         | [ H : String.eqb _ _ = false |- _ ] => rewrite H; clear H
         end.
  reflexivity.
Qed.

Lemma unknown_option_rejected_witness :
  existsb (String.eqb (defname (mkDefElem "include-lsn" (Some "on"))))
    recognized_options = false
  /\ startup_options (server false) startup_defaults [] = Ok startup_defaults
  /\ pg_decode_startup (server false)
       ([] ++ mkDefElem "include-lsn" (Some "on") :: [])
     = Err (ereport_ERROR ERRCODE_INVALID_PARAMETER_VALUE
              (cstr "option 'include-lsn' = 'on' is unknown")).
Proof.
  do 2 (split; [reflexivity|]).
  exact (unknown_option_rejected (server false) [] [] startup_defaults
           (mkDefElem "include-lsn" (Some "on")) eq_refl eq_refl).
Defined.

(** A value that does not parse as a boolean, given for one of the five
    options that take a value, ends startup with the error of
    [reportErrorInvalidParam], which gives the value and the name. *)
Theorem unparsable_value_rejected (h : Host) (before after : list DefElem)
    (st : Startup) (name value : string) :
  In name valued_options ->
  parse_bool h value = None ->
  startup_options h startup_defaults before = Ok st ->
  pg_decode_startup h (before ++ mkDefElem name (Some value) :: after)
  = Err (ereport_ERROR ERRCODE_INVALID_PARAMETER_VALUE
           (cstr "could not parse value '" ++ value
              ++ cstr "' for parameter '" ++ name ++ cstr "'")).
Proof.
  intros Hin Hparse Hbefore.
  unfold pg_decode_startup.
  rewrite startup_options_app, Hbefore. simpl bind.
  destruct st as [data opt].
  simpl in Hin.
  repeat (destruct Hin as [<-|Hin];
          [unfold startup_option, parse_bool_into; simpl;
           now rewrite Hparse|]).
  contradiction.
Qed.

Lemma unparsable_value_rejected_witness :
  In "include-timestamp" valued_options
  /\ parse_bool (server false) "maybe" = None
  /\ startup_options (server false) startup_defaults [] = Ok startup_defaults
  /\ pg_decode_startup (server false)
       ([] ++ mkDefElem "include-timestamp" (Some "maybe") :: [])
     = Err (ereport_ERROR ERRCODE_INVALID_PARAMETER_VALUE
              (cstr "could not parse value 'maybe' for parameter 'include-timestamp'")).
Proof.
  split; [simpl; tauto|].
  do 2 (split; [reflexivity|]).
  apply (unparsable_value_rejected (server false) [] [] startup_defaults
           "include-timestamp" "maybe").
  - simpl; tauto.
  - reflexivity.
  - reflexivity.
Defined.

(** The filter suppresses a change exactly when [only_local] is set and the
    origin is not the local one. *)
Theorem filter_suppresses_foreign_origins (ctx : LogicalDecodingContext)
    (origin_id : RepOriginId) :
  pg_decode_filter ctx origin_id = true
  <-> only_local (output_plugin_private ctx) = true
      /\ origin_id <> InvalidRepOriginId.
Proof.
  unfold pg_decode_filter.
  rewrite andb_true_iff, negb_true_iff, N.eqb_neq.
  reflexivity.
Qed.

(** A dropped column and a system column have no field: the loop goes from
    the fields of the columns before it straight to those of the columns
    after it, whatever the operation, the options and the tuple. *)
Theorem hidden_column_has_no_field (h : Host) (s : string)
    (before after : list Form_pg_attribute) (attr : Form_pg_attribute)
    (tuple : HeapTuple) (skip_nulls include_toast_datum : bool) :
  isColumnDeleted attr = true \/ isSystemColumn attr = true ->
  tuple_to_json_fields h s (before ++ attr :: after)%list tuple skip_nulls
    include_toast_datum
  = tuple_to_json_fields_from h
      (tuple_to_json_fields h s before tuple skip_nulls include_toast_datum)
      after (S (length before)) tuple skip_nulls include_toast_datum.
Proof.
  intros Hhidden.
  rewrite !tuple_to_json_fields_eq, tuple_to_json_fields_from_eq.
  rewrite fields_text_app. simpl.
  assert (Hemits : emits attr (length before) tuple skip_nulls = false).
  { unfold emits. destruct Hhidden as [-> | ->]; simpl;
      [reflexivity | now rewrite orb_true_r]. }
  rewrite Hemits. simpl. now rewrite !append_assoc.
Qed.

Lemma hidden_column_has_no_field_witness :
  (isColumnDeleted (mkAttr "........pg.dropped.2........" InvalidOid 2 true)
   = true
   \/ isSystemColumn (mkAttr "........pg.dropped.2........" InvalidOid 2 true)
      = true)
  /\ tuple_to_json_fields (server false) EmptyString
       ([mkAttr "id" INT4OID 1 false]
          ++ mkAttr "........pg.dropped.2........" InvalidOid 2 true
          :: [mkAttr "date" TIMESTAMPOID 3 false])%list
       row_6 false true
     = cstr " 'id': 6, 'date': '2019-02-14 14:36:20.308138'".
Proof.
  split; [left; reflexivity|].
  exact (hidden_column_has_no_field (server false) EmptyString
           [mkAttr "id" INT4OID 1 false]
           [mkAttr "date" TIMESTAMPOID 3 false]
           (mkAttr "........pg.dropped.2........" InvalidOid 2 true)
           row_6 false true (or_introl eq_refl)).
Defined.

(** ** Startup, option by option *)

Lemma startup_option_accepts (h : Host) (st : Startup) (elem : DefElem) :
  (exists st', startup_option h st elem = Ok st') <-> acceptable h elem = true.
Proof.
  destruct st as [data opt]. destruct elem as [name [v|]];
    unfold startup_option, acceptable, hasParameter, arg_not_NULL,
      parse_bool_into, reportErrorInvalidParam, reportUnknownParam;
    cbn [defname arg existsb valued_options strVal bind andb].
  - rewrite ?andb_true_r.
    destruct (String.eqb_spec name "include-xids") as [->|?];
    [|destruct (String.eqb_spec name "include-timestamp") as [->|?];
    [|destruct (String.eqb_spec name "skip-empty-xacts") as [->|?];
    [|destruct (String.eqb_spec name "only-local") as [->|?];
    [|destruct (String.eqb_spec name "include-rewrites") as [->|?];
    [|destruct (String.eqb_spec name "include-toast-datum") as [->|?]]]]]];
    cbn; try (destruct (parse_bool h v)); cbn;
      split; try (intros [st' H]; discriminate H); try discriminate;
      try (intros _; eexists; reflexivity); try reflexivity.
  - rewrite ?andb_false_r.
    destruct (String.eqb name "only-local"); cbn;
      split; try (intros [st' H]; discriminate H); discriminate.
Qed.

(** Startup succeeds exactly on the option lists all of whose options are
    [acceptable]: each has a value, and is [only-local] (whatever its value)
    or one of the five other options with a value that parses as a
    boolean. *)
Theorem startup_accepts (h : Host) (options : list DefElem) :
  (exists st, pg_decode_startup h options = Ok st)
  <-> forallb (acceptable h) options = true.
Proof.
  unfold pg_decode_startup. generalize startup_defaults as st.
  induction options as [|elem rest IH]; intros st; simpl.
  - split; [reflexivity | intros _; now exists st].
  - rewrite andb_true_iff, <- (startup_option_accepts h st elem).
    split.
    + intros [st' H].
      destruct (startup_option h st elem) as [st1|f] eqn:Hfirst;
        [|discriminate H].
      split; [now exists st1 | apply (IH st1); now exists st'].
    + intros [[st1 Hfirst] Hrest]. rewrite Hfirst. simpl.
      now apply IH.
Qed.

Lemma startup_option_effect (h : Host) (data data' : JsonDecodingData)
    (opt opt' : OutputPluginOptions) (elem : DefElem) :
  startup_option h (data, opt) elem = Ok (data', opt') ->
  include_xids data' = setting1 h "include-xids" elem (include_xids data)
  /\ include_timestamp data'
     = setting1 h "include-timestamp" elem (include_timestamp data)
  /\ skip_empty_xacts data'
     = setting1 h "skip-empty-xacts" elem (skip_empty_xacts data)
  /\ include_toast_datum data'
     = setting1 h "include-toast-datum" elem (include_toast_datum data)
  /\ receive_rewrites opt'
     = setting1 h "include-rewrites" elem (receive_rewrites opt)
  /\ only_local data' = (hasParameter elem "only-local" || only_local data)
  /\ include_messages data' = include_messages data
  /\ xact_wrote_changes data' = xact_wrote_changes data
  /\ xid data' = xid data
  /\ commit_time data' = commit_time data
  /\ output_type opt' = output_type opt.
Proof.
  destruct elem as [name [v|]];
    unfold startup_option, setting1, hasParameter, arg_not_NULL,
      parse_bool_into, reportErrorInvalidParam, reportUnknownParam;
    cbn [defname arg strVal bind andb].
  - rewrite ?andb_true_r.
    destruct (String.eqb_spec name "include-xids") as [->|?];
    [|destruct (String.eqb_spec name "include-timestamp") as [->|?];
    [|destruct (String.eqb_spec name "skip-empty-xacts") as [->|?];
    [|destruct (String.eqb_spec name "only-local") as [->|?];
    [|destruct (String.eqb_spec name "include-rewrites") as [->|?];
    [|destruct (String.eqb_spec name "include-toast-datum") as [->|?]]]]]];
    cbn; try (destruct (parse_bool h v)); cbn;
      intros H; try discriminate H;
      injection H as <- <-; destruct data, opt; cbn; repeat split.
  - rewrite ?andb_false_r.
    destruct (String.eqb name "only-local"); cbn; discriminate.
Qed.

Lemma startup_options_settings (h : Host) (options : list DefElem)
    (data0 data : JsonDecodingData) (opt0 opt : OutputPluginOptions) :
  startup_options h (data0, opt0) options = Ok (data, opt) ->
  include_xids data = setting h "include-xids" options (include_xids data0)
  /\ include_timestamp data
     = setting h "include-timestamp" options (include_timestamp data0)
  /\ skip_empty_xacts data
     = setting h "skip-empty-xacts" options (skip_empty_xacts data0)
  /\ include_toast_datum data
     = setting h "include-toast-datum" options (include_toast_datum data0)
  /\ receive_rewrites opt
     = setting h "include-rewrites" options (receive_rewrites opt0)
  /\ only_local data
     = (existsb (fun elem => hasParameter elem "only-local") options
        || only_local data0)
  /\ include_messages data = include_messages data0
  /\ xact_wrote_changes data = xact_wrote_changes data0
  /\ xid data = xid data0
  /\ commit_time data = commit_time data0
  /\ output_type opt = output_type opt0.
Proof.
  revert data0 opt0.
  induction options as [|elem rest IH]; intros data0 opt0 H;
    cbn [startup_options] in H.
  - injection H as <- <-. simpl. repeat split.
  - destruct (startup_option h (data0, opt0) elem) as [[data1 opt1]|f]
      eqn:Hfirst; [|discriminate H].
    cbn [bind] in H.
    destruct (startup_option_effect h _ _ _ _ _ Hfirst)
      as (E1 & E2 & E3 & E4 & E5 & E6 & E7 & E8 & E9 & E10 & E11).
    destruct (IH _ _ H)
      as (R1 & R2 & R3 & R4 & R5 & R6 & R7 & R8 & R9 & R10 & R11).
    simpl.
    rewrite R1, R2, R3, R4, R5, R6, R7, R8, R9, R10, R11.
    rewrite E1, E2, E3, E4, E5, E6, E7, E8, E9, E10, E11.
    rewrite orb_assoc, (orb_comm (existsb _ rest)).
    repeat split.
Qed.

(** After a startup that succeeds, each of the five flags with a value is
    what the last option of its name says, or its default (true, and false
    for [include-rewrites]) when no option names it; [only_local] is set
    exactly when some option is named [only-local]; and startup never sets
    [include_messages] or [xact_wrote_changes], and always asks for textual
    output. *)
Theorem startup_settings (h : Host) (options : list DefElem)
    (data : JsonDecodingData) (opt : OutputPluginOptions) :
  pg_decode_startup h options = Ok (data, opt) ->
  include_xids data = setting h "include-xids" options true
  /\ include_timestamp data = setting h "include-timestamp" options true
  /\ skip_empty_xacts data = setting h "skip-empty-xacts" options true
  /\ include_toast_datum data = setting h "include-toast-datum" options true
  /\ receive_rewrites opt = setting h "include-rewrites" options false
  /\ only_local data
     = existsb (fun elem => hasParameter elem "only-local") options
  /\ include_messages data = false
  /\ xact_wrote_changes data = false
  /\ output_type opt = OUTPUT_PLUGIN_TEXTUAL_OUTPUT.
Proof.
  intros H.
  destruct (startup_options_settings h options _ _ _ _ H)
    as (R1 & R2 & R3 & R4 & R5 & R6 & R7 & R8 & _ & _ & R11).
  rewrite orb_false_r in R6.
  repeat split; assumption.
Qed.

Lemma startup_settings_witness :
  pg_decode_startup (server false) some_options
  = Ok (mkData true true true false true false true 0%N 0%Z,
        mkOpt OUTPUT_PLUGIN_TEXTUAL_OUTPUT true)
  /\ setting (server false) "include-xids" some_options true = true
  /\ setting (server false) "include-rewrites" some_options false = true
  /\ existsb (fun elem => hasParameter elem "only-local") some_options = true.
Proof.
  split; [reflexivity|].
  pose proof (startup_settings (server false) some_options _ _ eq_refl)
    as (R1 & _ & _ & _ & R5 & R6 & _).
  repeat split; symmetry; assumption.
Defined.

Lemma startup_option_rejects (h : Host) (st : Startup) (elem : DefElem) :
  acceptable h elem = false ->
  startup_option h st elem = Err (rejection h elem).
Proof.
  destruct st as [data opt]. destruct elem as [name [v|]];
    unfold startup_option, acceptable, rejection, hasParameter, arg_not_NULL,
      parse_bool_into, reportErrorInvalidParam, reportUnknownParam;
    cbn [defname arg existsb valued_options strVal bind andb].
  - rewrite ?andb_true_r.
    destruct (String.eqb_spec name "include-xids") as [->|?];
    [|destruct (String.eqb_spec name "include-timestamp") as [->|?];
    [|destruct (String.eqb_spec name "skip-empty-xacts") as [->|?];
    [|destruct (String.eqb_spec name "only-local") as [->|?];
    [|destruct (String.eqb_spec name "include-rewrites") as [->|?];
    [|destruct (String.eqb_spec name "include-toast-datum") as [->|?]]]]]];
    cbn; try (destruct (parse_bool h v)); cbn;
      try discriminate; reflexivity.
  - rewrite ?andb_false_r. intros _.
    destruct (String.eqb name "only-local"); reflexivity.
Qed.

(** Startup fails exactly when some option is not [acceptable], and then
    with what the first such option is rejected for: the options before it
    were accepted and those after it are not looked at. *)
Theorem startup_failure (h : Host) (options : list DefElem) (f : failure) :
  pg_decode_startup h options = Err f
  <-> exists before elem after,
        options = (before ++ elem :: after)%list
        /\ forallb (acceptable h) before = true
        /\ acceptable h elem = false
        /\ f = rejection h elem.
Proof.
  unfold pg_decode_startup. generalize startup_defaults as st.
  induction options as [|elem rest IH]; intros st.
  - split; [discriminate|].
    intros (before & e & after & Heq & _).
    now destruct before.
  - cbn [startup_options].
    destruct (acceptable h elem) eqn:Hacc.
    + destruct (proj2 (startup_option_accepts h st elem) Hacc) as [st1 H1].
      rewrite H1. cbn [bind]. rewrite IH. split.
      * intros (before & e & after & -> & Hbefore & He & Hf).
        exists (elem :: before), e, after. simpl. now rewrite Hacc.
      * intros (before & e & after & Heq & Hbefore & He & Hf).
        destruct before as [|b before]; simpl in Heq;
          injection Heq as <- ->.
        -- congruence.
        -- simpl in Hbefore. apply andb_prop in Hbefore as [_ Hbefore].
           now exists before, e, after.
    + rewrite startup_option_rejects by exact Hacc. cbn [bind]. split.
      * intros [= <-]. now exists [], elem, rest.
      * intros (before & e & after & Heq & Hbefore & He & Hf).
        destruct before as [|b before]; simpl in Heq;
          injection Heq as <- ->.
        -- now subst f.
        -- simpl in Hbefore. rewrite Hacc in Hbefore. discriminate.
Qed.

(** ** Sessions *)

Lemma pg_decode_begin_configuration (ctx : LogicalDecodingContext)
    (txn : ReorderBufferTXN) :
  configuration (output_plugin_private (pg_decode_begin ctx txn))
  = configuration (output_plugin_private ctx).
Proof.
  unfold pg_decode_begin, pg_output_begin, configuration.
  destruct ctx as [data o w]. destruct data as [x t s wr l m d i c]. simpl.
  destruct s, x, t; reflexivity.
Qed.

Lemma change_data_configuration (data : JsonDecodingData)
    (txn : ReorderBufferTXN) :
  configuration (change_data data txn) = configuration data.
Proof.
  unfold change_data, pg_output_begin, configuration.
  destruct data as [x t s wr l m d i c]. simpl.
  destruct s, wr, x, t; reflexivity.
Qed.

Lemma pg_decode_change_private (h : Host) (ctx ctx' : LogicalDecodingContext)
    (txn : ReorderBufferTXN) (relation : Relation)
    (change : ReorderBufferChange) :
  pg_decode_change h ctx txn relation change = Ok ctx' ->
  output_plugin_private ctx' = change_data (output_plugin_private ctx) txn.
Proof.
  unfold pg_decode_change.
  fold (change_data (output_plugin_private ctx) txn).
  destruct (change_text h (change_data (output_plugin_private ctx) txn) txn
              relation change) as [s|f]; simpl; [|discriminate].
  now intros [= <-].
Qed.

(** No callback after startup changes the configuration of the session:
    begin, a change that succeeds (of whatever action), commit and shutdown
    leave the six flags as they are. *)
Theorem configuration_is_kept (h : Host) (ctx ctx' : LogicalDecodingContext)
    (txn : ReorderBufferTXN) (relation : Relation)
    (change : ReorderBufferChange) (commit_lsn : N) :
  configuration (output_plugin_private (pg_decode_begin ctx txn))
  = configuration (output_plugin_private ctx)
  /\ (pg_decode_change h ctx txn relation change = Ok ctx' ->
      configuration (output_plugin_private ctx')
      = configuration (output_plugin_private ctx))
  /\ configuration
       (output_plugin_private (pg_decode_commit ctx txn commit_lsn))
     = configuration (output_plugin_private ctx)
  /\ configuration (output_plugin_private (pg_decode_shutdown ctx))
     = configuration (output_plugin_private ctx).
Proof.
  split; [apply pg_decode_begin_configuration|].
  split; [|split; reflexivity].
  intros H. rewrite (pg_decode_change_private _ _ _ _ _ _ H).
  apply change_data_configuration.
Qed.

(** The first change after begin notes the transaction in the private data
    whether empty transactions are skipped or not: after begin and one
    change, [xid] and [commit_time] are the transaction's (each if its
    option is set) and [xact_wrote_changes] is set. *)
Theorem first_change_notes_transaction (h : Host)
    (ctx ctx' : LogicalDecodingContext) (txn : ReorderBufferTXN)
    (relation : Relation) (change : ReorderBufferChange) :
  pg_decode_change h (pg_decode_begin ctx txn) txn relation change = Ok ctx' ->
  xid (output_plugin_private ctx')
  = (if include_xids (output_plugin_private ctx) then txn_xid txn
     else xid (output_plugin_private ctx))
  /\ commit_time (output_plugin_private ctx')
     = (if include_timestamp (output_plugin_private ctx)
        then txn_commit_time txn
        else commit_time (output_plugin_private ctx))
  /\ xact_wrote_changes (output_plugin_private ctx') = true.
Proof.
  intros H. rewrite (pg_decode_change_private _ _ _ _ _ _ H).
  unfold pg_decode_begin, change_data, pg_output_begin.
  destruct ctx as [data o w]. destruct data as [x t s wr l m d i c]. simpl.
  destruct s, x, t; simpl; repeat split.
Qed.

Lemma first_change_notes_transaction_witness :
  pg_decode_change (server false)
    (pg_decode_begin (fresh_ctx startup_defaults) txn_4542284) txn_4542284
    test_table insert_row_6
  = Ok running_ctx
  /\ xid (output_plugin_private running_ctx) = txn_xid txn_4542284
  /\ commit_time (output_plugin_private running_ctx)
     = txn_commit_time txn_4542284
  /\ xact_wrote_changes (output_plugin_private running_ctx) = true.
Proof.
  split; [reflexivity|].
  exact (first_change_notes_transaction (server false)
           (fresh_ctx startup_defaults) running_ctx txn_4542284 test_table
           insert_row_6 eq_refl).
Defined.

(** Once a change of the transaction was decoded, a further change leaves
    the private data as it is: [pg_output_begin] is not run again. *)
Theorem later_change_keeps_private_data (h : Host)
    (ctx ctx' : LogicalDecodingContext) (txn : ReorderBufferTXN)
    (relation : Relation) (change : ReorderBufferChange) :
  xact_wrote_changes (output_plugin_private ctx) = true ->
  pg_decode_change h ctx txn relation change = Ok ctx' ->
  output_plugin_private ctx' = output_plugin_private ctx.
Proof.
  intros Hwrote H. rewrite (pg_decode_change_private _ _ _ _ _ _ H).
  unfold change_data. rewrite Hwrote, andb_false_r.
  destruct (output_plugin_private ctx). simpl in *. now subst.
Qed.

Lemma later_change_keeps_private_data_witness :
  xact_wrote_changes (output_plugin_private running_ctx) = true
  /\ pg_decode_change (server false) running_ctx txn_4542284 test_table
       update_6_to_5
     = Ok (mkCtx (output_plugin_private running_ctx)
             (record_layout (server false) (fst startup_defaults)
                txn_4542284 test_table update_6_to_5)
             [record_layout (server false) (fst startup_defaults)
                txn_4542284 test_table insert_row_6;
              record_layout (server false) (fst startup_defaults)
                txn_4542284 test_table update_6_to_5])
  /\ output_plugin_private
       (mkCtx (output_plugin_private running_ctx)
          (record_layout (server false) (fst startup_defaults)
             txn_4542284 test_table update_6_to_5)
          [record_layout (server false) (fst startup_defaults)
             txn_4542284 test_table insert_row_6;
           record_layout (server false) (fst startup_defaults)
             txn_4542284 test_table update_6_to_5])
     = output_plugin_private running_ctx.
Proof.
  split; [reflexivity|].
  split; [reflexivity|].
  exact (later_change_keeps_private_data (server false) running_ctx _
           txn_4542284 test_table update_6_to_5 eq_refl eq_refl).
Defined.

(** ** The server's errors *)

Lemma calling_returned {A : Type} (faults : Faults) (call : server_call)
    (value a : A) :
  calling faults call value = Returned a -> a = value.
Proof.
  unfold calling. destruct (faults call); [discriminate|].
  now intros [= <-].
Qed.

Lemma calling_raised {A : Type} (faults : Faults) (call : server_call)
    (value : A) (e : raised) :
  calling faults call value = Raised e ->
  e = by_server call /\ faults call = true.
Proof.
  unfold calling. destruct (faults call) eqn:E; [|discriminate].
  now intros [= <-].
Qed.

Lemma tuple_to_json_field_checked_returned (h : Host) (faults : Faults)
    (s : string) (attr : Form_pg_attribute) (natt : nat) (tuple : HeapTuple)
    (skip_nulls include_toast_datum : bool) (turn : option string) :
  tuple_to_json_field_checked h faults s attr natt tuple skip_nulls
    include_toast_datum = Returned turn ->
  turn = tuple_to_json_field h s attr natt tuple skip_nulls
           include_toast_datum.
Proof.
  unfold tuple_to_json_field_checked, tuple_to_json_field.
  destruct (isColumnDeleted attr || isSystemColumn attr);
    [now intros [= <-]|].
  destruct (_ && skip_nulls); [now intros [= <-]|].
  unfold calling at 1.
  destruct (faults (call_getTypeOutputInfo (atttypid attr)));
    [discriminate|].
  cbn [and_then].
  destruct (getTypeOutputInfo h (atttypid attr)) as [typoutput varlena].
  destruct (heap_getattr tuple (natt + 1)) as [d|]; [|now intros [= <-]].
  destruct (varlena && VARATT_IS_EXTERNAL_ONDISK d && negb include_toast_datum);
    [now intros [= <-]|].
  destruct (negb varlena).
  - unfold calling. destruct (faults _); cbn [and_then]; [discriminate|].
    now intros [= <-].
  - unfold calling. destruct (faults _); cbn [and_then]; [discriminate|].
    destruct (faults _); cbn [and_then]; [discriminate|].
    now intros [= <-].
Qed.

Lemma tuple_to_json_field_checked_raised (h : Host) (faults : Faults)
    (s : string) (attr : Form_pg_attribute) (natt : nat) (tuple : HeapTuple)
    (skip_nulls include_toast_datum : bool) (e : raised) :
  tuple_to_json_field_checked h faults s attr natt tuple skip_nulls
    include_toast_datum = Raised e ->
  exists call : server_call, e = by_server call /\ faults call = true.
Proof.
  unfold tuple_to_json_field_checked.
  destruct (isColumnDeleted attr || isSystemColumn attr); [discriminate|].
  destruct (_ && skip_nulls); [discriminate|].
  unfold calling at 1.
  destruct (faults (call_getTypeOutputInfo (atttypid attr))) eqn:E.
  { cbn [and_then]. intros [= <-]. now eexists. }
  cbn [and_then].
  destruct (getTypeOutputInfo h (atttypid attr)) as [typoutput varlena].
  destruct (heap_getattr tuple (natt + 1)) as [d|]; [|discriminate].
  destruct (varlena && VARATT_IS_EXTERNAL_ONDISK d && negb include_toast_datum);
    [discriminate|].
  destruct (negb varlena).
  - unfold calling.
    destruct (faults (call_OidOutputFunctionCall typoutput d)) eqn:E1;
      cbn [and_then]; [|discriminate].
    intros [= <-]. now eexists.
  - unfold calling. destruct (faults (call_PG_DETOAST_DATUM d)) eqn:E1.
    { cbn [and_then]. intros [= <-]. now eexists. }
    cbn [and_then].
    destruct (faults (call_OidOutputFunctionCall typoutput
                        (PG_DETOAST_DATUM d))) eqn:E2;
      cbn [and_then]; [|discriminate].
    intros [= <-]. now eexists.
Qed.

Lemma tuple_to_json_fields_from_checked_returned (h : Host) (faults : Faults)
    (attrs : list Form_pg_attribute) (tuple : HeapTuple)
    (skip_nulls include_toast_datum : bool) (natt : nat) (s s' : string) :
  tuple_to_json_fields_from_checked h faults s attrs natt tuple skip_nulls
    include_toast_datum = Returned s' ->
  s' = tuple_to_json_fields_from h s attrs natt tuple skip_nulls
         include_toast_datum.
Proof.
  revert natt s.
  induction attrs as [|attr rest IH]; intros natt s; cbn.
  - now intros [= <-].
  - destruct (tuple_to_json_field_checked h faults s attr natt tuple
                skip_nulls include_toast_datum) as [turn|e] eqn:E;
      [|discriminate].
    apply tuple_to_json_field_checked_returned in E. subst turn.
    cbn [and_then]. apply IH.
Qed.

Lemma tuple_to_json_fields_from_checked_raised (h : Host) (faults : Faults)
    (attrs : list Form_pg_attribute) (tuple : HeapTuple)
    (skip_nulls include_toast_datum : bool) (natt : nat) (s : string)
    (e : raised) :
  tuple_to_json_fields_from_checked h faults s attrs natt tuple skip_nulls
    include_toast_datum = Raised e ->
  exists call : server_call, e = by_server call /\ faults call = true.
Proof.
  revert natt s.
  induction attrs as [|attr rest IH]; intros natt s; cbn; [discriminate|].
  destruct (tuple_to_json_field_checked h faults s attr natt tuple
              skip_nulls include_toast_datum) as [turn|e'] eqn:E.
  - cbn [and_then]. apply IH.
  - cbn [and_then]. intros [= <-].
    now apply tuple_to_json_field_checked_raised in E.
Qed.

Lemma tuple_to_json_fields_from_checked_no_fault (h : Host)
    (attrs : list Form_pg_attribute) (tuple : HeapTuple)
    (skip_nulls include_toast_datum : bool) (natt : nat) (s : string) :
  tuple_to_json_fields_from_checked h no_fault s attrs natt tuple skip_nulls
    include_toast_datum
  = Returned (tuple_to_json_fields_from h s attrs natt tuple skip_nulls
                include_toast_datum).
Proof.
  destruct (tuple_to_json_fields_from_checked h no_fault s attrs natt tuple
              skip_nulls include_toast_datum) as [s'|e] eqn:E.
  - apply tuple_to_json_fields_from_checked_returned in E. now subst s'.
  - apply tuple_to_json_fields_from_checked_raised in E
      as (call & _ & Hfault).
    discriminate.
Qed.

Lemma change_switch_checked_returned (h : Host) (faults : Faults)
    (s s' : string) (data : JsonDecodingData) (tupdesc : TupleDesc)
    (change : ReorderBufferChange) :
  change_switch_checked h faults s data tupdesc change = Returned s' ->
  change_switch h s data tupdesc change = Ok s'.
Proof.
  unfold change_switch_checked, change_switch, tuple_to_json_fields_checked,
    tuple_to_json_fields, Assert_checked.
  destruct (action change).
  - destruct (newtuple change) as [tuple|]; [|now intros [= <-]].
    intros E. now apply tuple_to_json_fields_from_checked_returned in E as <-.
  - destruct (oldtuple change) as [old|]; cbn [and_then].
    + destruct (tuple_to_json_fields_from_checked h faults _ tupdesc 0 old
                  true (include_toast_datum data)) as [block|e] eqn:Eold;
        cbn [and_then]; [|discriminate].
      apply tuple_to_json_fields_from_checked_returned in Eold as <-.
      destruct (newtuple change) as [tuple|]; [|now intros [= <-]].
      intros E.
      now apply tuple_to_json_fields_from_checked_returned in E as <-.
    + destruct (newtuple change) as [tuple|]; [|now intros [= <-]].
      intros E.
      now apply tuple_to_json_fields_from_checked_returned in E as <-.
  - destruct (oldtuple change) as [tuple|]; [|now intros [= <-]].
    intros E. now apply tuple_to_json_fields_from_checked_returned in E as <-.
  - destruct (Assert h false) as [[]|f]; cbn; [now intros [= <-]|discriminate].
  - destruct (Assert h false) as [[]|f]; cbn; [now intros [= <-]|discriminate].
  - destruct (Assert h false) as [[]|f]; cbn; [now intros [= <-]|discriminate].
  - destruct (Assert h false) as [[]|f]; cbn; [now intros [= <-]|discriminate].
  - destruct (Assert h false) as [[]|f]; cbn; [now intros [= <-]|discriminate].
  - destruct (Assert h false) as [[]|f]; cbn; [now intros [= <-]|discriminate].
  - destruct (Assert h false) as [[]|f]; cbn; [now intros [= <-]|discriminate].
Qed.

Lemma change_switch_checked_raised (h : Host) (faults : Faults)
    (s : string) (data : JsonDecodingData) (tupdesc : TupleDesc)
    (change : ReorderBufferChange) (e : raised) :
  change_switch_checked h faults s data tupdesc change = Raised e ->
  (e = by_plugin FailedAssertion
   /\ known_action (action change) = false
   /\ assert_checking h = true)
  \/ (exists call : server_call,
        e = by_server call
        /\ faults call = true
        /\ known_action (action change) = true).
Proof.
  assert (Hrow : forall s0 tuple skip_nulls,
             known_action (action change) = true ->
             tuple_to_json_fields_checked h faults s0 tupdesc tuple skip_nulls
               (include_toast_datum data) = Raised e ->
             exists call : server_call,
               e = by_server call
               /\ faults call = true
               /\ known_action (action change) = true).
  { intros s0 tuple skip_nulls Hknown E.
    apply tuple_to_json_fields_from_checked_raised in E
      as (call & -> & Hfault).
    now exists call. }
  unfold change_switch_checked, Assert_checked, Assert.
  destruct (action change) eqn:Haction;
    try (destruct (assert_checking h); cbn; [|discriminate];
         intros [= <-]; left; now repeat split).
  - destruct (newtuple change) as [tuple|]; [|discriminate].
    intros E. right. now apply Hrow in E.
  - destruct (oldtuple change) as [old|]; cbn [and_then].
    + destruct (tuple_to_json_fields_checked h faults _ tupdesc old true
                  (include_toast_datum data)) as [block|e'] eqn:Eold;
        cbn [and_then].
      * destruct (newtuple change) as [tuple|]; [|discriminate].
        intros E. right. now apply Hrow in E.
      * intros [= <-]. right. now apply Hrow in Eold.
    + destruct (newtuple change) as [tuple|]; [|discriminate].
      intros E. right. now apply Hrow in E.
  - destruct (oldtuple change) as [tuple|]; [|discriminate].
    intros E. right. now apply Hrow in E.
Qed.

Lemma change_text_checked_returned (h : Host) (faults : Faults)
    (data : JsonDecodingData) (txn : ReorderBufferTXN) (relation : Relation)
    (change : ReorderBufferChange) (s : string) :
  change_text_checked h faults data txn relation change = Returned s ->
  change_text h data txn relation change = Ok s.
Proof.
  unfold change_text_checked, change_text.
  destruct (change_switch_checked h faults _ data (rd_att relation) change)
    as [s'|e] eqn:E; cbn [and_then]; [|discriminate].
  apply change_switch_checked_returned in E. rewrite E.
  now intros [= <-].
Qed.

Lemma change_text_checked_raised (h : Host) (faults : Faults)
    (data : JsonDecodingData) (txn : ReorderBufferTXN) (relation : Relation)
    (change : ReorderBufferChange) (e : raised) :
  change_text_checked h faults data txn relation change = Raised e ->
  (e = by_plugin FailedAssertion
   /\ known_action (action change) = false
   /\ assert_checking h = true)
  \/ (exists call : server_call,
        e = by_server call
        /\ faults call = true
        /\ known_action (action change) = true).
Proof.
  unfold change_text_checked.
  destruct (change_switch_checked h faults _ data (rd_att relation) change)
    as [s'|e'] eqn:E; cbn [and_then]; [discriminate|].
  intros [= <-]. now apply change_switch_checked_raised in E.
Qed.

Lemma pg_decode_change_checked_raised (h : Host) (faults : Faults)
    (ctx : LogicalDecodingContext) (txn : ReorderBufferTXN)
    (relation : Relation) (change : ReorderBufferChange) (e : raised) :
  pg_decode_change_checked h faults ctx txn relation change = Raised e ->
  (e = by_plugin FailedAssertion
   /\ known_action (action change) = false
   /\ assert_checking h = true)
  \/ (exists call : server_call,
        e = by_server call
        /\ faults call = true
        /\ known_action (action change) = true).
Proof.
  unfold pg_decode_change_checked.
  destruct (change_text_checked h faults _ txn relation change)
    as [s|e'] eqn:E; cbn [and_then]; [discriminate|].
  intros [= <-]. now apply change_text_checked_raised in E.
Qed.

Lemma pg_decode_change_checked_returned (h : Host) (faults : Faults)
    (ctx ctx' : LogicalDecodingContext) (txn : ReorderBufferTXN)
    (relation : Relation) (change : ReorderBufferChange) :
  pg_decode_change_checked h faults ctx txn relation change = Returned ctx' ->
  pg_decode_change h ctx txn relation change = Ok ctx'.
Proof.
  unfold pg_decode_change_checked, pg_decode_change.
  destruct (change_text_checked h faults _ txn relation change)
    as [s|e] eqn:E; cbn [and_then]; [|discriminate].
  apply change_text_checked_returned in E. rewrite E.
  now intros [= <-].
Qed.

(** When no call of the server raises, the change callback ends as
    [pg_decode_change] does. *)
Lemma pg_decode_change_checked_no_fault (h : Host)
    (ctx : LogicalDecodingContext) (txn : ReorderBufferTXN)
    (relation : Relation) (change : ReorderBufferChange) :
  pg_decode_change_checked h no_fault ctx txn relation change
  = match pg_decode_change h ctx txn relation change with
    | Ok ctx' => Returned ctx'
    | Err f => Raised (by_plugin f)
    end.
Proof.
  destruct (pg_decode_change_checked h no_fault ctx txn relation change)
    as [ctx'|e] eqn:E.
  - apply pg_decode_change_checked_returned in E. now rewrite E.
  - apply pg_decode_change_checked_raised in E
      as [(-> & Hknown & Hassert)|(call & _ & Hfault & _)];
      [|discriminate].
    unfold pg_decode_change, change_text, change_switch, Assert.
    rewrite Hassert.
    destruct (action change); try discriminate Hknown; reflexivity.
Qed.

(** The change callback raises one error of its own: the failed assertion,
    for an action that is none of insert, update and delete, in a server
    built with assertion checking.  Every other failure of a change is the
    error of a call of the server that the row encoder makes (the type
    lookup, the fetch of a toasted value, the output function), for an
    insert, update or delete.  When the callback returns, it returns what
    [pg_decode_change] gives. *)
Theorem change_failure (h : Host) (faults : Faults)
    (ctx : LogicalDecodingContext) (txn : ReorderBufferTXN)
    (relation : Relation) (change : ReorderBufferChange) :
  (forall f : failure,
     pg_decode_change_checked h faults ctx txn relation change
     = Raised (by_plugin f)
     <-> f = FailedAssertion
         /\ known_action (action change) = false
         /\ assert_checking h = true)
  /\ (forall call : server_call,
        pg_decode_change_checked h faults ctx txn relation change
        = Raised (by_server call) ->
        known_action (action change) = true /\ faults call = true)
  /\ (forall ctx' : LogicalDecodingContext,
        pg_decode_change_checked h faults ctx txn relation change
        = Returned ctx' ->
        pg_decode_change h ctx txn relation change = Ok ctx').
Proof.
  split; [|split].
  - intros f. split.
    + intros E. apply pg_decode_change_checked_raised in E
        as [(Hf & Hknown & Hassert)|(call & Hf & _)]; [|discriminate].
      injection Hf as ->. now repeat split.
    + intros (-> & Hknown & Hassert).
      unfold pg_decode_change_checked, change_text_checked,
        change_switch_checked, Assert_checked, Assert.
      rewrite Hassert.
      destruct (action change); try discriminate Hknown; reflexivity.
  - intros call E. apply pg_decode_change_checked_raised in E
      as [(Hf & _)|(call' & Hf & Hfault & Hknown)]; [discriminate|].
    injection Hf as ->. now split.
  - intros ctx'. apply pg_decode_change_checked_returned.
Qed.

Lemma pg_decode_changes_known (h : Host) (txn : ReorderBufferTXN)
    (changes : list (Relation * ReorderBufferChange))
    (ctx : LogicalDecodingContext) :
  all_known changes = true ->
  exists ctx',
    pg_decode_changes h ctx txn changes = Ok ctx'
    /\ written ctx'
       = (written ctx
            ++ map (fun rc => record_layout h (output_plugin_private ctx) txn
                                (fst rc) (snd rc)) changes)%list
    /\ configuration (output_plugin_private ctx')
       = configuration (output_plugin_private ctx).
Proof.
  revert ctx.
  induction changes as [|[relation change] rest IH]; intros ctx Hknown.
  - exists ctx. simpl. now rewrite List.app_nil_r.
  - simpl in Hknown. apply andb_prop in Hknown as [Hfirst Hrest].
    cbn [pg_decode_changes].
    rewrite pg_decode_change_known by exact Hfirst. cbn [bind].
    destruct (IH (mkCtx (change_data (output_plugin_private ctx) txn)
                    (record_layout h (output_plugin_private ctx) txn relation
                       change)
                    (written ctx
                       ++ [record_layout h (output_plugin_private ctx) txn
                             relation change])) Hrest)
      as (ctx' & Hrun & Hwritten & Hconf).
    exists ctx'. split; [exact Hrun|].
    cbn [output_plugin_private written] in Hwritten, Hconf.
    rewrite change_data_configuration in Hconf.
    split; [|exact Hconf].
    rewrite Hwritten, <- List.app_assoc. cbn [map List.app fst snd].
    f_equal. f_equal.
    apply map_ext. intros [r c]. cbn [fst snd].
    destruct (change_data_flags (output_plugin_private ctx) txn)
      as (Hx & Ht & Hd).
    now apply record_layout_flags.
Qed.

(** A transaction of inserts, updates and deletes hands the transport one
    record for each change, in the order of the changes, after the records
    it already holds; each record is the one of its change under the
    session's configuration, whatever the other changes are; and the
    configuration is the same afterwards. *)
Theorem transaction_records (h : Host) (ctx : LogicalDecodingContext)
    (txn : ReorderBufferTXN) (changes : list (Relation * ReorderBufferChange))
    (commit_lsn : N) :
  all_known changes = true ->
  exists ctx',
    replay_transaction h ctx txn changes commit_lsn = Ok ctx'
    /\ written ctx'
       = (written ctx
            ++ map (fun rc => record_layout h (output_plugin_private ctx) txn
                                (fst rc) (snd rc)) changes)%list
    /\ configuration (output_plugin_private ctx')
       = configuration (output_plugin_private ctx).
Proof.
  intros Hknown.
  destruct (pg_decode_changes_known h txn changes (pg_decode_begin ctx txn)
              Hknown) as (ctx' & Hrun & Hwritten & Hconf).
  exists (pg_decode_commit ctx' txn commit_lsn).
  unfold replay_transaction. rewrite Hrun. cbn [bind].
  split; [reflexivity|].
  unfold pg_decode_commit.
  rewrite pg_decode_begin_configuration in Hconf.
  split; [|exact Hconf].
  rewrite Hwritten.
  replace (written (pg_decode_begin ctx txn)) with (written ctx)
    by (unfold pg_decode_begin, set_private;
        now destruct (skip_empty_xacts _)).
  f_equal. apply map_ext. intros [r c]. cbn [fst snd].
  pose proof (pg_decode_begin_configuration ctx txn) as Hc.
  unfold configuration in Hc. injection Hc as Hx Ht _ _ _ Hd.
  now apply record_layout_flags.
Qed.

Lemma transaction_records_witness :
  all_known documented_changes = true
  /\ exists ctx',
       replay_transaction (server false) (fresh_ctx startup_defaults)
         txn_4542284 documented_changes 0%N = Ok ctx'
       /\ written ctx'
          = (written (fresh_ctx startup_defaults)
               ++ map (fun rc =>
                         record_layout (server false)
                           (output_plugin_private
                              (fresh_ctx startup_defaults))
                           txn_4542284 (fst rc) (snd rc))
                    documented_changes)%list
       /\ configuration (output_plugin_private ctx')
          = configuration
              (output_plugin_private (fresh_ctx startup_defaults)).
Proof.
  split; [reflexivity|].
  exact (transaction_records (server false) (fresh_ctx startup_defaults)
           txn_4542284 documented_changes 0%N eq_refl).
Defined.

(** ** Rows and literals, further *)

(** A NULL of a column that is neither dropped nor a system column is
    printed as the column's name and [null] when NULLs are not skipped (the
    new image of an insert or update): what the row encoder gives is the
    buffer, the fields of the columns before it ([fields_text]), this
    field, and the fields of the columns after it.  When NULLs are skipped
    (the old-primary-key block, the old image of a delete) it has no field:
    the row encoder gives the buffer, the fields of the columns before it
    and the fields of the columns after it. *)
Theorem null_column_field (h : Host) (s : string)
    (before after : list Form_pg_attribute) (attr : Form_pg_attribute)
    (tuple : HeapTuple) (include_toast_datum : bool) :
  isColumnDeleted attr = false ->
  isSystemColumn attr = false ->
  heap_getattr tuple (length before + 1) = None ->
  tuple_to_json_fields h s (before ++ attr :: after)%list tuple false
    include_toast_datum
  = s ++ fields_text h before 0 tuple false include_toast_datum
      ++ (if (0 <? length before)%nat then "," else EmptyString)
      ++ cstr " '" ++ quote_identifier h (attname attr) ++ cstr "': null"
      ++ fields_text h after (S (length before)) tuple false
           include_toast_datum
  /\ tuple_to_json_fields h s (before ++ attr :: after)%list tuple true
       include_toast_datum
     = s ++ fields_text h before 0 tuple true include_toast_datum
         ++ fields_text h after (S (length before)) tuple true
              include_toast_datum.
Proof.
  intros Hdropped Hsystem Hnull.
  rewrite !tuple_to_json_fields_eq.
  rewrite !fields_text_app. cbn [fields_text Nat.add].
  unfold emits, att_isnull, field_text, value_text.
  rewrite Hdropped, Hsystem, Hnull.
  split; destruct (0 <? length before)%nat; flatten_appends; reflexivity.
Qed.

Lemma null_column_field_witness :
  isColumnDeleted (mkAttr "body" TEXTOID 2 false) = false
  /\ isSystemColumn (mkAttr "body" TEXTOID 2 false) = false
  /\ heap_getattr note_without_body
       (length [mkAttr "id" INT4OID 1 false] + 1) = None
  /\ tuple_to_json_fields (server false) EmptyString
       ([mkAttr "id" INT4OID 1 false] ++ mkAttr "body" TEXTOID 2 false :: [])%list
       note_without_body false true
     = cstr " 'id': 7, 'body': null"
  /\ tuple_to_json_fields (server false) EmptyString
       ([mkAttr "id" INT4OID 1 false] ++ mkAttr "body" TEXTOID 2 false :: [])%list
       note_without_body true true
     = cstr " 'id': 7".
Proof.
  do 3 (split; [reflexivity|]).
  exact (null_column_field (server false) EmptyString
           [mkAttr "id" INT4OID 1 false] [] (mkAttr "body" TEXTOID 2 false)
           note_without_body true eq_refl eq_refl eq_refl).
Defined.

Lemma heap_getattr_all_null (tuple : HeapTuple) (attnum : nat) :
  forallb is_null tuple = true -> heap_getattr tuple attnum = None.
Proof.
  intros Hall. unfold heap_getattr.
  destruct (nth_error tuple (attnum - 1)) as [v|] eqn:Hnth; [|reflexivity].
  apply nth_error_In in Hnth.
  rewrite forallb_forall in Hall. specialize (Hall v Hnth).
  now destruct v.
Qed.

(** When NULLs are skipped, a tuple that stores no value (it is empty, or
    all NULL) gets no field at all: the buffer is left as it is, whatever
    the schema. *)
Theorem null_tuple_has_no_field (h : Host) (s : string) (tupdesc : TupleDesc)
    (tuple : HeapTuple) (include_toast_datum : bool) :
  forallb is_null tuple = true ->
  tuple_to_json_fields h s tupdesc tuple true include_toast_datum = s.
Proof.
  intros Hall. rewrite tuple_to_json_fields_eq.
  rewrite (none_emitted_text h); [apply append_nil_r|].
  generalize 0 as natt.
  induction tupdesc as [|attr rest IH]; intros natt; simpl; [reflexivity|].
  rewrite IH, andb_true_r.
  unfold emits, att_isnull.
  rewrite heap_getattr_all_null by exact Hall.
  now rewrite andb_false_r.
Qed.

Lemma null_tuple_has_no_field_witness :
  forallb is_null [None; None; None] = true
  /\ tuple_to_json_fields (server false) (cstr "'DELETE', ")
       (rd_att test_table) [None; None; None] true true
     = cstr "'DELETE', ".
Proof.
  split; [reflexivity|].
  exact (null_tuple_has_no_field (server false) (cstr "'DELETE', ")
           (rd_att test_table) [None; None; None] true eq_refl).
Defined.

(** The row encoder and the literal formatter only append: the buffer they
    are given is a prefix of their result, and what they append does not
    depend on it. *)
Theorem encoders_only_append (h : Host) (s : string) (tupdesc : TupleDesc)
    (tuple : HeapTuple) (skip_nulls include_toast_datum : bool)
    (typid : Oid) (text : string) :
  tuple_to_json_fields h s tupdesc tuple skip_nulls include_toast_datum
  = s ++ tuple_to_json_fields h EmptyString tupdesc tuple skip_nulls
           include_toast_datum
  /\ print_literal h s typid text
     = s ++ print_literal h EmptyString typid text.
Proof.
  split; [|apply print_literal_grows].
  now rewrite !tuple_to_json_fields_eq.
Qed.

Lemma bits_plain (text : string) : bits text = true -> json_plain text = true.
Proof.
  unfold bits, json_plain.
  induction text as [|c rest IH]; simpl; [reflexivity|].
  intros H. apply andb_prop in H as [Hc Hrest].
  rewrite (IH Hrest), andb_true_r.
  apply orb_prop in Hc as [Hc | Hc]; apply Ascii.eqb_eq in Hc; now subst c.
Qed.

(** A value of type bit or varbit is printed as its text between double
    quotes, and for a text of the digits 0 and 1 this is a JSON string that
    decodes to the text. *)
Theorem print_literal_bit (h : Host) (s text : string) (typid : Oid) :
  typid = BITOID \/ typid = VARBITOID ->
  print_literal h s typid text
  = s ++ String dquote (text ++ String dquote EmptyString)
  /\ (bits text = true ->
      Json.decode_string (print_literal h EmptyString typid text)
      = Some text).
Proof.
  intros Htype.
  assert (H : forall s', print_literal h s' typid text
                         = s' ++ String dquote
                                   (text ++ String dquote EmptyString))
    by (intros s'; destruct Htype as [-> | ->]; reflexivity).
  split; [apply H|].
  intros Hbits. rewrite H. simpl.
  apply decode_plain. now apply bits_plain.
Qed.

Lemma print_literal_bit_witness :
  (VARBITOID = BITOID \/ VARBITOID = VARBITOID)
  /\ print_literal (server false) (cstr " 'flags': ") VARBITOID "0110"
     = cstr " 'flags': '0110'"
  /\ bits "0110" = true
  /\ Json.decode_string
       (print_literal (server false) EmptyString VARBITOID "0110")
     = Some "0110".
Proof.
  split; [right; reflexivity|].
  destruct (print_literal_bit (server false) (cstr " 'flags': ") "0110"
              VARBITOID (or_intror eq_refl)) as [Htext Hjson].
  split; [exact Htext|].
  split; [reflexivity|].
  exact (Hjson eq_refl).
Defined.

Lemma undouble_print_literal_chars (h : Host) (text : string) :
  undouble h (print_literal_chars h EmptyString text) = Some text.
Proof.
  induction text as [|ch rest IH]; [reflexivity|].
  cbn [print_literal_chars]. rewrite print_literal_chars_grows.
  unfold appendStringInfoChar.
  destruct (SQL_STR_DOUBLE h ch false) eqn:Hdouble; simpl;
    rewrite Hdouble, ?Ascii.eqb_refl, IH; reflexivity.
Qed.

Lemma append_inv_last (a b : string) (c : ascii) :
  a ++ String c EmptyString = b ++ String c EmptyString -> a = b.
Proof.
  revert b.
  induction a as [|x a IH]; intros [|y b] H; simpl in H.
  - reflexivity.
  - injection H as _ H. now destruct b.
  - injection H as _ H. now destruct a.
  - injection H as -> H. f_equal. now apply IH.
Qed.

(** For every type but boolean, two values are printed alike only if the
    server prints the same text for them: what [print_literal] appends
    tells the text. *)
Theorem print_literal_injective (h : Host) (s text text' : string)
    (typid : Oid) :
  typid <> BOOLOID ->
  print_literal h s typid text = print_literal h s typid text' ->
  text = text'.
Proof.
  intros Htype H.
  rewrite (print_literal_grows h s typid text),
    (print_literal_grows h s typid text') in H.
  apply append_inv_head in H.
  destruct (literal_switch typid) eqn:Hcase.
  - unfold print_literal in H. now rewrite Hcase in H.
  - unfold print_literal in H. rewrite Hcase in H. simpl in H.
    injection H as H. now apply append_inv_last in H.
  - exfalso. apply Htype. unfold literal_switch in Hcase.
    destruct (N.eqb typid INT2OID || N.eqb typid INT4OID
              || N.eqb typid INT8OID || N.eqb typid OIDOID
              || N.eqb typid FLOAT4OID || N.eqb typid FLOAT8OID
              || N.eqb typid NUMERICOID); [discriminate|].
    destruct (N.eqb typid BITOID || N.eqb typid VARBITOID); [discriminate|].
    destruct (N.eqb_spec typid BOOLOID); [assumption | discriminate].
  - rewrite !print_literal_default in H by exact Hcase.
    injection H as H. apply append_inv_last in H.
    apply (f_equal (undouble h)) in H.
    rewrite !undouble_print_literal_chars in H. now injection H.
Qed.

Lemma print_literal_injective_witness :
  TEXTOID <> BOOLOID
  /\ print_literal (server false) EmptyString TEXTOID "it's"
     = print_literal (server false) EmptyString TEXTOID "it's"
  /\ "it's" = "it's".
Proof.
  split; [discriminate|].
  split; [reflexivity|].
  exact (print_literal_injective (server false) EmptyString "it's" "it's"
           TEXTOID ltac:(discriminate) eq_refl).
Defined.

(** ** Records, further *)

Lemma fields_text_later (h : Host) (attrs : list Form_pg_attribute)
    (tuple : HeapTuple) (skip_nulls include_toast_datum : bool) (natt : nat) :
  1 <= natt ->
  fields_text h attrs natt tuple skip_nulls include_toast_datum = EmptyString
  \/ exists rest,
       fields_text h attrs natt tuple skip_nulls include_toast_datum
       = String "," rest.
Proof.
  revert natt.
  induction attrs as [|attr rest IH]; intros natt Hnatt; simpl;
    [now left|].
  destruct (emits attr natt tuple skip_nulls).
  - right. unfold field_text.
    destruct natt as [|natt]; [lia|].
    change (0 <? S natt)%nat with true. cbv iota. simpl. eauto.
  - apply IH. lia.
Qed.

(** Without the field of the first column, the fields and the closing brace
    cannot follow the comma of the operation. *)
Lemma run_fields_without_first (limit : nat) (h : Host)
    (stack : list Json.container) (tupdesc : TupleDesc) (tuple : HeapTuple)
    (skip_nulls include_toast_datum : bool) :
  leads tupdesc tuple skip_nulls = false ->
  Json.run limit (Some (Json.st_key, stack))
    (fields_text h tupdesc 0 tuple skip_nulls include_toast_datum ++ " }")
  = None.
Proof.
  intros Hleads.
  assert (Hcases :
            fields_text h tupdesc 0 tuple skip_nulls include_toast_datum
            = EmptyString
            \/ exists rest,
                 fields_text h tupdesc 0 tuple skip_nulls include_toast_datum
                 = String "," rest).
  { destruct tupdesc as [|attr rest]; [now left|].
    simpl in Hleads. simpl. rewrite Hleads. simpl.
    apply fields_text_later. lia. }
  destruct Hcases as [-> | [rest ->]]; [reflexivity|].
  simpl. apply run_None.
Qed.

Lemma run_image_without_first (limit : nat) (h : Host) (tupdesc : TupleDesc)
    (change : ReorderBufferChange) (include_toast_datum : bool) :
  first_column_printed tupdesc change = false ->
  Json.run limit (Some (Json.st_key, [Json.in_object]))
    (image_text h tupdesc (closing_image change) (closing_skip_nulls change)
       include_toast_datum ++ " }")
  = None.
Proof.
  unfold first_column_printed, image_text.
  destruct (closing_image change) as [tuple|]; [|reflexivity].
  apply run_fields_without_first.
Qed.

Lemma record_layout_without_first_column (h : Host)
    (data : JsonDecodingData) (txn : ReorderBufferTXN) (relation : Relation)
    (change : ReorderBufferChange) (limit : nat) :
  known_action (action change) = true ->
  nesting change = 1 ->
  json_plain (table_identity h relation) = true ->
  negb (include_timestamp data)
  || json_plain (timestamptz_to_str h (txn_commit_time txn)) = true ->
  first_column_printed (rd_att relation) change = false ->
  Json.text_within limit (record_layout h data txn relation change) = false.
Proof.
  intros Hknown Hnesting Htable Htime Hfirst.
  unfold Json.text_within, record_layout.
  rewrite run_app.
  destruct limit as [|l]; [simpl; now rewrite run_None|].
  change (Json.run (S l) (Some (Json.st_value, []))
            (cstr "{ 'pg_change_table': '"))
    with (Some (Json.st_string false, [Json.in_object])).
  rewrite run_app, run_plain by exact Htable.
  rewrite run_app.
  change (Json.run (S l) (Some (Json.st_string false, [Json.in_object]))
            (cstr "', "))
    with (Some (Json.st_key, [Json.in_object])).
  rewrite run_app, run_metadata by exact Htime.
  rewrite run_app.
  change (Json.run (S l) (Some (Json.st_key, [Json.in_object]))
            (cstr " 'pg_change_type': "))
    with (Some (Json.st_value, [Json.in_object])).
  pose proof (run_image_without_first (S l) h (rd_att relation) change
                (include_toast_datum data) Hfirst) as Himage.
  unfold operation_text, nesting, closing_image, closing_skip_nulls in *.
  destruct (action change); try discriminate Hknown.
  - rewrite append_assoc, run_app.
    change (Json.run (S l) (Some (Json.st_value, [Json.in_object]))
              (cstr "'INSERT', "))
      with (Some (Json.st_key, [Json.in_object])).
    now rewrite Himage.
  - destruct (oldtuple change); [discriminate Hnesting|].
    unfold old_primary_key_text.
    rewrite !append_assoc, run_app.
    change (Json.run (S l) (Some (Json.st_value, [Json.in_object]))
              (cstr "'UPDATE', "))
      with (Some (Json.st_key, [Json.in_object])).
    simpl append at 1. now rewrite Himage.
  - rewrite append_assoc, run_app.
    change (Json.run (S l) (Some (Json.st_value, [Json.in_object]))
              (cstr "'DELETE', "))
      with (Some (Json.st_key, [Json.in_object])).
    now rewrite Himage.
Qed.

(** For an insert, update or delete without an old-primary-key block, the
    change callback writes a record that is not a JSON text when the row
    image is missing or the first column of the schema has no field in it
    (it is dropped, a system column, or a NULL that is skipped): the fields
    then start with a comma, or there is none after the comma of the
    operation.  The table name and the commit time are taken to need no
    escaping. *)
Theorem record_without_first_column_not_json (h : Host)
    (ctx : LogicalDecodingContext) (txn : ReorderBufferTXN)
    (relation : Relation) (change : ReorderBufferChange) (limit : nat) :
  known_action (action change) = true ->
  nesting change = 1 ->
  json_plain (table_identity h relation) = true ->
  negb (include_timestamp (output_plugin_private ctx))
  || json_plain (timestamptz_to_str h (txn_commit_time txn)) = true ->
  first_column_printed (rd_att relation) change = false ->
  exists ctx' : LogicalDecodingContext,
    pg_decode_change h ctx txn relation change = Ok ctx'
    /\ written ctx' = (written ctx ++ [out ctx'])%list
    /\ Json.text_within limit (out ctx') = false
    /\ Json.text (out ctx') = false.
Proof.
  intros Hknown Hnesting Htable Htime Hfirst.
  rewrite pg_decode_change_known by exact Hknown.
  eexists. split; [reflexivity|].
  cbn [written out].
  split; [reflexivity|].
  split; now apply record_layout_without_first_column.
Qed.

Lemma record_without_first_column_not_json_witness :
  known_action
    (action (mkChange REORDER_BUFFER_CHANGE_INSERT None
               (Some [None; inline "t"; inline "6"]))) = true
  /\ nesting (mkChange REORDER_BUFFER_CHANGE_INSERT None
                (Some [None; inline "t"; inline "6"])) = 1
  /\ json_plain (table_identity (server false) altered_table) = true
  /\ negb (include_timestamp
             (output_plugin_private (fresh_ctx startup_defaults)))
     || json_plain
          (timestamptz_to_str (server false) (txn_commit_time txn_4542284))
     = true
  /\ first_column_printed (rd_att altered_table)
       (mkChange REORDER_BUFFER_CHANGE_INSERT None
          (Some [None; inline "t"; inline "6"])) = false
  /\ exists ctx' : LogicalDecodingContext,
       pg_decode_change (server false) (fresh_ctx startup_defaults)
         txn_4542284 altered_table
         (mkChange REORDER_BUFFER_CHANGE_INSERT None
            (Some [None; inline "t"; inline "6"])) = Ok ctx'
       /\ written ctx'
          = (written (fresh_ctx startup_defaults) ++ [out ctx'])%list
       /\ Json.text_within 2 (out ctx') = false
       /\ Json.text (out ctx') = false.
Proof.
  do 5 (split; [reflexivity|]).
  exact (record_without_first_column_not_json (server false)
           (fresh_ctx startup_defaults) txn_4542284 altered_table
           (mkChange REORDER_BUFFER_CHANGE_INSERT None
              (Some [None; inline "t"; inline "6"]))
           2 eq_refl eq_refl eq_refl eq_refl eq_refl).
Defined.

Lemma all_chars_app (p : ascii -> bool) (a b : string) :
  all_chars p (a ++ b) = all_chars p a && all_chars p b.
Proof.
  induction a as [|c a IH]; simpl; [reflexivity|].
  now rewrite IH, andb_assoc.
Qed.

Lemma all_chars_print_literal_chars (p : ascii -> bool) (h : Host)
    (text : string) :
  all_chars p text = true ->
  all_chars p (print_literal_chars h EmptyString text) = true.
Proof.
  induction text as [|ch rest IH]; intros Hp; [reflexivity|].
  simpl in Hp. apply andb_prop in Hp as [Hch Hrest].
  cbn [print_literal_chars].
  rewrite print_literal_chars_grows, all_chars_app, (IH Hrest).
  unfold appendStringInfoChar.
  destruct (SQL_STR_DOUBLE h ch false); simpl; now rewrite Hch.
Qed.

Lemma one_line_print_literal (h : Host) (typid : Oid) (text : string) :
  one_line text = true ->
  one_line (print_literal h EmptyString typid text) = true.
Proof.
  intros Htext. unfold one_line in *.
  destruct (literal_switch typid) eqn:Hcase.
  - unfold print_literal. now rewrite Hcase.
  - unfold print_literal. rewrite Hcase. simpl.
    now rewrite all_chars_app, Htext.
  - unfold print_literal. rewrite Hcase.
    now destruct (String.eqb text "t").
  - rewrite print_literal_default by exact Hcase. simpl.
    rewrite all_chars_app, all_chars_print_literal_chars by exact Htext.
    reflexivity.
Qed.

Lemma one_line_digits (d : Decimal.uint) :
  one_line (NilEmpty.string_of_uint d) = true.
Proof.
  unfold one_line. induction d; simpl; auto.
Qed.

Lemma one_line_print_u (n : N) : one_line (print_u n) = true.
Proof.
  unfold print_u, NilZero.string_of_uint.
  destruct (N.to_uint n) eqn:Hd; try rewrite <- Hd;
    [reflexivity | rewrite Hd; apply one_line_digits ..].
Qed.

Lemma one_line_heap_getattr (tuple : HeapTuple) (attnum : nat) (d : Datum) :
  tuple_one_line (Some tuple) = true ->
  heap_getattr tuple attnum = Some d ->
  one_line (datum_text d) = true.
Proof.
  unfold tuple_one_line, heap_getattr. intros Hall Hget.
  destruct (nth_error tuple (attnum - 1)) as [v|] eqn:Hnth; [|discriminate].
  subst v. apply nth_error_In in Hnth.
  rewrite forallb_forall in Hall. exact (Hall _ Hnth).
Qed.

Lemma one_line_fields_text (h : Host) (attrs : list Form_pg_attribute)
    (tuple : HeapTuple) (skip_nulls include_toast_datum : bool) (natt : nat) :
  forallb (fun attr => one_line (quote_identifier h (attname attr))) attrs
  = true ->
  tuple_one_line (Some tuple) = true ->
  one_line (fields_text h attrs natt tuple skip_nulls include_toast_datum)
  = true.
Proof.
  intros Hnames Htuple. revert natt.
  induction attrs as [|attr rest IH]; intros natt; [reflexivity|].
  simpl in Hnames. apply andb_prop in Hnames as [Hname Hrest].
  cbn [fields_text]. unfold one_line in *.
  rewrite all_chars_app, (IH Hrest), andb_true_r.
  destruct (emits attr natt tuple skip_nulls); [|reflexivity].
  unfold field_text.
  rewrite !all_chars_app, Hname.
  assert (Hvalue : all_chars (fun c => negb (Ascii.eqb c newline))
                     (value_text h (atttypid attr)
                        (heap_getattr tuple (natt + 1)) include_toast_datum)
                   = true).
  { unfold value_text.
    destruct (heap_getattr tuple (natt + 1)) as [d|] eqn:Hget;
      [|reflexivity].
    destruct (snd (getTypeOutputInfo h (atttypid attr))
              && VARATT_IS_EXTERNAL_ONDISK d && negb include_toast_datum);
      [reflexivity|].
    apply one_line_print_literal.
    exact (one_line_heap_getattr tuple _ d Htuple Hget). }
  rewrite Hvalue. now destruct (0 <? natt)%nat.
Qed.

Lemma one_line_image_text (h : Host) (tupdesc : TupleDesc)
    (tuple : option HeapTuple) (skip_nulls include_toast_datum : bool) :
  forallb (fun attr => one_line (quote_identifier h (attname attr))) tupdesc
  = true ->
  tuple_one_line tuple = true ->
  one_line (image_text h tupdesc tuple skip_nulls include_toast_datum) = true.
Proof.
  intros Hnames Htuple. destruct tuple as [tuple|]; [|reflexivity].
  now apply one_line_fields_text.
Qed.

Lemma one_line_record_layout (h : Host) (data : JsonDecodingData)
    (txn : ReorderBufferTXN) (relation : Relation)
    (change : ReorderBufferChange) :
  texts_one_line h txn relation change = true ->
  one_line (record_layout h data txn relation change) = true.
Proof.
  unfold texts_one_line. intros H.
  apply andb_prop in H as [H Hnew]. apply andb_prop in H as [H Hold].
  apply andb_prop in H as [H Hnames]. apply andb_prop in H as [Htable Htime].
  pose proof (one_line_image_text h (rd_att relation) (newtuple change) false
                (include_toast_datum data) Hnames Hnew) as Hnewtext.
  pose proof (one_line_image_text h (rd_att relation) (oldtuple change) true
                (include_toast_datum data) Hnames Hold) as Holdtext.
  assert (Hkey : one_line (old_primary_key_text h (rd_att relation)
                             (oldtuple change) (include_toast_datum data))
                 = true).
  { unfold old_primary_key_text.
    destruct (oldtuple change) as [tuple|]; [|reflexivity].
    unfold one_line. rewrite !all_chars_app.
    fold (one_line (fields_text h (rd_att relation) 0 tuple true
                      (include_toast_datum data))).
    now rewrite (one_line_fields_text h _ tuple true _ 0 Hnames Hold). }
  assert (Hmeta : one_line (metadata_text h data txn) = true).
  { unfold metadata_text, one_line. rewrite all_chars_app.
    destruct (include_timestamp data), (include_xids data);
      rewrite ?all_chars_app;
      fold (one_line (print_u (txn_xid txn)));
      fold (one_line (timestamptz_to_str h (txn_commit_time txn)));
      now rewrite ?Htime, ?one_line_print_u. }
  unfold record_layout, operation_text, one_line in *.
  rewrite !all_chars_app, Htable, Hmeta.
  destruct (action change); rewrite ?all_chars_app;
    now rewrite ?Hnewtext, ?Holdtext, ?Hkey.
Qed.

Lemma change_text_layout (h : Host) (data : JsonDecodingData)
    (txn : ReorderBufferTXN) (relation : Relation)
    (change : ReorderBufferChange) (s : string) :
  change_text h data txn relation change = Ok s ->
  s = record_layout h data txn relation change.
Proof.
  destruct (known_action (action change)) eqn:Hknown.
  - rewrite change_text_known by exact Hknown. now intros [= <-].
  - unfold change_text, change_switch, Assert, record_layout, metadata_text,
      operation_text.
    fold (table_identity h relation).
    destruct (assert_checking h);
      destruct (action change); try discriminate Hknown; simpl bind;
      try discriminate; intros [= <-];
      destruct (include_timestamp data), (include_xids data);
      flatten_appends; reflexivity.
Qed.

(** A record is one line: when the table name, the commit time, the column
    names and the values that the server gives have no newline, the record
    that a change hands to the transport has none, whatever the action and
    the configuration. *)
Theorem record_is_one_line (h : Host) (ctx ctx' : LogicalDecodingContext)
    (txn : ReorderBufferTXN) (relation : Relation)
    (change : ReorderBufferChange) :
  texts_one_line h txn relation change = true ->
  pg_decode_change h ctx txn relation change = Ok ctx' ->
  written ctx' = (written ctx ++ [out ctx'])%list
  /\ one_line (out ctx') = true.
Proof.
  intros Htexts H.
  unfold pg_decode_change in H.
  destruct (change_text h _ txn relation change) as [s|f] eqn:Htext;
    [|discriminate H].
  simpl in H. injection H as <-. simpl.
  split; [reflexivity|].
  apply change_text_layout in Htext. subst s.
  now apply one_line_record_layout.
Qed.

Lemma record_is_one_line_witness :
  texts_one_line (server false) txn_4542284 test_table update_6_to_5 = true
  /\ pg_decode_change (server false) running_ctx txn_4542284 test_table
       update_6_to_5
     = Ok (mkCtx (output_plugin_private running_ctx)
             (record_layout (server false) (fst startup_defaults)
                txn_4542284 test_table update_6_to_5)
             (written running_ctx
                ++ [record_layout (server false) (fst startup_defaults)
                      txn_4542284 test_table update_6_to_5]))
  /\ one_line
       (record_layout (server false) (fst startup_defaults) txn_4542284
          test_table update_6_to_5) = true.
Proof.
  split; [reflexivity|].
  split; [reflexivity|].
  exact (proj2 (record_is_one_line (server false) running_ctx
                  (mkCtx (output_plugin_private running_ctx)
                     (record_layout (server false) (fst startup_defaults)
                        txn_4542284 test_table update_6_to_5)
                     (written running_ctx
                        ++ [record_layout (server false)
                              (fst startup_defaults) txn_4542284 test_table
                              update_6_to_5]))
                  txn_4542284 test_table update_6_to_5 eq_refl eq_refl)).
Defined.
